(** * AsyncButton: debounce, classification and mirroring of push buttons

    A shallow embedding of [src/AsyncButton.cpp] and [src/AsyncButton.h].

    - [unsigned long] is a 32-bit word: a [Z] in [0, 2^32), subtraction
      wraps ([usub]).  The three timing macros are parameters of the
      development, taken as clock values; the header's defaults are
      50, 400 and 1000.
    - [uint8_t] pins are [Z]; 255 marks an unused slot.
    - Levels are the two values [digitalRead] returns, [LOW] and [HIGH];
      [PRESSED] and [RELEASED] are the header's names for them.  The
      [state] and [lastReading] fields only ever hold one of the two.
    - The active registry ([Current->buttons], [Current->size]) is a
      [list State]; a [State *] into it is an index, [nullptr] is [None].
      [setup] binds every [mappedState] inside the registry it is given;
      a write through an index past the end does nothing.
    - The clock and the input port are read from outside: every entry
      point takes the value [millis()] returns during the call, and
      [update] takes the levels [digitalRead] returns during the poll.
    - The long-press callback is opaque: [update] counts its invocations;
      the callback is taken not to touch the registry. *)

From Stdlib Require Import ZArith Lia List Bool.
From stdpp Require Import base option list.

Local Open Scope Z_scope.

Module AsyncButton.

(** ** Machine words *)

Definition ULONG_MODULUS : Z := 2 ^ 32.

Definition wrap (z : Z) : Z := z mod ULONG_MODULUS.

(** [a - b] on [unsigned long]. *)
Definition usub (a b : Z) : Z := wrap (a - b).

(** ** Levels and pins *)

Inductive Level : Set := LOW | HIGH.

Definition PRESSED : Level := LOW.
Definition RELEASED : Level := HIGH.

Definition level_eqb (a b : Level) : bool :=
  match a, b with
  | LOW, LOW | HIGH, HIGH => true
  | _, _ => false
  end.

(** ** [struct State] *)

Record State : Set := mkState {
  pin : Z;
  state : Level;
  doublePress : bool;
  duration : Z;
  last_time : Z;
  lastReading : Level;
  lastChangeTime : Z;
  lastLongPressCallback : Z;
  mappedPin : Z;
  mappedState : option nat
}.

Definition set_state (v : Level) (b : State) : State :=
  mkState (pin b) v (doublePress b) (duration b) (last_time b) (lastReading b)
    (lastChangeTime b) (lastLongPressCallback b) (mappedPin b) (mappedState b).

Definition set_doublePress (v : bool) (b : State) : State :=
  mkState (pin b) (state b) v (duration b) (last_time b) (lastReading b)
    (lastChangeTime b) (lastLongPressCallback b) (mappedPin b) (mappedState b).

Definition set_duration (v : Z) (b : State) : State :=
  mkState (pin b) (state b) (doublePress b) v (last_time b) (lastReading b)
    (lastChangeTime b) (lastLongPressCallback b) (mappedPin b) (mappedState b).

Definition set_last_time (v : Z) (b : State) : State :=
  mkState (pin b) (state b) (doublePress b) (duration b) v (lastReading b)
    (lastChangeTime b) (lastLongPressCallback b) (mappedPin b) (mappedState b).

Definition set_lastReading (v : Level) (b : State) : State :=
  mkState (pin b) (state b) (doublePress b) (duration b) (last_time b) v
    (lastChangeTime b) (lastLongPressCallback b) (mappedPin b) (mappedState b).

Definition set_lastChangeTime (v : Z) (b : State) : State :=
  mkState (pin b) (state b) (doublePress b) (duration b) (last_time b)
    (lastReading b) v (lastLongPressCallback b) (mappedPin b) (mappedState b).

Definition set_lastLongPressCallback (v : Z) (b : State) : State :=
  mkState (pin b) (state b) (doublePress b) (duration b) (last_time b)
    (lastReading b) (lastChangeTime b) v (mappedPin b) (mappedState b).

Definition set_mappedState (v : option nat) (b : State) : State :=
  mkState (pin b) (state b) (doublePress b) (duration b) (last_time b)
    (lastReading b) (lastChangeTime b) (lastLongPressCallback b) (mappedPin b) v.

(** ** [getState] *)

(** The loop of [getState], started at slot [i]. *)
Fixpoint getState_from (i : nat) (buttons : list State) (p : Z) : option nat :=
  match buttons with
  | [] => None
  | b :: rest => if pin b =? p then Some i else getState_from (S i) rest p
  end.

Definition getState (reg : list State) (p : Z) : option nat :=
  if p =? 255 then None else getState_from 0 reg p.

(** ** [reset] *)

(** The aggregate both assignments of [reset] write: every transient field
    cleared, [lastChangeTime] set to the clock, identity and mapping kept. *)
Definition cleared (now : Z) (b : State) : State :=
  mkState (pin b) RELEASED false 0 0 RELEASED now 0 (mappedPin b) (mappedState b).

Definition reset (now : Z) (reg : list State) (p : Z) : list State :=
  match getState reg p with
  | None => reg
  | Some button =>
      let reg1 := alter (cleared now) button reg in
      imap (fun i mappedButton =>
              if (mappedPin mappedButton =? p) && negb (Nat.eqb i button)
              then cleared now mappedButton
              else mappedButton) reg1
  end.

(** ** [setup]

    Binds the mapping pointers: every used slot that names a [mappedPin]
    gets [getState mappedPin].  The lookups read pins only, which [setup]
    does not write, so they are all taken in the registry as passed. *)
Definition setup (conf : list State) : list State :=
  (fun b =>
     if negb (pin b =? 255) && negb (mappedPin b =? 255)
     then set_mappedState (getState conf (mappedPin b)) b
     else b) <$> conf.

(** ** [checkPress] and the six predicates *)

Section Engine.

Variables BUTTON_DEBOUNCE_TIME BUTTON_DOUBLECLICK_TIME BUTTON_LONGPRESS_TIME : Z.

(** [button] is the [const State *] argument; it is read before [reset]
    writes anything. *)
Definition checkPress (now : Z) (reg : list State) (button : option nat)
    (minDuration maxDuration : Z) (requireDouble rst : bool) : bool * list State :=
  match button ≫= (fun i => reg !! i) with
  | None => (false, reg)
  | Some b =>
      let durationOk :=
        (duration b >? minDuration)
        && ((maxDuration =? 0) || (duration b <=? maxDuration)) in
      let doubleOk := negb requireDouble || doublePress b in
      let released :=
        level_eqb (state b) RELEASED
        && (duration b >? 0)
        && (usub now (last_time b) >? BUTTON_DOUBLECLICK_TIME) in
      if released && durationOk && doubleOk
      then (true, if rst then reset now reg (pin b) else reg)
      else (false, reg)
  end.

Definition isPressed (now : Z) (reg : list State) (p : Z) (rst : bool) :=
  checkPress now reg (getState reg p) 0 0 false rst.

Definition isPressedDouble (now : Z) (reg : list State) (p : Z) (rst : bool) :=
  checkPress now reg (getState reg p) 0 0 true rst.

Definition isShortPressed (now : Z) (reg : list State) (p : Z) (rst : bool) :=
  checkPress now reg (getState reg p) 0 BUTTON_LONGPRESS_TIME false rst.

Definition isShortPressedDouble (now : Z) (reg : list State) (p : Z) (rst : bool) :=
  checkPress now reg (getState reg p) 0 BUTTON_LONGPRESS_TIME true rst.

Definition isLongPressed (now : Z) (reg : list State) (p : Z) (rst : bool) :=
  checkPress now reg (getState reg p) BUTTON_LONGPRESS_TIME 0 false rst.

Definition isLongPressedDouble (now : Z) (reg : list State) (p : Z) (rst : bool) :=
  checkPress now reg (getState reg p) BUTTON_LONGPRESS_TIME 0 true rst.

(** The six predicates by name, to quantify over them. *)
Inductive Predicate : Set :=
  | IsPressed | IsPressedDouble
  | IsShortPressed | IsShortPressedDouble
  | IsLongPressed | IsLongPressedDouble.

Definition query (q : Predicate) : Z -> list State -> Z -> bool -> bool * list State :=
  match q with
  | IsPressed => isPressed
  | IsPressedDouble => isPressedDouble
  | IsShortPressed => isShortPressed
  | IsShortPressedDouble => isShortPressedDouble
  | IsLongPressed => isLongPressed
  | IsLongPressedDouble => isLongPressedDouble
  end.

(** The thresholds each predicate passes to [checkPress]. *)
Definition minOf (q : Predicate) : Z :=
  match q with
  | IsLongPressed | IsLongPressedDouble => BUTTON_LONGPRESS_TIME
  | _ => 0
  end.

Definition maxOf (q : Predicate) : Z :=
  match q with
  | IsShortPressed | IsShortPressedDouble => BUTTON_LONGPRESS_TIME
  | _ => 0
  end.

Definition doubleOf (q : Predicate) : bool :=
  match q with
  | IsPressedDouble | IsShortPressedDouble | IsLongPressedDouble => true
  | _ => false
  end.

(** ** [update] *)

(** The body of the first loop of [update] for one used slot.  Returns the
    slot afterwards and whether [buttonCallback] ran; [callback] tells
    whether one is registered. *)
Definition pollButton (now : Z) (reading : Level) (callback : bool)
    (button : State) : State * bool :=
  let button :=
    if negb (level_eqb reading (lastReading button))
    then set_lastChangeTime now button
    else button in
  let button :=
    if usub now (lastChangeTime button) >? BUTTON_DEBOUNCE_TIME then
      if negb (level_eqb reading (state button)) then
        let button :=
          if level_eqb reading PRESSED then
            let button :=
              if usub now (last_time button) <? BUTTON_DOUBLECLICK_TIME
              then set_doublePress true button
              else set_doublePress false button in
            let button := set_duration 0 button in
            set_last_time now button
          else if level_eqb reading RELEASED && level_eqb (state button) PRESSED then
            set_duration (usub now (last_time button)) button
          else button in
        set_state reading button
      else button
    else button in
  let button := set_lastReading reading button in
  let fired :=
    level_eqb reading PRESSED
    && level_eqb (state button) PRESSED
    && callback
    && (usub now (last_time button) >=? BUTTON_LONGPRESS_TIME)
    && (usub now (lastLongPressCallback button) >=? BUTTON_LONGPRESS_TIME) in
  let button :=
    if fired then set_lastLongPressCallback now button else button in
  let button :=
    if level_eqb reading RELEASED
    then set_lastLongPressCallback 0 button
    else button in
  (button, fired).

(** One iteration of the first loop: unused slots are skipped. *)
Definition pollSlot (now : Z) (digitalRead : Z -> Level) (callback : bool)
    (button : State) : State * bool :=
  if pin button =? 255 then (button, false)
  else pollButton now (digitalRead (pin button)) callback button.

(** The first loop; the number is how often the callback ran. *)
Fixpoint pollAll (now : Z) (digitalRead : Z -> Level) (callback : bool)
    (buttons : list State) : list State * nat :=
  match buttons with
  | [] => ([], 0%nat)
  | button :: rest =>
      let (button', fired) := pollSlot now digitalRead callback button in
      let (rest', n) := pollAll now digitalRead callback rest in
      (button' :: rest', ((if fired then 1 else 0) + n)%nat)
  end.

(** The four assignments through [button.mappedState]. *)
Definition mirror (button target : State) : State :=
  set_last_time (last_time button)
    (set_doublePress (doublePress button)
       (set_duration (duration button)
          (set_state (state button) target))).

(** One iteration of the second loop, at slot [i]. *)
Definition propagate (i : nat) (reg : list State) : list State :=
  match reg !! i with
  | None => reg
  | Some button =>
      match mappedState button with
      | Some target =>
          if level_eqb (state button) PRESSED
          then alter (mirror button) target reg
          else reg
      | None => reg
      end
  end.

(** The second loop, slots in order, each seeing what the earlier ones
    wrote. *)
Definition propagateAll (reg : list State) : list State :=
  fold_left (fun r i => propagate i r) (seq 0 (length reg)) reg.

Definition update (now : Z) (digitalRead : Z -> Level) (callback : bool)
    (reg : list State) : list State * nat :=
  let (reg1, n) := pollAll now digitalRead callback reg in
  (propagateAll reg1, n).

(** ** Runs of polls *)

(** A run of [update] calls, one per sample [(now, digitalRead)]; returns
    the registry afterwards and, per poll, how often the callback ran. *)
Fixpoint pollSeq (callback : bool) (samples : list (Z * (Z -> Level)))
    (reg : list State) : list State * list nat :=
  match samples with
  | [] => (reg, [])
  | (now, digitalRead) :: rest =>
      let (reg1, n) := update now digitalRead callback reg in
      let (reg2, ns) := pollSeq callback rest reg1 in
      (reg2, n :: ns)
  end.

(** ** Predicates the statements below are phrased with *)

(** The three gates of [checkPress] on a slot [b] at clock [now]. *)
Definition gates (now : Z) (b : State) (minDuration maxDuration : Z)
    (requireDouble : bool) : Prop :=
  (state b = RELEASED /\ 0 < duration b
   /\ BUTTON_DOUBLECLICK_TIME < usub now (last_time b))
  /\ (minDuration < duration b /\ (maxDuration = 0 \/ duration b <= maxDuration))
  /\ (requireDouble = true -> doublePress b = true).

(** The same gates with the settle delay read as "at least
    [BUTTON_DOUBLECLICK_TIME] ms have elapsed". *)
Definition gatesAtLeast (now : Z) (b : State) (minDuration maxDuration : Z)
    (requireDouble : bool) : Prop :=
  (state b = RELEASED /\ 0 < duration b
   /\ BUTTON_DOUBLECLICK_TIME <= usub now (last_time b))
  /\ (minDuration < duration b /\ (maxDuration = 0 \/ duration b <= maxDuration))
  /\ (requireDouble = true -> doublePress b = true).

(** A completed press that predicate [q] reports is pending on [b]. *)
Definition pendingPress (q : Predicate) (now : Z) (b : State) : Prop :=
  gates now b (minOf q) (maxOf q) (doubleOf q).

(** No slot of the registry holds a mapping pointer to slot [i]. *)
Definition unmirrored (i : nat) (reg : list State) : Prop :=
  Forall (fun b => mappedState b <> Some i) reg.

(** The raw level of pin [p] toggles fast over a run of polls: at every
    poll, the clock is less than the debounce time past the latest poll at
    which the level read differed from the one read before.  [reading0]
    and [change0] are the level and the time of the latest change before
    the run. *)
Fixpoint togglesFast (reading0 : Level) (change0 : Z) (p : Z)
    (samples : list (Z * (Z -> Level))) : bool :=
  match samples with
  | [] => true
  | (now, digitalRead) :: rest =>
      let change :=
        if level_eqb (digitalRead p) reading0 then change0 else now in
      (usub now change <? BUTTON_DEBOUNCE_TIME)
      && togglesFast (digitalRead p) change p rest
  end.

(** [n] polls, one per millisecond, after clock [T], the port reading
    [digitalRead] throughout. *)
Definition everyMs (T : Z) (digitalRead : Z -> Level) (n : nat)
    : list (Z * (Z -> Level)) :=
  (fun k => (wrap (T + Z.of_nat k), digitalRead)) <$> seq 1 n.

(** What a run of polls does to one slot that nothing mirrors onto. *)
Fixpoint slotSeq (callback : bool) (samples : list (Z * (Z -> Level)))
    (b : State) : State * list bool :=
  match samples with
  | [] => (b, [])
  | (now, digitalRead) :: rest =>
      let (b1, fired) := pollSlot now digitalRead callback b in
      let (b2, fs) := slotSeq callback rest b1 in
      (b2, fired :: fs)
  end.

(** The fields no operation on a bound registry writes. *)
Definition links (b : State) : Z * Z * option nat :=
  (pin b, mappedPin b, mappedState b).

(** Every slot but [i] is unused or reads [RELEASED]. *)
Definition othersReleased (i : nat) (reg : list State)
    (digitalRead : Z -> Level) : Prop :=
  forall j b, j <> i -> reg !! j = Some b ->
    pin b = 255 \/ digitalRead (pin b) = RELEASED.

Definition bit (f : bool) : nat := if f then 1%nat else 0%nat.

(** The two time tests of the long-press branch of [update]. *)
Definition longPressDue (now : Z) (b : State) : bool :=
  (usub now (last_time b) >=? BUTTON_LONGPRESS_TIME)
  && (usub now (lastLongPressCallback b) >=? BUTTON_LONGPRESS_TIME).

(** Callback counts, poll by poll, over one long-press window of polls a
    millisecond apart: none but at the last poll. *)
Definition window : list nat :=
  replicate (Z.to_nat BUTTON_LONGPRESS_TIME - 1) 0%nat ++ [1%nat].

(** The slot after the poll at [now] that registers the press. *)
Definition registered (now : Z) (b : State) : State :=
  set_lastReading PRESSED
    (set_state PRESSED
       (set_last_time now
          (set_duration 0
             (set_doublePress
                (usub now (last_time b) <? BUTTON_DOUBLECLICK_TIME) b)))).

(** One iteration of the second loop as the specification words it:
    unused slots skipped. *)
Definition propagateSkipping (i : nat) (reg : list State) : list State :=
  match reg !! i with
  | Some button => if pin button =? 255 then reg else propagate i reg
  | None => reg
  end.

Definition propagateAllSkipping (reg : list State) : list State :=
  fold_left (fun r i => propagateSkipping i r) (seq 0 (length reg)) reg.

(** Unused slots hold no mapping pointer. *)
Definition unusedUnbound (reg : list State) : Prop :=
  Forall (fun b => pin b = 255 -> mappedState b = None) reg.

(** ** Header defaults and the built-in registry *)

Definition DEFAULT_DEBOUNCE_TIME : Z := 50.
Definition DEFAULT_DOUBLECLICK_TIME : Z := 400.
Definition DEFAULT_LONGPRESS_TIME : Z := 1000.

(** A slot as the static initialisers write it. *)
Definition initial (p mapped : Z) : State :=
  mkState p RELEASED false 0 0 RELEASED 0 0 mapped None.

(** [Buttons], for given [BUTTON_OK], [BUTTON_CONFIRM], [BUTTON_CANCEL]. *)
Definition Buttons (ok confirm cancel : Z) : list State :=
  [initial ok 255; initial confirm ok; initial cancel 255].

(** ** Sample inputs *)

(** The built-in registry on pins 2, 3, 4, bound by [setup]: the confirm
    slot mirrors onto the OK slot. *)
Definition boundButtons : list State := setup (Buttons 2 3 4).

(** Port levels: pin 2 reads [ok], pin 3 reads [confirm], the rest
    [HIGH]. *)
Definition port (ok confirm : Level) (p : Z) : Level :=
  if p =? 2 then ok else if p =? 3 then confirm else HIGH.

(** Three polls 30 ms apart: confirm held down, OK bouncing. *)
Definition bounceWhileMirrored : list (Z * (Z -> Level)) :=
  [(1000, port LOW LOW); (1030, port HIGH LOW); (1060, port LOW LOW)].

(** A released slot with a 70 ms press registered at clock 50. *)
Definition shortPress : State :=
  mkState 2 RELEASED false 70 50 RELEASED 120 0 255 None.

(** A slot on [p] whose press the poll at clock [T] has just registered. *)
Definition justPressed (p T : Z) : State :=
  mkState p PRESSED false 0 T PRESSED (usub T 51) 0 255 None.

(** An unused slot left [PRESSED] with a bound mapping pointer to slot 1,
    and its target. *)
Definition staleMirror : list State :=
  [mkState 255 PRESSED true 7 9 RELEASED 0 0 5 (Some 1%nat); initial 5 255].

(** Three pressed slots in a chain: pin 3 maps to pin 2, pin 4 to pin 3. *)
Definition chain : list State :=
  [mkState 2 PRESSED true 0 900 PRESSED 800 0 255 None;
   mkState 3 PRESSED true 0 900 PRESSED 800 0 2 (Some 0%nat);
   mkState 4 PRESSED true 0 900 PRESSED 800 0 3 (Some 1%nat)].

(** Three polls 30 ms apart: confirm bouncing, OK untouched. *)
Definition bounceConfirm : list (Z * (Z -> Level)) :=
  [(1000, port HIGH LOW); (1030, port HIGH HIGH); (1060, port HIGH LOW)].

(** A released slot on pin 2, never pressed, its raw level [LOW] since
    clock 10. *)
Definition pendingFirstPress : State :=
  mkState 2 RELEASED false 0 0 PRESSED 10 0 255 None.

(** A slot pressed at clock 2^32 - 100, its raw level [HIGH] since
    2^32 - 40. *)
Definition pressedBeforeWrap : State :=
  mkState 2 PRESSED false 0 4294967196 RELEASED 4294967256 0 255 None.

(** ** Further predicates *)

(** Every mapping pointer [setup] binds points at a slot of the registry
    with the pin the pointer's owner maps to. *)
Definition wellBound (reg : list State) : Prop :=
  forall i b t, reg !! i = Some b ->
    pin b <> 255 -> mappedPin b <> 255 -> mappedState b = Some t ->
    exists d, reg !! t = Some d /\ pin d = mappedPin b.

(** Slot [t] is the first slot with pin [p]. *)
Definition firstWithPin (reg : list State) (p : Z) (t : nat) : Prop :=
  (exists d, reg !! t = Some d /\ pin d = p)
  /\ forall j d', (j < t)%nat -> reg !! j = Some d' -> pin d' <> p.

(** The predicate that asks for the double flag on top of [q]. *)
Definition doubleVariant (q : Predicate) : Predicate :=
  match q with
  | IsPressed | IsPressedDouble => IsPressedDouble
  | IsShortPressed | IsShortPressedDouble => IsShortPressedDouble
  | IsLongPressed | IsLongPressedDouble => IsLongPressedDouble
  end.


(** How many used slots read [PRESSED]. *)
Definition pressedInputs (digitalRead : Z -> Level) (reg : list State) : nat :=
  sum_list_with
    (fun b => bit (negb (pin b =? 255)
                   && level_eqb (digitalRead (pin b)) PRESSED)) reg.

(** A slot a poll with levels [digitalRead] has nothing to do for: unused
    and not a pressed mirror source, or released with its raw level up. *)
Definition idleSlot (digitalRead : Z -> Level) (b : State) : Prop :=
  (pin b = 255 /\ (mappedState b = None \/ state b = RELEASED))
  \/ (pin b <> 255 /\ digitalRead (pin b) = RELEASED
      /\ state b = RELEASED /\ lastReading b = RELEASED
      /\ lastLongPressCallback b = 0).

(** Slot [i] is the only slot with a mapping pointer to slot [t]. *)
Definition onlySource (i t : nat) (reg : list State) : Prop :=
  forall j s, reg !! j = Some s -> mappedState s = Some t -> j = i.


(** A slot with its long-press time stamp forgotten. *)
Definition forgetStamp (b : State) : State := set_lastLongPressCallback 0 b.

(** A click on one pin: the port reads [down] for [h] polls from clock
    [t0] on, then [up] until the release is registered, one poll per
    millisecond. *)
Definition clickSamples (t0 : Z) (down up : Z -> Level) (h : nat)
    : list (Z * (Z -> Level)) :=
  everyMs (t0 - 1) down h
  ++ everyMs (t0 + Z.of_nat h - 1) up (S (Z.to_nat BUTTON_DEBOUNCE_TIME + 1)).

(** The slot [b] after such a click. *)
Definition clicked (t0 : Z) (h : nat) (b : State) : State :=
  mkState (pin b) RELEASED
    (usub (wrap (t0 + BUTTON_DEBOUNCE_TIME + 1)) (last_time b)
       <? BUTTON_DOUBLECLICK_TIME)
    (Z.of_nat h) (wrap (t0 + BUTTON_DEBOUNCE_TIME + 1))
    RELEASED (wrap (t0 + Z.of_nat h)) 0 (mappedPin b) (mappedState b).


(** A raw pulse: the port reads [down] for [h] polls from clock [t0] on,
    then [up] for [m] polls, one poll per millisecond. *)
Definition pulseSamples (t0 : Z) (down up : Z -> Level) (h m : nat)
    : list (Z * (Z -> Level)) :=
  everyMs (t0 - 1) down h ++ everyMs (t0 + Z.of_nat h - 1) up m.

(** What the second loop leaves in a slot [dst] whose only source, as the
    loop finds it, is [src]. *)
Definition mirrored (src dst : State) : State :=
  if level_eqb (state src) PRESSED then mirror src dst else dst.


(** A slot held since clock 4000 whose callback ran at clock 5000. *)
Definition heldJustFired : State :=
  mkState 2 PRESSED false 0 4000 PRESSED 3949 5000 255 None.

(** Pin 3 mirrors onto pin 2; its raw level has been [LOW] since clock
    10 and its press is not registered yet. *)
Definition mirrorPair : list State :=
  [initial 2 255; mkState 3 RELEASED false 0 0 PRESSED 10 0 2 (Some 0%nat)].


(** ** Word arithmetic *)

Lemma usub_range (a b : Z) : 0 <= usub a b < ULONG_MODULUS.
Proof. unfold usub, wrap. apply Z.mod_pos_bound. reflexivity. Qed.

(** Across a wrap of the clock, the subtraction gives the time that really
    passed, as long as it is less than one clock period. *)
Lemma usub_elapsed (T t : Z) :
  T <= t < T + ULONG_MODULUS -> usub (wrap t) (wrap T) = t - T.
Proof.
  intros H. unfold usub, wrap.
  rewrite <- Zminus_mod. apply Z.mod_small. lia.
Qed.

Lemma usub_later (now t d : Z) :
  0 <= d -> usub now t + d < ULONG_MODULUS ->
  usub (wrap (now + d)) t = usub now t + d.
Proof.
  intros Hd Hlt. pose proof (usub_range now t) as Hr.
  unfold usub, wrap in *.
  rewrite Zminus_mod_idemp_l.
  replace (now + d - t) with ((now - t) + d) by lia.
  rewrite <- Zplus_mod_idemp_l. apply Z.mod_small. lia.
Qed.

Lemma usub_self (a : Z) : usub a a = 0.
Proof. unfold usub, wrap. rewrite Z.sub_diag. reflexivity. Qed.

Lemma level_eqb_eq (a b : Level) : level_eqb a b = true <-> a = b.
Proof. destruct a, b; simpl; split; congruence. Qed.

Lemma level_eqb_refl (a : Level) : level_eqb a a = true.
Proof. destruct a; reflexivity. Qed.

(** ** Lookup of a pin *)

Lemma getState_from_Some (buttons : list State) (p : Z) (k i : nat) :
  getState_from k buttons p = Some i ->
  exists j b, i = (k + j)%nat /\ buttons !! j = Some b /\ pin b = p
    /\ forall j' b', (j' < j)%nat -> buttons !! j' = Some b' -> pin b' <> p.
Proof.
  revert k. induction buttons as [|b rest IH]; intros k; simpl; [discriminate|].
  destruct (pin b =? p) eqn:E.
  - intros [= <-]. exists 0%nat, b. repeat split; [lia|lia|]. intros; lia.
  - intros H. destruct (IH _ H) as (j & b0 & -> & Hj & Hp & Hfirst).
    exists (S j), b0. repeat split; [lia|done|done|].
    intros [|j'] b' Hlt Hl; simpl in Hl.
    + injection Hl as <-. lia.
    + apply (Hfirst j'); [lia|done].
Qed.

Lemma getState_from_None (buttons : list State) (p : Z) (k : nat) :
  (forall b, b ∈ buttons -> pin b <> p) -> getState_from k buttons p = None.
Proof.
  revert k. induction buttons as [|b rest IH]; intros k H; simpl; [done|].
  destruct (pin b =? p) eqn:E.
  - exfalso. apply (H b); [left | lia].
  - apply IH. intros b' Hin. apply H. by right.
Qed.

Lemma getState_from_present (buttons : list State) (p : Z) (k : nat) (b : State) :
  b ∈ buttons -> pin b = p -> is_Some (getState_from k buttons p).
Proof.
  revert k. induction buttons as [|b0 rest IH]; intros k Hin Hp.
  - by apply not_elem_of_nil in Hin.
  - simpl. destruct (pin b0 =? p) eqn:E; [by eexists|].
    apply elem_of_cons in Hin as [->|Hin]; [lia|]. by apply IH.
Qed.

(** The lookup reads pins only. *)
Lemma getState_from_pins (l1 l2 : list State) (p : Z) (k : nat) :
  pin <$> l1 = pin <$> l2 -> getState_from k l1 p = getState_from k l2 p.
Proof.
  revert l2 k. induction l1 as [|b1 l1 IH]; intros [|b2 l2] k H; simpl in *;
    try discriminate; [done|].
  injection H as Hp Hrest. rewrite Hp. destruct (pin b2 =? p); [done|].
  by apply IH.
Qed.

Lemma getState_pins (l1 l2 : list State) (p : Z) :
  pin <$> l1 = pin <$> l2 -> getState l1 p = getState l2 p.
Proof.
  intros H. unfold getState. destruct (p =? 255); [done|].
  by apply getState_from_pins.
Qed.

Lemma getState_Some (reg : list State) (p : Z) (k : nat) :
  getState reg p = Some k ->
  p <> 255 /\ exists b, reg !! k = Some b /\ pin b = p
    /\ forall j' b', (j' < k)%nat -> reg !! j' = Some b' -> pin b' <> p.
Proof.
  unfold getState. destruct (p =? 255) eqn:E; [discriminate|].
  intros H. split; [lia|].
  destruct (getState_from_Some _ _ _ _ H) as (j & b & -> & Hj & Hp & Hfirst).
  exists b. by repeat split.
Qed.

Lemma getState_absent (reg : list State) (p : Z) :
  p = 255 \/ (forall b, b ∈ reg -> pin b <> p) -> getState reg p = None.
Proof.
  unfold getState. intros [->|H]; [reflexivity|].
  destruct (p =? 255); [done|]. by apply getState_from_None.
Qed.

(** ** What [reset] writes *)

Lemma reset_lookup (now : Z) (reg : list State) (p : Z) (k j : nat) :
  getState reg p = Some k ->
  reset now reg p !! j =
  (fun b => if Nat.eqb j k || (mappedPin b =? p) then cleared now b else b)
    <$> reg !! j.
Proof.
  intros Hk. unfold reset. rewrite Hk. simpl.
  rewrite list_lookup_imap.
  destruct (Nat.eqb j k) eqn:E.
  - apply Nat.eqb_eq in E as ->. rewrite list_lookup_alter_eq.
    destruct (reg !! k) as [b|]; simpl; [|done].
    by rewrite andb_false_r.
  - apply Nat.eqb_neq in E. rewrite list_lookup_alter_ne by done.
    destruct (reg !! j) as [b|]; simpl; [|done].
    by rewrite andb_true_r.
Qed.

Lemma reset_pins (now : Z) (reg : list State) (p : Z) :
  pin <$> reset now reg p = pin <$> reg.
Proof.
  destruct (getState reg p) as [k|] eqn:Hk.
  - apply list_eq. intros j. rewrite !list_lookup_fmap, (reset_lookup _ _ _ k) by done.
    destruct (reg !! j) as [b|]; simpl; [|done].
    by destruct (Nat.eqb j k || (mappedPin b =? p)).
  - unfold reset. by rewrite Hk.
Qed.

Lemma query_checkPress (q : Predicate) (now : Z) (reg : list State) (p : Z)
    (rst : bool) :
  query q now reg p rst =
  checkPress now reg (getState reg p) (minOf q) (maxOf q) (doubleOf q) rst.
Proof. by destruct q. Qed.

Lemma checkPress_true_iff (now : Z) (reg : list State) (i : nat) (b : State)
    (minDuration maxDuration : Z) (requireDouble rst : bool) :
  reg !! i = Some b ->
  (checkPress now reg (Some i) minDuration maxDuration requireDouble rst).1 = true
  <-> gates now b minDuration maxDuration requireDouble.
Proof.
  intros Hb. unfold checkPress, gates. simpl. rewrite Hb.
  match goal with
  | |- (if ?c then _ else _).1 = true <-> _ =>
      transitivity (c = true); [destruct c; simpl; intuition congruence|]
  end.
  rewrite !andb_true_iff, orb_true_iff, level_eqb_eq, !Z.gtb_lt, Z.eqb_eq,
    Z.leb_le, orb_true_iff, negb_true_iff.
  destruct requireDouble; intuition congruence.
Qed.

(** ** The two loops of [update], slot by slot *)

Ltac poll_cases :=
  repeat match goal with
  | |- context [if ?c then _ else _] => destruct c
  end.

Lemma pollButton_links (now : Z) (reading : Level) (callback : bool) (b : State) :
  links (pollButton now reading callback b).1 = links b.
Proof. unfold pollButton, links. simpl. poll_cases; reflexivity. Qed.

Lemma pollSlot_links (now : Z) (digitalRead : Z -> Level) (callback : bool)
    (b : State) :
  links (pollSlot now digitalRead callback b).1 = links b.
Proof.
  unfold pollSlot. destruct (pin b =? 255); [done|]. apply pollButton_links.
Qed.

Lemma pollAll_fst (now : Z) (digitalRead : Z -> Level) (callback : bool)
    (buttons : list State) :
  (pollAll now digitalRead callback buttons).1
  = (fun b => (pollSlot now digitalRead callback b).1) <$> buttons.
Proof.
  induction buttons as [|b rest IH]; simpl; [done|].
  destruct (pollSlot now digitalRead callback b) as [b' f].
  destruct (pollAll now digitalRead callback rest) as [rest' n].
  simpl in *. by rewrite IH.
Qed.

Lemma pollAll_snd (now : Z) (digitalRead : Z -> Level) (callback : bool)
    (buttons : list State) :
  (pollAll now digitalRead callback buttons).2
  = sum_list_with (fun b => bit (pollSlot now digitalRead callback b).2) buttons.
Proof.
  induction buttons as [|b rest IH]; simpl; [done|].
  destruct (pollSlot now digitalRead callback b) as [b' f].
  destruct (pollAll now digitalRead callback rest) as [rest' n].
  simpl in *. by rewrite IH.
Qed.

Lemma mirror_links (src b : State) : links (mirror src b) = links b.
Proof. reflexivity. Qed.

Lemma propagate_links (i : nat) (reg : list State) :
  links <$> propagate i reg = links <$> reg.
Proof.
  unfold propagate. destruct (reg !! i) as [b|]; [|done].
  destruct (mappedState b) as [t|]; [|done].
  destruct (level_eqb (state b) PRESSED); [|done].
  apply list_eq. intros j. rewrite !list_lookup_fmap, list_lookup_alter.
  destruct (decide (t = j)) as [->|]; [|done].
  destruct (reg !! j); simpl; [|done]. by rewrite mirror_links.
Qed.

Lemma unmirrored_links (i : nat) (reg reg' : list State) :
  links <$> reg' = links <$> reg -> unmirrored i reg -> unmirrored i reg'.
Proof.
  unfold unmirrored. rewrite !Forall_lookup. intros Heq H k b' Hk.
  assert (links <$> reg !! k = Some (links b')) as Hl.
  { rewrite <- list_lookup_fmap, <- Heq, list_lookup_fmap, Hk. done. }
  destruct (reg !! k) as [b|] eqn:E; [|done].
  injection Hl as Hl. unfold links in Hl.
  assert (mappedState b = mappedState b') as <- by congruence.
  by apply (H k).
Qed.

Lemma propagate_unmirrored (i j : nat) (reg : list State) :
  unmirrored j reg -> propagate i reg !! j = reg !! j.
Proof.
  intros H. unfold propagate. destruct (reg !! i) as [b|] eqn:Hi; [|done].
  destruct (mappedState b) as [t|] eqn:Ht; [|done].
  destruct (level_eqb (state b) PRESSED); [|done].
  apply list_lookup_alter_ne. intros ->.
  unfold unmirrored in H. rewrite Forall_lookup in H.
  by apply (H i b Hi).
Qed.

Lemma propagate_fold_links (slots : list nat) (reg : list State) :
  links <$> fold_left (fun r i => propagate i r) slots reg = links <$> reg.
Proof.
  revert reg. induction slots as [|i slots IH]; intros reg; simpl; [done|].
  by rewrite IH, propagate_links.
Qed.

Lemma propagate_fold_unmirrored (slots : list nat) (j : nat) (reg : list State) :
  unmirrored j reg ->
  fold_left (fun r i => propagate i r) slots reg !! j = reg !! j.
Proof.
  revert reg. induction slots as [|i slots IH]; intros reg H; simpl; [done|].
  rewrite IH.
  - by apply propagate_unmirrored.
  - eapply unmirrored_links; [apply propagate_links|done].
Qed.

Lemma pollAll_links (now : Z) (digitalRead : Z -> Level) (callback : bool)
    (reg : list State) :
  links <$> (pollAll now digitalRead callback reg).1 = links <$> reg.
Proof.
  rewrite pollAll_fst, <- list_fmap_compose.
  apply list_fmap_ext. intros k b _. apply pollSlot_links.
Qed.

Lemma update_links (now : Z) (digitalRead : Z -> Level) (callback : bool)
    (reg : list State) :
  links <$> (update now digitalRead callback reg).1 = links <$> reg.
Proof.
  unfold update.
  pose proof (pollAll_links now digitalRead callback reg) as H.
  destruct (pollAll now digitalRead callback reg) as [reg1 n]. simpl in *.
  unfold propagateAll. by rewrite propagate_fold_links.
Qed.

(** A slot nothing mirrors onto comes out of [update] as the first loop
    left it. *)
Lemma update_lookup (now : Z) (digitalRead : Z -> Level) (callback : bool)
    (reg : list State) (i : nat) :
  unmirrored i reg ->
  (update now digitalRead callback reg).1 !! i
  = (fun b => (pollSlot now digitalRead callback b).1) <$> reg !! i.
Proof.
  intros H. unfold update.
  pose proof (pollAll_links now digitalRead callback reg) as Hl.
  pose proof (pollAll_fst now digitalRead callback reg) as Hf.
  destruct (pollAll now digitalRead callback reg) as [reg1 n]. simpl in *.
  unfold propagateAll. rewrite propagate_fold_unmirrored.
  - by rewrite Hf, list_lookup_fmap.
  - by eapply unmirrored_links.
Qed.

Lemma update_count (now : Z) (digitalRead : Z -> Level) (callback : bool)
    (reg : list State) :
  (update now digitalRead callback reg).2
  = sum_list_with (fun b => bit (pollSlot now digitalRead callback b).2) reg.
Proof.
  unfold update. rewrite <- pollAll_snd.
  by destruct (pollAll now digitalRead callback reg).
Qed.

Lemma pollSlot_released_quiet (now : Z) (digitalRead : Z -> Level)
    (callback : bool) (b : State) :
  pin b = 255 \/ digitalRead (pin b) = RELEASED ->
  (pollSlot now digitalRead callback b).2 = false.
Proof.
  unfold pollSlot. intros [->|H]; [reflexivity|].
  destruct (pin b =? 255); [done|]. unfold pollButton. rewrite H. reflexivity.
Qed.

Lemma sum_list_with_zero {A} (f : A -> nat) (l : list A) :
  Forall (fun x => f x = 0%nat) l -> sum_list_with f l = 0%nat.
Proof. induction 1; simpl; lia. Qed.

(** With every other slot unused or released, the callback runs at most
    for slot [i]. *)
Lemma update_count_single (now : Z) (digitalRead : Z -> Level) (callback : bool)
    (reg : list State) (i : nat) (b : State) :
  reg !! i = Some b -> othersReleased i reg digitalRead ->
  (update now digitalRead callback reg).2
  = bit (pollSlot now digitalRead callback b).2.
Proof.
  intros Hi Hq. rewrite update_count.
  rewrite <- (take_drop_middle reg i b Hi) at 1.
  rewrite sum_list_with_app. simpl.
  rewrite !sum_list_with_zero; [lia| |].
  - apply Forall_lookup. intros k b' Hk. simpl.
    rewrite lookup_drop in Hk.
    rewrite pollSlot_released_quiet; [done|]. apply (Hq (S i + k)%nat); [lia|done].
  - apply Forall_lookup. intros k b' Hk. simpl.
    apply lookup_take_Some in Hk as [Hk Hlt].
    rewrite pollSlot_released_quiet; [done|]. apply (Hq k); [lia|done].
Qed.

Lemma othersReleased_links (i : nat) (reg reg' : list State)
    (digitalRead : Z -> Level) :
  links <$> reg' = links <$> reg ->
  othersReleased i reg digitalRead -> othersReleased i reg' digitalRead.
Proof.
  intros Heq H j b' Hne Hj.
  assert (links <$> reg !! j = Some (links b')) as Hl.
  { rewrite <- list_lookup_fmap, <- Heq, list_lookup_fmap, Hj. done. }
  destruct (reg !! j) as [b|] eqn:E; [|done].
  injection Hl as Hl. unfold links in Hl.
  assert (pin b = pin b') as <- by congruence.
  by apply (H j).
Qed.

(** A run of polls, seen from a slot nothing mirrors onto. *)
Lemma pollSeq_slot (callback : bool) (samples : list (Z * (Z -> Level)))
    (reg : list State) (i : nat) (b : State) :
  reg !! i = Some b -> unmirrored i reg ->
  (pollSeq callback samples reg).1 !! i = Some (slotSeq callback samples b).1.
Proof.
  revert reg b. induction samples as [|[now rd] rest IH]; intros reg b Hi Hu;
    simpl; [done|].
  pose proof (update_lookup now rd callback reg i Hu) as Hl.
  pose proof (update_links now rd callback reg) as Hk.
  destruct (update now rd callback reg) as [reg1 n]. simpl in *.
  rewrite Hi in Hl. simpl in Hl.
  destruct (pollSlot now rd callback b) as [b1 f]. simpl in *.
  specialize (IH reg1 b1 Hl (unmirrored_links _ _ _ Hk Hu)).
  destruct (pollSeq callback rest reg1) as [reg2 ns].
  destruct (slotSeq callback rest b1) as [b2 fs]. done.
Qed.

Lemma pollSeq_counts (callback : bool) (samples : list (Z * (Z -> Level)))
    (reg : list State) (i : nat) (b : State) :
  reg !! i = Some b -> unmirrored i reg ->
  Forall (fun s => othersReleased i reg s.2) samples ->
  (pollSeq callback samples reg).2 = bit <$> (slotSeq callback samples b).2.
Proof.
  revert reg b. induction samples as [|[now rd] rest IH]; intros reg b Hi Hu Hq;
    simpl; [done|].
  apply Forall_cons in Hq as [Hq Hqs]. simpl in Hq.
  pose proof (update_lookup now rd callback reg i Hu) as Hl.
  pose proof (update_links now rd callback reg) as Hk.
  pose proof (update_count_single now rd callback reg i b Hi Hq) as Hc.
  destruct (update now rd callback reg) as [reg1 n]. simpl in *.
  rewrite Hi in Hl. simpl in Hl.
  destruct (pollSlot now rd callback b) as [b1 f]. simpl in *.
  assert (Forall (fun s => othersReleased i reg1 s.2) rest) as Hqs1.
  { eapply Forall_impl; [exact Hqs|]. intros s Hs.
    by eapply othersReleased_links. }
  specialize (IH reg1 b1 Hl (unmirrored_links _ _ _ Hk Hu) Hqs1).
  destruct (pollSeq callback rest reg1) as [reg2 ns].
  destruct (slotSeq callback rest b1) as [b2 fs]. simpl in *. by subst.
Qed.

(** ** Reset *)

(** C7. For a pin [p] present in the registry (and not the unused-slot
    value), [reset] works on the slot [getState] finds, the first and,
    with one record per pin, the only one with that pin.  Every slot keeps
    [pin], [mappedPin] and [mappedState]; the named slot and every other
    slot whose [mappedPin] is [p] get state [RELEASED], [doublePress]
    false, [duration] 0, [last_time] 0, [lastReading] [RELEASED],
    [lastChangeTime] the clock and [lastLongPressCallback] 0; every
    remaining slot is left as it was, also one that maps to a dependent of
    [p] (no second hop). *)
Theorem reset_named_and_dependents (now : Z) (reg : list State) (p : Z)
    (b0 : State) :
  p <> 255 -> b0 ∈ reg -> pin b0 = p ->
  exists k bk,
    getState reg p = Some k /\ reg !! k = Some bk /\ pin bk = p
    /\ (forall j' b', (j' < k)%nat -> reg !! j' = Some b' -> pin b' <> p)
    /\ length (reset now reg p) = length reg
    /\ forall j b, reg !! j = Some b ->
         exists b', reset now reg p !! j = Some b'
           /\ pin b' = pin b /\ mappedPin b' = mappedPin b
           /\ mappedState b' = mappedState b
           /\ (j = k \/ mappedPin b = p ->
                 state b' = RELEASED /\ doublePress b' = false
                 /\ duration b' = 0 /\ last_time b' = 0
                 /\ lastReading b' = RELEASED /\ lastChangeTime b' = now
                 /\ lastLongPressCallback b' = 0)
           /\ (j <> k -> mappedPin b <> p -> b' = b).
Proof.
  intros Hp Hin Hpin.
  assert (is_Some (getState reg p)) as [k Hk].
  { unfold getState. destruct (Z.eqb_spec p 255); [done|].
    by apply (getState_from_present reg p 0 b0). }
  destruct (getState_Some _ _ _ Hk) as (_ & bk & Hbk & Hpk & Hfirst).
  exists k, bk. repeat split; try done.
  - unfold reset. rewrite Hk. simpl. by rewrite length_imap, length_alter.
  - intros j b Hj. rewrite (reset_lookup now reg p k j Hk), Hj. simpl.
    destruct (Nat.eqb_spec j k) as [->|Hne]; simpl.
    + exists (cleared now b). repeat split; try done; intros; congruence.
    + destruct (Z.eqb_spec (mappedPin b) p) as [Hm|Hm].
      * exists (cleared now b). repeat split; try done; intros; congruence.
      * exists b. repeat split; try done; intuition congruence.
Qed.

(** A slot never pressed, or reset since, has [last_time] 0. *)
Lemma fresh_last_time (p mapped now : Z) (b : State) :
  last_time (initial p mapped) = 0 /\ state (initial p mapped) = RELEASED
  /\ last_time (cleared now b) = 0 /\ state (cleared now b) = RELEASED.
Proof. done. Qed.

(** ** Unknown pins *)

(** C8. For the unused-slot value 255 and for a pin no slot of the
    registry has, each of the six predicates returns false, whatever the
    consume flag, and leaves the registry as it is, and [reset] leaves the
    registry as it is. *)
Theorem unknown_pin_noop (q : Predicate) (now : Z) (reg : list State) (p : Z)
    (rst : bool) :
  p = 255 \/ (forall b, b ∈ reg -> pin b <> p) ->
  query q now reg p rst = (false, reg) /\ reset now reg p = reg.
Proof.
  intros H. apply getState_absent in H.
  split.
  - rewrite query_checkPress, H. reflexivity.
  - unfold reset. by rewrite H.
Qed.

(** ** The query layer *)

(** C1, as the code has it.  For a record [b] of the registry,
    [checkPress] returns true exactly when the three gates pass, the
    settle gate asking for strictly more than [BUTTON_DOUBLECLICK_TIME]
    ms between [last_time] and the clock (by wrapping subtraction). *)
Theorem checkPress_true_iff_gates (now : Z) (reg : list State) (i : nat)
    (b : State) (minDuration maxDuration : Z) (requireDouble rst : bool) :
  reg !! i = Some b ->
  (checkPress now reg (Some i) minDuration maxDuration requireDouble rst).1 = true
  <-> (state b = RELEASED /\ 0 < duration b
       /\ BUTTON_DOUBLECLICK_TIME < usub now (last_time b))
      /\ (minDuration < duration b
          /\ (maxDuration = 0 \/ duration b <= maxDuration))
      /\ (requireDouble = true -> doublePress b = true).
Proof. apply checkPress_true_iff. Qed.

Lemma checkPress_consumes (now : Z) (reg : list State) (i : nat) (b : State)
    (minDuration maxDuration : Z) (requireDouble : bool) :
  reg !! i = Some b ->
  (checkPress now reg (Some i) minDuration maxDuration requireDouble true).1 = true ->
  (checkPress now reg (Some i) minDuration maxDuration requireDouble true).2
  = reset now reg (pin b).
Proof.
  unfold checkPress. simpl. intros ->.
  match goal with |- context [if ?c then _ else _] => destruct c end;
    simpl; [done|discriminate].
Qed.

Lemma checkPress_peek (now : Z) (reg : list State) (button : option nat)
    (minDuration maxDuration : Z) (requireDouble : bool) :
  (checkPress now reg button minDuration maxDuration requireDouble false).2 = reg.
Proof.
  unfold checkPress. destruct (button ≫= _); [|done].
  match goal with |- context [if ?c then _ else _] => destruct c end; done.
Qed.

(** C5. With a completed press pending that predicate [q] reports, the
    call with consume set returns true, and the same call made again right
    after, on the registry the first one left, returns false, at whatever
    clock value. *)
Theorem consume_reports_once (q : Predicate) (now now' : Z) (reg : list State)
    (p : Z) (k : nat) (b : State) :
  getState reg p = Some k -> reg !! k = Some b -> pendingPress q now b ->
  (query q now reg p true).1 = true
  /\ (query q now' (query q now reg p true).2 p true).1 = false.
Proof.
  intros Hk Hb Hpend. rewrite !query_checkPress, Hk.
  assert ((checkPress now reg (Some k) (minOf q) (maxOf q) (doubleOf q) true).1
          = true) as Hfirst by by apply (checkPress_true_iff now reg k b).
  split; [done|].
  rewrite (checkPress_consumes now reg k b) by done.
  destruct (getState_Some _ _ _ Hk) as (_ & bk & Hbk & Hpk & _).
  assert (bk = b) as -> by congruence. rewrite Hpk.
  rewrite (getState_pins _ reg p (reset_pins now reg p)), Hk.
  apply not_true_is_false. intros Htrue.
  apply (checkPress_true_iff now' _ k (cleared now b)) in Htrue.
  - destruct Htrue as ((_ & Hd & _) & _). simpl in Hd. lia.
  - rewrite (reset_lookup now reg p k k Hk), Hb. simpl.
    by rewrite Nat.eqb_refl.
Qed.

(** C6. A predicate called with consume cleared returns the registry as it
    was; so when it has returned true for a press, the same call [d] ms
    later returns true again, for as long as the time since [last_time]
    stays within one period of the clock. *)
Theorem peek_keeps_registry (q : Predicate) (now : Z) (reg : list State)
    (p : Z) :
  (query q now reg p false).2 = reg
  /\ forall k b d,
       getState reg p = Some k -> reg !! k = Some b ->
       (query q now reg p false).1 = true ->
       0 <= d -> usub now (last_time b) + d < ULONG_MODULUS ->
       (query q (wrap (now + d)) (query q now reg p false).2 p false).1 = true.
Proof.
  assert ((query q now reg p false).2 = reg) as Hsame.
  { rewrite query_checkPress. apply checkPress_peek. }
  split; [done|].
  intros k b d Hk Hb Htrue Hd Hlt. rewrite Hsame.
  rewrite query_checkPress, Hk in *.
  apply (checkPress_true_iff _ _ k b) in Htrue; [|done].
  apply (checkPress_true_iff _ _ k b); [done|].
  destruct Htrue as ((Hs & Hdur & Hset) & Hrange & Hdbl).
  repeat split; try done; try tauto.
  rewrite usub_later by done. lia.
Qed.

(** ** Debounce *)

(** A poll less than the debounce time after the latest raw change keeps
    the resolved state and moves the two raw anchors. *)
Lemma pollButton_bouncing (now : Z) (reading : Level) (callback : bool)
    (b : State) :
  let change :=
    if level_eqb reading (lastReading b) then lastChangeTime b else now in
  usub now change < BUTTON_DEBOUNCE_TIME ->
  let b' := (pollButton now reading callback b).1 in
  state b' = state b /\ lastReading b' = reading /\ lastChangeTime b' = change.
Proof.
  intros change Hlt.
  assert ((usub now change >? BUTTON_DEBOUNCE_TIME) = false) as Hgt
    by (rewrite Z.gtb_ltb; apply Z.ltb_ge; lia).
  unfold pollButton. subst change.
  destruct (level_eqb reading (lastReading b)); simpl in *; rewrite Hgt;
    simpl; poll_cases; done.
Qed.

Lemma slotSeq_unused (callback : bool) (samples : list (Z * (Z -> Level)))
    (b : State) :
  pin b = 255 -> (slotSeq callback samples b).1 = b.
Proof.
  intros Hp. induction samples as [|[now rd] rest IH]; simpl; [done|].
  unfold pollSlot. rewrite Hp. simpl.
  by destruct (slotSeq callback rest b).
Qed.

Lemma slotSeq_bouncing (callback : bool) (samples : list (Z * (Z -> Level)))
    (b : State) :
  togglesFast (lastReading b) (lastChangeTime b) (pin b) samples = true ->
  state (slotSeq callback samples b).1 = state b.
Proof.
  destruct (Z.eqb_spec (pin b) 255) as [Hp|Hp].
  { intros _. by rewrite slotSeq_unused. }
  revert b Hp. induction samples as [|[now rd] rest IH]; intros b Hp; simpl;
    [done|].
  rewrite andb_true_iff, Z.ltb_lt. intros [Hlt Hrest].
  unfold pollSlot. destruct (Z.eqb_spec (pin b) 255); [done|].
  destruct (pollButton_bouncing now (rd (pin b)) callback b Hlt)
    as (Hs & Hr & Hc).
  pose proof (pollButton_links now (rd (pin b)) callback b) as Hl.
  destruct (pollButton now (rd (pin b)) callback b) as [b1 f]. simpl in *.
  assert (pin b1 = pin b) as Hp1 by (unfold links in Hl; congruence).
  specialize (IH b1). rewrite Hp1, Hr, Hc in IH.
  specialize (IH Hp Hrest).
  destruct (slotSeq callback rest b1) as [b2 fs]. simpl in *. congruence.
Qed.

Lemma togglesFast_take (reading0 : Level) (change0 : Z) (p : Z)
    (samples : list (Z * (Z -> Level))) (n : nat) :
  togglesFast reading0 change0 p samples = true ->
  togglesFast reading0 change0 p (take n samples) = true.
Proof.
  revert reading0 change0 n.
  induction samples as [|[now rd] rest IH]; intros reading0 change0 [|n];
    simpl; try done.
  rewrite !andb_true_iff. intros [H1 H2]. split; [done|]. by apply IH.
Qed.

(** C2, as the code has it.  Take a slot that no slot of the registry
    mirrors onto.  Over any run of polls in which its raw level toggles
    with less than the debounce time between toggles, the resolved state
    of the slot is, after every poll of the run, what it was before. *)
Theorem debounce_stability (callback : bool)
    (samples : list (Z * (Z -> Level))) (reg : list State) (i : nat)
    (b : State) :
  reg !! i = Some b -> unmirrored i reg ->
  togglesFast (lastReading b) (lastChangeTime b) (pin b) samples = true ->
  forall n, exists b',
    (pollSeq callback (take n samples) reg).1 !! i = Some b'
    /\ state b' = state b.
Proof.
  intros Hi Hu Hfast n.
  exists (slotSeq callback (take n samples) b).1. split.
  - by apply pollSeq_slot.
  - apply slotSeq_bouncing. by apply togglesFast_take.
Qed.

(** ** The false double press near clock zero *)

(** C10. A slot with [last_time] 0 (never pressed, or reset since) whose
    press the poll at clock [now] registers, [now] below
    [BUTTON_DOUBLECLICK_TIME], comes out [PRESSED] with [doublePress]
    set. *)
Theorem first_press_near_zero_double (now : Z) (digitalRead : Z -> Level)
    (callback : bool) (reg : list State) (i : nat) (b : State) :
  reg !! i = Some b -> unmirrored i reg ->
  pin b <> 255 -> digitalRead (pin b) = PRESSED ->
  state b = RELEASED -> last_time b = 0 ->
  lastReading b = PRESSED ->
  BUTTON_DEBOUNCE_TIME < usub now (lastChangeTime b) ->
  0 <= now < ULONG_MODULUS -> now < BUTTON_DOUBLECLICK_TIME ->
  exists b', (update now digitalRead callback reg).1 !! i = Some b'
    /\ state b' = PRESSED /\ last_time b' = now /\ doublePress b' = true.
Proof.
  intros Hi Hu Hp Hrd Hs Hlt Hlr Hdeb Hnow Hdc.
  rewrite update_lookup, Hi by done. simpl.
  eexists. split; [reflexivity|].
  unfold pollSlot. destruct (Z.eqb_spec (pin b) 255); [done|].
  assert (usub now 0 = now) as Hz.
  { unfold usub, wrap. rewrite Z.sub_0_r. by apply Z.mod_small. }
  assert ((usub now (lastChangeTime b) >? BUTTON_DEBOUNCE_TIME) = true) as Hgt
    by (apply Z.gtb_lt; lia).
  assert ((now <? BUTTON_DOUBLECLICK_TIME) = true) as Hdb by (apply Z.ltb_lt; lia).
  destruct b; simpl in *; subst.
  unfold pollButton. rewrite Hrd. simpl. rewrite Hgt. simpl. rewrite Hz, Hdb. simpl.
  poll_cases; done.
Qed.

(** ** Clock wrap-around *)

(** The time tests that are right across a wrap.  Every time test of
    [update] and [checkPress] is a wrapping subtraction, so with [T] and
    [t] times on an unbounded axis, less than one clock period apart, and
    the clock showing them modulo 2^32:
    a press registered at [T] and released at [t] latches [t - T]; the
    callback runs at [t] only when the press registered at [T] is at least
    [BUTTON_LONGPRESS_TIME] old, and when the callback last ran at [T],
    only at least that long after; the poll that registers a press runs
    the callback only if the long-press time is zero; [checkPress]
    passes at [t] only when [last_time] = [T] is more than
    [BUTTON_DOUBLECLICK_TIME] back; a raw level steady since [T] is taken
    over at [t] exactly when more than [BUTTON_DEBOUNCE_TIME] has passed;
    and a press registered at [t] is a double press exactly when the
    previous one, registered at [T], is less than
    [BUTTON_DOUBLECLICK_TIME] back.  What is left out is the callback test
    against a long-press time stamp of 0, which is no time. *)
Theorem wraparound_safe (T t : Z) :
  T <= t < T + ULONG_MODULUS ->
  (forall reading callback b,
     state b = PRESSED -> last_time b = wrap T ->
     let r := pollButton (wrap t) reading callback b in
     (state r.1 = RELEASED -> duration r.1 = t - T)
     /\ (r.2 = true -> BUTTON_LONGPRESS_TIME <= t - T))
  /\ (forall reading callback b,
       lastLongPressCallback b = wrap T ->
       (pollButton (wrap t) reading callback b).2 = true ->
       BUTTON_LONGPRESS_TIME <= t - T)
  /\ (forall reading callback b,
       state b = RELEASED ->
       (pollButton (wrap t) reading callback b).2 = true ->
       BUTTON_LONGPRESS_TIME <= 0)
  /\ (forall reg i b minDuration maxDuration requireDouble rst,
       reg !! i = Some b -> last_time b = wrap T ->
       (checkPress (wrap t) reg (Some i) minDuration maxDuration
          requireDouble rst).1 = true ->
       BUTTON_DOUBLECLICK_TIME < t - T)
  /\ (forall reading callback b,
       lastChangeTime b = wrap T -> lastReading b = reading ->
       state b <> reading ->
       state (pollButton (wrap t) reading callback b).1 = reading
       <-> BUTTON_DEBOUNCE_TIME < t - T)
  /\ (forall callback b,
       state b = RELEASED -> last_time b = wrap T ->
       let r := pollButton (wrap t) PRESSED callback b in
       state r.1 = PRESSED ->
       (doublePress r.1 = true <-> t - T < BUTTON_DOUBLECLICK_TIME)
       /\ last_time r.1 = wrap t /\ duration r.1 = 0).
Proof.
  intros Ht. pose proof (usub_elapsed T t Ht) as He.
  split; [|split; [|split; [|split; [|split]]]].
  - intros reading callback b Hs Hl r. subst r.
    destruct b as [? st ? ? ? lr ? ? ? ?]; simpl in *; subst. unfold pollButton.
    destruct reading, lr; simpl; rewrite ?He; split;
      poll_cases; simpl; rewrite ?andb_true_iff, ?Z.geb_le;
      try done; try lia; intuition (try discriminate; try lia).
  - intros reading callback b Hl Hf.
    destruct b as [? st ? ? ? lr ? ? ? ?]; simpl in *; subst. unfold pollButton in Hf.
    simpl in Hf. rewrite !andb_true_iff, Z.geb_le in Hf. destruct Hf as (_ & Hf).
    revert Hf. destruct reading, lr, st; simpl; poll_cases; simpl; rewrite ?He; lia.
  - intros reading callback b Hs Hf.
    destruct b as [? st ? ? ? lr ? ? ? ?]; simpl in *; subst. unfold pollButton in Hf.
    revert Hf.
    destruct reading, lr; simpl; poll_cases; simpl;
      rewrite ?usub_self, ?andb_true_iff, ?Z.geb_le;
      try discriminate; try lia; intuition (try discriminate; try lia).
  - intros reg i b minDuration maxDuration requireDouble rst Hb Hl Hc.
    apply (checkPress_true_iff _ _ i b) in Hc; [|done].
    destruct Hc as ((_ & _ & Hc) & _). rewrite Hl, He in Hc. done.
  - intros reading callback b Hc Hlr Hne.
    destruct b as [? st ? ? ? lr ? ? ? ?]; simpl in *; subst.
    unfold pollButton. simpl. rewrite level_eqb_refl. simpl. rewrite He.
    destruct (Z.gtb_spec (t - T) BUTTON_DEBOUNCE_TIME);
      repeat match goal with x : Level |- _ => destruct x end;
      try done; simpl; poll_cases; simpl;
      split; intros; try done; try lia.
  - intros callback b Hs Hl r. subst r.
    destruct b as [? st ? ? ? lr ? ? ? ?]; simpl in *; subst.
    unfold pollButton. simpl.
    destruct lr; simpl; rewrite ?He;
      repeat match goal with
      | |- context [if (?x >? ?y) then _ else _] => destruct (x >? y); simpl
      end;
      try discriminate;
      destruct (Z.ltb_spec (t - T) BUTTON_DOUBLECLICK_TIME); simpl;
      poll_cases; simpl; intros _; repeat split; intros; try done; try lia.
Qed.

(** ** Long-press cadence *)

Lemma usub_zero (a : Z) : usub (wrap a) 0 = wrap a.
Proof. unfold usub, wrap. rewrite Z.sub_0_r. apply Zmod_mod. Qed.

Lemma wrap_small (a : Z) : 0 <= a < ULONG_MODULUS -> wrap a = a.
Proof. apply Z.mod_small. Qed.

(** A poll of a slot that is held: pressed, resolved, raw level steady. *)
Lemma hold_poll (now : Z) (digitalRead : Z -> Level) (b : State) :
  pin b <> 255 -> digitalRead (pin b) = PRESSED ->
  state b = PRESSED -> lastReading b = PRESSED ->
  pollSlot now digitalRead true b
  = (if longPressDue now b then set_lastLongPressCallback now b else b,
     longPressDue now b).
Proof.
  intros Hp Hrd Hs Hlr. unfold pollSlot.
  destruct (Z.eqb_spec (pin b) 255); [done|].
  rewrite Hrd.
  destruct b as [? ? ? ? lt ? lct llp ? ?];
    simpl in *; subst.
  unfold pollButton, longPressDue. simpl.
  destruct (usub now lct >? BUTTON_DEBOUNCE_TIME); simpl;
    destruct (usub now lt >=? BUTTON_LONGPRESS_TIME),
      (usub now llp >=? BUTTON_LONGPRESS_TIME); reflexivity.
Qed.

Lemma everyMs_S (T : Z) (digitalRead : Z -> Level) (n : nat) :
  everyMs T digitalRead (S n)
  = (wrap (T + 1), digitalRead) :: everyMs (T + 1) digitalRead n.
Proof.
  unfold everyMs. simpl. f_equal.
  rewrite <- fmap_S_seq, <- list_fmap_compose.
  apply list_fmap_ext. intros k x _. simpl. do 2 f_equal. lia.
Qed.

Lemma everyMs_app (T : Z) (digitalRead : Z -> Level) (n m : nat) :
  everyMs T digitalRead (n + m)
  = everyMs T digitalRead n ++ everyMs (T + Z.of_nat n) digitalRead m.
Proof.
  revert T. induction n as [|n IH]; intros T.
  - simpl. by rewrite Z.add_0_r.
  - change (S n + m)%nat with (S (n + m)).
    rewrite !everyMs_S, IH.
    replace (T + 1 + Z.of_nat n) with (T + Z.of_nat (S n)) by lia.
    reflexivity.
Qed.

Lemma slotSeq_app (callback : bool) (s1 s2 : list (Z * (Z -> Level)))
    (b : State) :
  slotSeq callback (s1 ++ s2) b
  = ((slotSeq callback s2 (slotSeq callback s1 b).1).1,
     (slotSeq callback s1 b).2 ++ (slotSeq callback s2 (slotSeq callback s1 b).1).2).
Proof.
  revert b. induction s1 as [|[now rd] s1 IH]; intros b; simpl.
  - by destruct (slotSeq callback s2 b).
  - destruct (pollSlot now rd callback b) as [b1 f]. rewrite IH.
    destruct (slotSeq callback s1 b1) as [b2 fs]. simpl.
    by destruct (slotSeq callback s2 b2).
Qed.

(** Polls at which no long-press test passes leave a held slot alone. *)
Lemma hold_silent (digitalRead : Z -> Level) (n : nat) (T0 : Z) (b : State) :
  pin b <> 255 -> digitalRead (pin b) = PRESSED ->
  state b = PRESSED -> lastReading b = PRESSED ->
  (forall k, 1 <= k <= Z.of_nat n -> longPressDue (wrap (T0 + k)) b = false) ->
  slotSeq true (everyMs T0 digitalRead n) b = (b, replicate n false).
Proof.
  intros Hp Hrd Hs Hlr. revert T0.
  induction n as [|n IH]; intros T0 Hq; [done|].
  rewrite everyMs_S. simpl. rewrite hold_poll by done.
  rewrite (Hq 1) by lia. rewrite IH; [done|].
  intros k Hk. replace (T0 + 1 + k) with (T0 + (k + 1)) by lia.
  apply Hq. lia.
Qed.

(** One window: silent polls, then the callback at the last one. *)
Lemma hold_window (digitalRead : Z -> Level) (T0 : Z) (b : State) :
  0 < BUTTON_LONGPRESS_TIME ->
  pin b <> 255 -> digitalRead (pin b) = PRESSED ->
  state b = PRESSED -> lastReading b = PRESSED ->
  (forall k, 1 <= k < BUTTON_LONGPRESS_TIME ->
     longPressDue (wrap (T0 + k)) b = false) ->
  longPressDue (wrap (T0 + BUTTON_LONGPRESS_TIME)) b = true ->
  slotSeq true (everyMs T0 digitalRead (Z.to_nat BUTTON_LONGPRESS_TIME)) b
  = (set_lastLongPressCallback (wrap (T0 + BUTTON_LONGPRESS_TIME)) b,
     replicate (Z.to_nat BUTTON_LONGPRESS_TIME - 1) false ++ [true]).
Proof.
  intros HL Hp Hrd Hs Hlr Hq Hdue.
  replace (Z.to_nat BUTTON_LONGPRESS_TIME)
    with ((Z.to_nat BUTTON_LONGPRESS_TIME - 1) + 1)%nat at 1 by lia.
  rewrite everyMs_app, slotSeq_app.
  rewrite (hold_silent digitalRead (Z.to_nat BUTTON_LONGPRESS_TIME - 1) T0 b);
    try done.
  - cbn [fst snd]. rewrite everyMs_S. cbn [everyMs seq fmap list_fmap slotSeq].
    replace (T0 + Z.of_nat (Z.to_nat BUTTON_LONGPRESS_TIME - 1) + 1)
      with (T0 + BUTTON_LONGPRESS_TIME) by lia.
    rewrite hold_poll by done.
    by rewrite Hdue.
  - intros k Hk. apply Hq. lia.
Qed.

Lemma window_counts :
  bit <$> (replicate (Z.to_nat BUTTON_LONGPRESS_TIME - 1) false ++ [true])
  = window.
Proof. unfold window. by rewrite fmap_app, fmap_replicate. Qed.

Lemma window_sum : sum_list window = 1%nat.
Proof.
  unfold window. rewrite sum_list_with_app, sum_list_replicate. simpl. lia.
Qed.

(** Three windows in a row, seen from the slot. *)
Lemma hold_three_windows (digitalRead : Z -> Level) (b : State) (T : Z) :
  0 < BUTTON_LONGPRESS_TIME -> 3 * BUTTON_LONGPRESS_TIME < ULONG_MODULUS ->
  0 <= T < ULONG_MODULUS ->
  BUTTON_LONGPRESS_TIME <= wrap (T + BUTTON_LONGPRESS_TIME) ->
  pin b <> 255 -> digitalRead (pin b) = PRESSED ->
  state b = PRESSED -> lastReading b = PRESSED ->
  last_time b = T -> lastLongPressCallback b = 0 ->
  bit <$> (slotSeq true
             (everyMs T digitalRead (Z.to_nat (3 * BUTTON_LONGPRESS_TIME))) b).2
  = window ++ window ++ window.
Proof.
  intros HL HM HT Hfirst Hp Hrd Hs Hlr Hlt Hlc.
  replace (Z.to_nat (3 * BUTTON_LONGPRESS_TIME))
    with (Z.to_nat BUTTON_LONGPRESS_TIME
          + (Z.to_nat BUTTON_LONGPRESS_TIME
             + Z.to_nat BUTTON_LONGPRESS_TIME))%nat by lia.
  rewrite !everyMs_app, !slotSeq_app, !Z2Nat.id by lia.
  assert (forall e, 0 <= e < ULONG_MODULUS ->
            usub (wrap (T + e)) (last_time b) = e) as Hpress.
  { intros e He. rewrite Hlt.
    transitivity (usub (wrap (T + e)) (wrap T)); [by rewrite (wrap_small T)|].
    rewrite usub_elapsed; lia. }
  rewrite (hold_window digitalRead T b); try done.
  2:{ intros k Hk. unfold longPressDue. rewrite Hpress by lia.
      destruct (Z.geb_spec k BUTTON_LONGPRESS_TIME); [lia|done]. }
  2:{ unfold longPressDue. rewrite Hpress, Hlc, usub_zero by lia.
      rewrite andb_true_iff, !Z.geb_le. lia. }
  simpl.
  set (b1 := set_lastLongPressCallback (wrap (T + BUTTON_LONGPRESS_TIME)) b).
  rewrite (hold_window digitalRead (T + BUTTON_LONGPRESS_TIME) b1); try done.
  2:{ intros k Hk. unfold longPressDue. simpl.
      rewrite (usub_elapsed (T + BUTTON_LONGPRESS_TIME)) by lia.
      rewrite andb_false_iff, !Z.geb_leb, !Z.leb_gt. lia. }
  2:{ unfold longPressDue. simpl.
      rewrite (usub_elapsed (T + BUTTON_LONGPRESS_TIME)) by lia.
      rewrite <- Z.add_assoc, Hpress by lia.
      rewrite andb_true_iff, !Z.geb_le. lia. }
  simpl.
  set (b2 := set_lastLongPressCallback
               (wrap (T + BUTTON_LONGPRESS_TIME + BUTTON_LONGPRESS_TIME)) b1).
  rewrite (hold_window digitalRead
             (T + BUTTON_LONGPRESS_TIME + BUTTON_LONGPRESS_TIME) b2); try done.
  2:{ intros k Hk. unfold longPressDue. simpl.
      rewrite (usub_elapsed (T + BUTTON_LONGPRESS_TIME + BUTTON_LONGPRESS_TIME))
        by lia.
      rewrite andb_false_iff, !Z.geb_leb, !Z.leb_gt. lia. }
  2:{ unfold longPressDue. simpl.
      rewrite (usub_elapsed (T + BUTTON_LONGPRESS_TIME + BUTTON_LONGPRESS_TIME))
        by lia.
      rewrite <- !Z.add_assoc, Hpress by lia.
      rewrite andb_true_iff, !Z.geb_le. lia. }
  cbn [fst snd]. by rewrite <- !window_counts, !fmap_app.
Qed.

(** C3. With a callback registered, take a slot whose press the poll at
    clock [T] has just registered ([PRESSED], [last_time] = [T], no
    long-press callback yet), that nothing mirrors onto, the other slots
    unused or released.  Holding its raw input [PRESSED] for the next
    3 * [BUTTON_LONGPRESS_TIME] ms, polled every millisecond, runs the
    callback exactly three times: at the last poll of each of the three
    windows, [T] + 1, 2 and 3 long-press times, and at no other poll.
    The clock may wrap during the hold, but the first window has to end
    at a clock value of at least the long-press time. *)
Theorem long_press_cadence (digitalRead : Z -> Level) (reg : list State)
    (i : nat) (b : State) (T : Z) :
  0 < BUTTON_LONGPRESS_TIME -> 3 * BUTTON_LONGPRESS_TIME < ULONG_MODULUS ->
  0 <= T < ULONG_MODULUS ->
  BUTTON_LONGPRESS_TIME <= wrap (T + BUTTON_LONGPRESS_TIME) ->
  reg !! i = Some b -> unmirrored i reg -> othersReleased i reg digitalRead ->
  pin b <> 255 -> digitalRead (pin b) = PRESSED ->
  state b = PRESSED -> lastReading b = PRESSED ->
  last_time b = T -> lastLongPressCallback b = 0 ->
  let counts :=
    (pollSeq true
       (everyMs T digitalRead (Z.to_nat (3 * BUTTON_LONGPRESS_TIME))) reg).2 in
  counts = window ++ window ++ window /\ sum_list counts = 3%nat.
Proof.
  intros HL HM HT Hfirst Hi Hu Ho Hp Hrd Hs Hlr Hlt Hlc counts.
  assert (counts = window ++ window ++ window) as Hc.
  { subst counts. rewrite (pollSeq_counts true _ reg i b) by
      (try done; apply Forall_fmap, Forall_forall; intros; exact Ho).
    by apply hold_three_windows. }
  split; [done|].
  rewrite Hc, !sum_list_with_app, !window_sum. done.
Qed.

(** *** From the raw edge to the third callback *)

(** The poll that sees the raw level go down. *)
Lemma edge_poll (now : Z) (digitalRead : Z -> Level) (b : State) :
  0 <= BUTTON_DEBOUNCE_TIME ->
  pin b <> 255 -> digitalRead (pin b) = PRESSED ->
  state b = RELEASED -> lastReading b = RELEASED ->
  pollSlot now digitalRead true b
  = (set_lastReading PRESSED (set_lastChangeTime now b), false).
Proof.
  intros HD Hp Hrd Hs Hlr. unfold pollSlot.
  destruct (Z.eqb_spec (pin b) 255); [done|].
  rewrite Hrd. destruct b; simpl in *; subst.
  unfold pollButton. simpl. rewrite usub_self.
  destruct (Z.gtb_spec 0 BUTTON_DEBOUNCE_TIME); [lia|]. reflexivity.
Qed.

(** A poll while the press is still within the debounce time. *)
Lemma pending_poll (now : Z) (digitalRead : Z -> Level) (b : State) :
  pin b <> 255 -> digitalRead (pin b) = PRESSED ->
  state b = RELEASED -> lastReading b = PRESSED ->
  usub now (lastChangeTime b) <= BUTTON_DEBOUNCE_TIME ->
  pollSlot now digitalRead true b = (b, false).
Proof.
  intros Hp Hrd Hs Hlr Hle. unfold pollSlot.
  destruct (Z.eqb_spec (pin b) 255); [done|].
  rewrite Hrd. destruct b; simpl in *; subst.
  unfold pollButton. simpl.
  destruct (Z.gtb_spec (usub now lastChangeTime0) BUTTON_DEBOUNCE_TIME); [lia|].
  reflexivity.
Qed.

Lemma registering_poll (now : Z) (digitalRead : Z -> Level) (b : State) :
  0 < BUTTON_LONGPRESS_TIME ->
  pin b <> 255 -> digitalRead (pin b) = PRESSED ->
  state b = RELEASED -> lastReading b = PRESSED ->
  BUTTON_DEBOUNCE_TIME < usub now (lastChangeTime b) ->
  pollSlot now digitalRead true b = (registered now b, false).
Proof.
  intros HL Hp Hrd Hs Hlr Hlt. unfold pollSlot.
  destruct (Z.eqb_spec (pin b) 255); [done|].
  rewrite Hrd. destruct b; simpl in *; subst.
  unfold pollButton, registered. simpl.
  destruct (Z.gtb_spec (usub now lastChangeTime0) BUTTON_DEBOUNCE_TIME); [|lia].
  simpl. rewrite usub_self.
  destruct (Z.geb_spec 0 BUTTON_LONGPRESS_TIME); [lia|].
  destruct (usub now last_time0 <? BUTTON_DOUBLECLICK_TIME); reflexivity.
Qed.

Lemma pending_silent (digitalRead : Z -> Level) (n : nat) (T0 : Z) (b : State) :
  pin b <> 255 -> digitalRead (pin b) = PRESSED ->
  state b = RELEASED -> lastReading b = PRESSED ->
  (forall k, 1 <= k <= Z.of_nat n ->
     usub (wrap (T0 + k)) (lastChangeTime b) <= BUTTON_DEBOUNCE_TIME) ->
  slotSeq true (everyMs T0 digitalRead n) b = (b, replicate n false).
Proof.
  intros Hp Hrd Hs Hlr. revert T0.
  induction n as [|n IH]; intros T0 Hq; [done|].
  rewrite everyMs_S. simpl. rewrite pending_poll by (try done; apply Hq; lia).
  rewrite IH; [done|].
  intros k Hk. replace (T0 + 1 + k) with (T0 + (k + 1)) by lia.
  apply Hq. lia.
Qed.

Lemma everyMs_wrap (T : Z) (digitalRead : Z -> Level) (n : nat) :
  everyMs (wrap T) digitalRead n = everyMs T digitalRead n.
Proof.
  unfold everyMs. apply list_fmap_ext. intros k x _. simpl. f_equal.
  unfold wrap. by rewrite Zplus_mod_idemp_l.
Qed.

(** From a released slot: the raw level goes down at clock [t0] and stays
    down, polled every millisecond.  The press is registered
    [BUTTON_DEBOUNCE_TIME] + 1 ms after the edge. *)
Lemma press_registers (digitalRead : Z -> Level) (t0 : Z) (b : State) :
  0 <= BUTTON_DEBOUNCE_TIME -> BUTTON_DEBOUNCE_TIME + 1 < ULONG_MODULUS ->
  0 < BUTTON_LONGPRESS_TIME ->
  pin b <> 255 -> digitalRead (pin b) = PRESSED ->
  state b = RELEASED -> lastReading b = RELEASED ->
  slotSeq true
    (everyMs (t0 - 1) digitalRead (S (Z.to_nat BUTTON_DEBOUNCE_TIME + 1))) b
  = (registered (wrap (t0 + BUTTON_DEBOUNCE_TIME + 1))
       (set_lastReading PRESSED (set_lastChangeTime (wrap t0) b)),
     replicate (S (Z.to_nat BUTTON_DEBOUNCE_TIME + 1)) false).
Proof.
  intros HD HM HL Hp Hrd Hs Hlr.
  rewrite everyMs_S. replace (t0 - 1 + 1) with t0 by lia.
  cbn [slotSeq]. rewrite edge_poll by done.
  set (b1 := set_lastReading PRESSED (set_lastChangeTime (wrap t0) b)).
  rewrite everyMs_app, slotSeq_app.
  assert (forall k, 0 <= k < ULONG_MODULUS ->
            usub (wrap (t0 + k)) (lastChangeTime b1) = k) as Hel.
  { intros k Hk. simpl. rewrite usub_elapsed; lia. }
  rewrite (pending_silent digitalRead (Z.to_nat BUTTON_DEBOUNCE_TIME) t0 b1);
    try done.
  2:{ intros k Hk. rewrite Hel; lia. }
  cbn [fst snd]. rewrite everyMs_S. cbn [everyMs seq fmap list_fmap slotSeq].
  rewrite Z2Nat.id by lia.
  rewrite registering_poll; try done.
  - cbn [fst snd]. rewrite replicate_S, replicate_add. reflexivity.
  - rewrite <- Z.add_assoc, Hel; lia.
Qed.

(** X26. The whole gesture: the callback first runs one debounce time, one
    millisecond and one long-press time after the raw edge, so the raw
    input has to stay down that much longer than three long-press times
    for the third callback. *)
Lemma press_and_hold_cadence (digitalRead : Z -> Level) (reg : list State)
    (i : nat) (b : State) (t0 : Z) :
  0 <= BUTTON_DEBOUNCE_TIME -> BUTTON_DEBOUNCE_TIME + 1 < ULONG_MODULUS ->
  0 < BUTTON_LONGPRESS_TIME -> 3 * BUTTON_LONGPRESS_TIME < ULONG_MODULUS ->
  BUTTON_LONGPRESS_TIME
    <= wrap (t0 + BUTTON_DEBOUNCE_TIME + 1 + BUTTON_LONGPRESS_TIME) ->
  reg !! i = Some b -> unmirrored i reg -> othersReleased i reg digitalRead ->
  pin b <> 255 -> digitalRead (pin b) = PRESSED ->
  state b = RELEASED -> lastReading b = RELEASED ->
  lastLongPressCallback b = 0 ->
  (pollSeq true
     (everyMs (t0 - 1) digitalRead
        (S (Z.to_nat BUTTON_DEBOUNCE_TIME + 1)
         + Z.to_nat (3 * BUTTON_LONGPRESS_TIME))) reg).2
  = replicate (S (Z.to_nat BUTTON_DEBOUNCE_TIME + 1)) 0%nat
    ++ window ++ window ++ window.
Proof.
  intros HD HDM HL HM Hfirst Hi Hu Ho Hp Hrd Hs Hlr Hlc.
  rewrite (pollSeq_counts true _ reg i b) by
    (try done; apply Forall_fmap, Forall_forall; intros; exact Ho).
  rewrite everyMs_app, slotSeq_app, press_registers by done.
  cbn [fst snd]. rewrite fmap_app, fmap_replicate. f_equal.
  replace (t0 - 1 + Z.of_nat (S (Z.to_nat BUTTON_DEBOUNCE_TIME + 1)))
    with (t0 + BUTTON_DEBOUNCE_TIME + 1) by lia.
  rewrite <- everyMs_wrap.
  apply hold_three_windows; try done.
  - apply Z.mod_pos_bound. reflexivity.
  - unfold wrap in *. by rewrite Zplus_mod_idemp_l.
Qed.

(** ** Mirroring *)

(** One iteration of the second loop writes the four fields of a pressed
    source onto its target, whatever the pin of the source. *)
Lemma propagate_copies (i t : nat) (reg : list State) (src dst : State) :
  reg !! i = Some src -> mappedState src = Some t -> state src = PRESSED ->
  reg !! t = Some dst ->
  propagate i reg !! t = Some (mirror src dst)
  /\ state (mirror src dst) = state src
  /\ duration (mirror src dst) = duration src
  /\ doublePress (mirror src dst) = doublePress src
  /\ last_time (mirror src dst) = last_time src.
Proof.
  intros Hi Ht Hs Hd. unfold propagate. rewrite Hi, Ht, Hs. simpl.
  by rewrite list_lookup_alter_eq, Hd.
Qed.

(** On a registry whose unused slots hold no mapping pointer, the second
    loop does what a loop that skips unused slots does.  [setup] binds
    pointers of used slots only, and nothing in the library writes [pin]
    or [mappedState] afterwards. *)
Lemma unusedUnbound_links (reg reg' : list State) :
  links <$> reg' = links <$> reg -> unusedUnbound reg -> unusedUnbound reg'.
Proof.
  unfold unusedUnbound. rewrite !Forall_lookup. intros Heq H k b' Hk.
  assert (links <$> reg !! k = Some (links b')) as Hl.
  { rewrite <- list_lookup_fmap, <- Heq, list_lookup_fmap, Hk. done. }
  destruct (reg !! k) as [b|] eqn:E; [|done].
  injection Hl as Hl. unfold links in Hl.
  assert (pin b = pin b' /\ mappedState b = mappedState b') as [<- <-]
    by (split; congruence).
  by apply (H k).
Qed.

Lemma setup_unusedUnbound (conf : list State) :
  unusedUnbound conf -> unusedUnbound (setup conf).
Proof.
  unfold unusedUnbound, setup. intros H. apply Forall_fmap.
  eapply Forall_impl; [exact H|]. intros b Hb. simpl.
  destruct (Z.eqb_spec (pin b) 255) as [Hp|Hp]; simpl; [done|].
  destruct (negb (mappedPin b =? 255)); simpl; intros ?; done.
Qed.

Lemma propagateSkipping_eq (i : nat) (reg : list State) :
  unusedUnbound reg -> propagateSkipping i reg = propagate i reg.
Proof.
  intros H. unfold propagateSkipping, propagate.
  destruct (reg !! i) as [b|] eqn:Hi; [|done].
  destruct (Z.eqb_spec (pin b) 255) as [Hp|Hp]; [|done].
  unfold unusedUnbound in H. rewrite Forall_lookup in H.
  by rewrite (H i b Hi Hp).
Qed.

Lemma propagateAll_skipping (reg : list State) :
  unusedUnbound reg -> propagateAll reg = propagateAllSkipping reg.
Proof.
  unfold propagateAll, propagateAllSkipping.
  generalize (seq 0 (length reg)) as slots. intros slots. revert reg.
  induction slots as [|i slots IH]; intros reg H; simpl; [done|].
  rewrite propagateSkipping_eq by done. apply IH.
  eapply unusedUnbound_links; [apply propagate_links|done].
Qed.

(** ** Polls without input *)

(** A poll of a released slot whose raw level stays up writes nothing. *)
Lemma idle_poll (now : Z) (digitalRead : Z -> Level) (callback : bool)
    (b : State) :
  digitalRead (pin b) = RELEASED ->
  state b = RELEASED -> lastReading b = RELEASED ->
  lastLongPressCallback b = 0 ->
  pollSlot now digitalRead callback b = (b, false).
Proof.
  intros Hrd Hs Hlr Hlc. unfold pollSlot.
  destruct (pin b =? 255); [done|].
  rewrite Hrd. destruct b; simpl in *; subst.
  unfold pollButton. simpl.
  destruct (usub now lastChangeTime0 >? BUTTON_DEBOUNCE_TIME); reflexivity.
Qed.

(** ** More on lookup and binding *)

Lemma getState_from_first (buttons : list State) (p : Z) (k t : nat) (d : State) :
  buttons !! t = Some d -> pin d = p ->
  (forall j d', (j < t)%nat -> buttons !! j = Some d' -> pin d' <> p) ->
  getState_from k buttons p = Some (k + t)%nat.
Proof.
  revert k t. induction buttons as [|b rest IH]; intros k t Ht Hp Hfirst;
    [done|].
  destruct t as [|t]; simpl in *.
  - injection Ht as ->. destruct (Z.eqb_spec (pin d) p); [|done].
    f_equal. lia.
  - destruct (Z.eqb_spec (pin b) p) as [Hb|Hb].
    + exfalso. apply (Hfirst 0%nat b); [lia|done|done].
    + rewrite (IH (S k) t); [f_equal; lia|done|done|].
      intros j d' Hj Hl. apply (Hfirst (S j)); [lia|done].
Qed.

Lemma getState_first (reg : list State) (p : Z) (t : nat) :
  p <> 255 -> firstWithPin reg p t -> getState reg p = Some t.
Proof.
  intros Hp ((d & Hd & Hpin) & Hfirst). unfold getState.
  destruct (Z.eqb_spec p 255); [done|].
  by rewrite (getState_from_first reg p 0 t d).
Qed.

Lemma links_lookup (reg reg' : list State) (k : nat) (b' : State) :
  links <$> reg' = links <$> reg -> reg' !! k = Some b' ->
  exists b, reg !! k = Some b /\ links b = links b'.
Proof.
  intros Heq Hk.
  assert (links <$> reg !! k = Some (links b')) as Hl.
  { rewrite <- list_lookup_fmap, <- Heq, list_lookup_fmap, Hk. done. }
  destruct (reg !! k) as [b|]; [|done].
  simpl in Hl. exists b. split; [done|congruence].
Qed.

Lemma links_pins (reg reg' : list State) :
  links <$> reg' = links <$> reg -> pin <$> reg' = pin <$> reg.
Proof.
  intros H. apply list_eq. intros k. rewrite !list_lookup_fmap.
  destruct (reg' !! k) as [b'|] eqn:E'.
  - destruct (links_lookup _ _ _ _ H E') as (b & -> & Hl). simpl.
    unfold links in Hl. congruence.
  - apply (f_equal length) in H. rewrite !length_fmap in H.
    apply lookup_ge_None in E'. rewrite lookup_ge_None_2 by lia. done.
Qed.

Lemma reset_links (now : Z) (reg : list State) (p : Z) :
  links <$> reset now reg p = links <$> reg.
Proof.
  destruct (getState reg p) as [k|] eqn:Hk.
  - apply list_eq. intros j.
    rewrite !list_lookup_fmap, (reset_lookup _ _ _ k) by done.
    destruct (reg !! j) as [b|]; simpl; [|done].
    by destruct (Nat.eqb j k || (mappedPin b =? p)).
  - unfold reset. by rewrite Hk.
Qed.

Lemma query_links (q : Predicate) (now : Z) (reg : list State) (p : Z)
    (rst : bool) :
  links <$> (query q now reg p rst).2 = links <$> reg.
Proof.
  rewrite query_checkPress. unfold checkPress.
  destruct (getState reg p ≫= _); [|done].
  match goal with |- context [if ?c then _ else _] => destruct c end; [|done].
  destruct rst; [apply reset_links|done].
Qed.

Lemma setup_lookup (conf : list State) (i : nat) :
  setup conf !! i
  = (fun b =>
       if negb (pin b =? 255) && negb (mappedPin b =? 255)
       then set_mappedState (getState conf (mappedPin b)) b
       else b) <$> conf !! i.
Proof. unfold setup. by rewrite list_lookup_fmap. Qed.

Lemma setup_pins (conf : list State) : pin <$> setup conf = pin <$> conf.
Proof.
  unfold setup. rewrite <- list_fmap_compose. apply list_fmap_ext.
  intros k b _. simpl.
  by destruct (negb (pin b =? 255) && negb (mappedPin b =? 255)).
Qed.

(** X1. [getState] finds exactly the first slot with the pin asked for:
    it returns slot [t] if and only if the pin is not 255 and [t] is the
    first slot with that pin, and it returns [nullptr] if and only if the
    pin is 255 or no slot has it. *)
Theorem getState_characterised (reg : list State) (p : Z) :
  (forall t, getState reg p = Some t <-> p <> 255 /\ firstWithPin reg p t)
  /\ (getState reg p = None <-> p = 255 \/ forall b, b ∈ reg -> pin b <> p).
Proof.
  split.
  - intros t. split.
    + intros H. destruct (getState_Some _ _ _ H) as (Hp & d & Hd & Hpin & Hf).
      split; [done|]. split; [by exists d|done].
    + intros [Hp Hf]. by apply getState_first.
  - split; [|apply getState_absent].
    intros H. destruct (Z.eq_dec p 255) as [|Hp]; [by left|right].
    intros b Hb Hpin. unfold getState in H.
    destruct (Z.eqb_spec p 255); [done|].
    destruct (getState_from_present reg p 0 b Hb Hpin) as [t Ht]. congruence.
Qed.

(** X2. What [setup] writes.  A used slot that names a [mappedPin] other
    than 255 gets its pointer bound to the first slot with that pin, or
    [nullptr] when no slot has it, whatever the pointer was before; every
    other field of it, and every unused slot and every slot with
    [mappedPin] 255, pointer included, is left as it was. *)
Theorem setup_binds (conf : list State) (i : nat) (b : State) :
  conf !! i = Some b ->
  (pin b <> 255 -> mappedPin b <> 255 ->
     (forall t, firstWithPin conf (mappedPin b) t ->
        setup conf !! i = Some (set_mappedState (Some t) b))
     /\ ((forall d, d ∈ conf -> pin d <> mappedPin b) ->
         setup conf !! i = Some (set_mappedState None b)))
  /\ (pin b = 255 \/ mappedPin b = 255 -> setup conf !! i = Some b).
Proof.
  intros Hi. rewrite setup_lookup, Hi. simpl. split.
  - intros Hp Hm.
    destruct (Z.eqb_spec (pin b) 255); [done|].
    destruct (Z.eqb_spec (mappedPin b) 255); [done|]. simpl. split.
    + intros t Ht. by rewrite (getState_first conf _ t).
    + intros Habs. rewrite getState_absent; [done|by right].
  - intros [Hp|Hm].
    + rewrite Hp. reflexivity.
    + rewrite Hm. simpl. by rewrite andb_false_r.
Qed.

(** X3. Calling [setup] again on a registry it has bound changes
    nothing. *)
Theorem setup_idempotent (conf : list State) : setup (setup conf) = setup conf.
Proof.
  apply list_eq. intros i. rewrite (setup_lookup (setup conf)), setup_lookup.
  destruct (conf !! i) as [b|]; simpl; [|done]. f_equal.
  destruct (negb (pin b =? 255) && negb (mappedPin b =? 255)) eqn:E; simpl;
    rewrite E; [|done].
  by rewrite (getState_pins _ conf _ (setup_pins conf)).
Qed.

(** X4. No operation moves a slot, renames its pin or mapped pin, or
    changes the number of slots, and only [setup] writes a mapping
    pointer: [update], [reset] and the six predicates keep [pin],
    [mappedPin] and [mappedState] of every slot; [setup] keeps [pin] and
    [mappedPin]. *)
Theorem identity_fields_kept (q : Predicate) (now : Z)
    (digitalRead : Z -> Level) (callback rst : bool) (reg : list State)
    (p : Z) :
  links <$> (update now digitalRead callback reg).1 = links <$> reg
  /\ links <$> reset now reg p = links <$> reg
  /\ links <$> (query q now reg p rst).2 = links <$> reg
  /\ (fun b => (pin b, mappedPin b)) <$> setup reg
     = (fun b => (pin b, mappedPin b)) <$> reg
  /\ length (update now digitalRead callback reg).1 = length reg
  /\ length (reset now reg p) = length reg
  /\ length (query q now reg p rst).2 = length reg
  /\ length (setup reg) = length reg.
Proof.
  pose proof (update_links now digitalRead callback reg) as Hu.
  pose proof (reset_links now reg p) as Hr.
  pose proof (query_links q now reg p rst) as Hq.
  repeat split; try done.
  - unfold setup. rewrite <- list_fmap_compose. apply list_fmap_ext.
    intros k b _. simpl.
    by destruct (negb (pin b =? 255) && negb (mappedPin b =? 255)).
  - apply (f_equal length) in Hu. by rewrite !length_fmap in Hu.
  - apply (f_equal length) in Hr. by rewrite !length_fmap in Hr.
  - apply (f_equal length) in Hq. by rewrite !length_fmap in Hq.
  - unfold setup. by rewrite length_fmap.
Qed.

Lemma wellBound_links (reg reg' : list State) :
  links <$> reg' = links <$> reg -> wellBound reg -> wellBound reg'.
Proof.
  intros Heq H i b' t Hi Hp Hm Hs.
  destruct (links_lookup _ _ _ _ Heq Hi) as (b & Hb & Hl).
  unfold links in Hl.
  assert (pin b = pin b' /\ mappedPin b = mappedPin b'
          /\ mappedState b = mappedState b') as (Ep & Em & Es)
    by (repeat split; congruence).
  destruct (H i b t Hb) as (d & Hd & Hpd); [congruence..|].
  assert (links <$> reg' !! t = Some (links d)) as Ht
    by (by rewrite <- list_lookup_fmap, Heq, list_lookup_fmap, Hd).
  destruct (reg' !! t) as [d'|]; [|done]. injection Ht as Ht.
  exists d'. split; [done|]. unfold links in Ht. congruence.
Qed.

(** X5. After [setup], every pointer of a used slot that names a mapped
    pin points inside the registry, at a slot with that pin; [update],
    [reset] and the six predicates keep it so. *)
Theorem setup_wellBound (conf : list State) :
  wellBound (setup conf)
  /\ forall q now digitalRead callback rst p reg,
       wellBound reg ->
       wellBound (update now digitalRead callback reg).1
       /\ wellBound (reset now reg p)
       /\ wellBound (query q now reg p rst).2.
Proof.
  split.
  - intros i b' t Hi Hp Hm Hs. rewrite setup_lookup in Hi.
    destruct (conf !! i) as [b|]; [|done]. simpl in Hi. injection Hi as <-.
    destruct (negb (pin b =? 255) && negb (mappedPin b =? 255)) eqn:E.
    + simpl in *. destruct (getState_Some _ _ _ Hs) as (_ & d & Hd & Hpd & _).
      pose proof (setup_pins conf) as Hpins.
      assert (pin <$> setup conf !! t = Some (pin d)) as Ht
        by (by rewrite <- list_lookup_fmap, Hpins, list_lookup_fmap, Hd).
      destruct (setup conf !! t) as [d'|]; [|done]. injection Ht as Ht.
      exists d'. split; [done|congruence].
    + apply andb_false_iff in E as [E|E]; apply negb_false_iff, Z.eqb_eq in E;
        done.
  - intros q now digitalRead callback rst p reg H. repeat split.
    + eapply wellBound_links; [apply update_links|done].
    + eapply wellBound_links; [apply reset_links|done].
    + eapply wellBound_links; [apply query_links|done].
Qed.


(** ** More on reset and the predicates *)

Lemma getState_reset (now : Z) (reg : list State) (p p' : Z) :
  getState (reset now reg p) p' = getState reg p'.
Proof. apply getState_pins, reset_pins. Qed.

(** A slot with no latched duration is reported by no predicate. *)
Lemma query_no_duration (q : Predicate) (now : Z) (reg : list State) (p : Z)
    (rst : bool) (k : nat) (b : State) :
  getState reg p = Some k -> reg !! k = Some b -> duration b = 0 ->
  query q now reg p rst = (false, reg).
Proof.
  intros Hk Hb Hd. rewrite query_checkPress, Hk.
  unfold checkPress. simpl. rewrite Hb, Hd. simpl.
  by rewrite andb_false_r.
Qed.

Lemma reset_silent_slot (q : Predicate) (now now' : Z) (reg : list State)
    (p p' : Z) (rst : bool) (k k' : nat) (b' : State) :
  getState reg p = Some k ->
  getState reg p' = Some k' -> reg !! k' = Some b' ->
  k' = k \/ mappedPin b' = p ->
  query q now' (reset now reg p) p' rst = (false, reset now reg p).
Proof.
  intros Hk Hk' Hb' Hdep.
  apply (query_no_duration q now' _ p' rst k' (cleared now b')).
  - by rewrite getState_reset.
  - rewrite (reset_lookup now reg p k k' Hk), Hb'. simpl.
    destruct Hdep as [->|Hm].
    + by rewrite Nat.eqb_refl.
    + apply Z.eqb_eq in Hm. by rewrite Hm, orb_true_r.
  - reflexivity.
Qed.

(** X6. A second [reset] of the same pin overrides the first: the
    registry is as if only the later one had run. *)
Theorem reset_absorbs (now now' : Z) (reg : list State) (p : Z) :
  reset now' (reset now reg p) p = reset now' reg p.
Proof.
  destruct (getState reg p) as [k|] eqn:Hk.
  - apply list_eq. intros j.
    rewrite (reset_lookup now' (reset now reg p) p k j)
      by (by rewrite getState_reset).
    rewrite !(reset_lookup _ reg p k j) by done.
    destruct (reg !! j) as [b|]; simpl; [|done]. f_equal.
    destruct (Nat.eqb j k || (mappedPin b =? p)) eqn:E; simpl; by rewrite E.
  - unfold reset at 2 3. rewrite Hk. unfold reset. by rewrite Hk.
Qed.

(** X7. After [reset] of a registered pin, each of the six predicates
    returns false, and writes nothing, for that pin and for the pin of
    every slot that maps to it, at whatever clock value and with either
    consume flag. *)
Theorem reset_silences (q : Predicate) (now now' : Z) (reg : list State)
    (p p' : Z) (rst : bool) (k k' : nat) (b' : State) :
  getState reg p = Some k ->
  getState reg p' = Some k' -> reg !! k' = Some b' ->
  p' = p \/ mappedPin b' = p ->
  query q now' (reset now reg p) p' rst = (false, reset now reg p).
Proof.
  intros Hk Hk' Hb' Hdep.
  apply (reset_silent_slot q now now' reg p p' rst k k' b'); try done.
  destruct Hdep as [->|Hm]; [left; congruence|by right].
Qed.

(** X8. A predicate that consumes a press leaves nothing for any of the
    six: once a call with consume set has returned true for pin [p],
    every predicate returns false, and writes nothing, for [p] and for the
    pin of every slot that maps to [p], until the next poll. *)
Theorem consume_silences (q q' : Predicate) (now now' : Z)
    (reg : list State) (p p' : Z) (rst : bool) (k' : nat) (b' : State) :
  (query q now reg p true).1 = true ->
  getState reg p' = Some k' -> reg !! k' = Some b' ->
  p' = p \/ mappedPin b' = p ->
  query q' now' (query q now reg p true).2 p' rst
  = (false, (query q now reg p true).2).
Proof.
  intros Htrue Hk' Hb' Hdep. rewrite (query_checkPress q) in Htrue |- *.
  destruct (getState reg p) as [k|] eqn:Hk; [|done].
  destruct (getState_Some _ _ _ Hk) as (_ & b & Hb & Hpin & _).
  rewrite (checkPress_consumes now reg k b) by done. rewrite Hpin.
  apply (reset_silent_slot q' now now' reg p p' rst k k' b'); try done.
  destruct Hdep as [->|Hm]; [left; congruence|by right].
Qed.

(** X9. With a long-press time other than 0, a press is reported as
    short or as long, never as both: [isPressed] is the disjunction of
    [isShortPressed] and [isLongPressed], and the two exclude each other;
    the same holds of the three double predicates. *)
Theorem short_or_long (now : Z) (reg : list State) (p : Z) (rst : bool) :
  BUTTON_LONGPRESS_TIME <> 0 ->
  (isPressed now reg p rst).1
  = (isShortPressed now reg p rst).1 || (isLongPressed now reg p rst).1
  /\ (isShortPressed now reg p rst).1 && (isLongPressed now reg p rst).1 = false
  /\ (isPressedDouble now reg p rst).1
     = (isShortPressedDouble now reg p rst).1
       || (isLongPressedDouble now reg p rst).1
  /\ (isShortPressedDouble now reg p rst).1
     && (isLongPressedDouble now reg p rst).1 = false.
Proof.
  intros HL.
  unfold isPressed, isShortPressed, isLongPressed, isPressedDouble,
    isShortPressedDouble, isLongPressedDouble, checkPress.
  destruct (getState reg p ≫= _) as [b|]; [|done]. simpl.
  destruct (level_eqb (state b) RELEASED), (doublePress b); simpl;
    destruct (Z.gtb_spec (duration b) 0),
      (Z.gtb_spec (duration b) BUTTON_LONGPRESS_TIME),
      (Z.eqb_spec BUTTON_LONGPRESS_TIME 0),
      (Z.leb_spec (duration b) BUTTON_LONGPRESS_TIME),
      (usub now (last_time b) >? BUTTON_DOUBLECLICK_TIME);
    simpl; try done; lia.
Qed.

(** X10. A double predicate reports exactly the presses its plain
    counterpart reports that carry the double flag. *)
Theorem double_variant (q : Predicate) (now : Z) (reg : list State) (p : Z)
    (rst : bool) :
  (query (doubleVariant q) now reg p rst).1 = true
  <-> (query q now reg p rst).1 = true
      /\ exists k b, getState reg p = Some k /\ reg !! k = Some b
                     /\ doublePress b = true.
Proof.
  rewrite !query_checkPress.
  destruct (getState reg p) as [k|] eqn:Hk.
  2:{ simpl. split; [done|]. intros [? _]. done. }
  destruct (reg !! k) as [b|] eqn:Hb.
  2:{ unfold checkPress. simpl. rewrite Hb. split; [done|]. intros [? _]. done. }
  rewrite !(checkPress_true_iff _ _ k b) by done. unfold gates.
  assert (minOf (doubleVariant q) = minOf q
          /\ maxOf (doubleVariant q) = maxOf q
          /\ doubleOf (doubleVariant q) = true) as (-> & -> & ->)
    by (by destruct q).
  split.
  - intros (Hr & Hd & Hdbl). specialize (Hdbl eq_refl).
    repeat split; try done; try tauto. by exists k, b.
  - intros ((Hr & Hd & _) & k0 & b0 & [= <-] & Hb0 & Hdbl).
    repeat split; try done; try tauto. congruence.
Qed.


(** ** Single polls *)

(** X11. The poll that registers a press: a released slot that nothing
    mirrors onto, its raw level down for more than the debounce time,
    comes out [PRESSED] with [duration] 0 and [last_time] the clock, and
    [doublePress] set exactly when less than [BUTTON_DOUBLECLICK_TIME] ms
    have passed since the previous [last_time] (times [T], [t] on an
    unbounded axis, less than a clock period apart). *)
Theorem press_registration (T t : Z) (digitalRead : Z -> Level)
    (callback : bool) (reg : list State) (i : nat) (b : State) :
  T <= t < T + ULONG_MODULUS ->
  reg !! i = Some b -> unmirrored i reg ->
  pin b <> 255 -> digitalRead (pin b) = PRESSED ->
  state b = RELEASED -> lastReading b = PRESSED ->
  BUTTON_DEBOUNCE_TIME < usub (wrap t) (lastChangeTime b) ->
  last_time b = wrap T ->
  exists b', (update (wrap t) digitalRead callback reg).1 !! i = Some b'
    /\ state b' = PRESSED /\ last_time b' = wrap t /\ duration b' = 0
    /\ lastReading b' = PRESSED /\ lastChangeTime b' = lastChangeTime b
    /\ (doublePress b' = true <-> t - T < BUTTON_DOUBLECLICK_TIME).
Proof.
  intros Ht Hi Hu Hp Hrd Hs Hlr Hdeb Hlt.
  rewrite update_lookup, Hi by done. simpl.
  eexists. split; [reflexivity|].
  unfold pollSlot. destruct (Z.eqb_spec (pin b) 255); [done|].
  rewrite Hrd.
  assert ((usub (wrap t) (lastChangeTime b) >? BUTTON_DEBOUNCE_TIME) = true)
    as Hgt by (apply Z.gtb_lt; lia).
  pose proof (usub_elapsed T t Ht) as He.
  destruct b; simpl in *; subst.
  unfold pollButton. simpl. rewrite Hgt. simpl. rewrite He.
  destruct (Z.ltb_spec (t - T) BUTTON_DOUBLECLICK_TIME); simpl;
    poll_cases; simpl; repeat split; try done; try lia.
Qed.

(** X12. The poll that registers a release: a pressed slot that nothing
    mirrors onto, its raw level up for more than the debounce time, comes
    out [RELEASED] with [duration] the time since [last_time], keeping
    [last_time] and [doublePress], and with the long-press time stamp
    cleared; the callback does not run. *)
Theorem release_registration (T t : Z) (digitalRead : Z -> Level)
    (callback : bool) (reg : list State) (i : nat) (b : State) :
  T <= t < T + ULONG_MODULUS ->
  reg !! i = Some b -> unmirrored i reg ->
  pin b <> 255 -> digitalRead (pin b) = RELEASED ->
  state b = PRESSED -> lastReading b = RELEASED ->
  BUTTON_DEBOUNCE_TIME < usub (wrap t) (lastChangeTime b) ->
  last_time b = wrap T ->
  exists b', (update (wrap t) digitalRead callback reg).1 !! i = Some b'
    /\ state b' = RELEASED /\ duration b' = t - T
    /\ last_time b' = wrap T /\ doublePress b' = doublePress b
    /\ lastLongPressCallback b' = 0
    /\ (pollSlot (wrap t) digitalRead callback b).2 = false.
Proof.
  intros Ht Hi Hu Hp Hrd Hs Hlr Hdeb Hlt.
  rewrite update_lookup, Hi by done. simpl.
  eexists. split; [reflexivity|].
  unfold pollSlot. destruct (Z.eqb_spec (pin b) 255); [done|].
  rewrite Hrd.
  assert ((usub (wrap t) (lastChangeTime b) >? BUTTON_DEBOUNCE_TIME) = true)
    as Hgt by (apply Z.gtb_lt; lia).
  pose proof (usub_elapsed T t Ht) as He.
  destruct b; simpl in *; subst.
  unfold pollButton. simpl. rewrite Hgt. simpl. rewrite He. done.
Qed.

(** ** How often the callback runs *)

Lemma pollSlot_fired (now : Z) (digitalRead : Z -> Level)
    (callback : bool) (b : State) :
  (pollSlot now digitalRead callback b).2 = true ->
  callback = true
  /\ negb (pin b =? 255) && level_eqb (digitalRead (pin b)) PRESSED = true.
Proof.
  unfold pollSlot. destruct (pin b =? 255); [done|]. simpl.
  unfold pollButton. destruct (digitalRead (pin b)), callback; simpl;
    rewrite ?andb_false_r; done.
Qed.

(** X13. One poll runs the callback at most once per used slot whose pin
    reads [PRESSED], and never when no callback is registered. *)
Theorem callback_count_bound (now : Z) (digitalRead : Z -> Level)
    (callback : bool) (reg : list State) :
  ((update now digitalRead callback reg).2
   <= pressedInputs digitalRead reg)%nat
  /\ (update now digitalRead false reg).2 = 0%nat.
Proof.
  rewrite !update_count. unfold pressedInputs. split.
  - induction reg as [|b reg IH]; simpl; [lia|].
    pose proof (pollSlot_fired now digitalRead callback b) as Hf.
    destruct (pollSlot now digitalRead callback b).2; simpl; [|lia].
    destruct (Hf eq_refl) as [_ ->]. simpl. lia.
  - apply sum_list_with_zero, Forall_forall. intros b _.
    pose proof (pollSlot_fired now digitalRead false b) as Hf.
    destruct (pollSlot now digitalRead false b).2; [|done].
    by destruct (Hf eq_refl).
Qed.

(** X14. While the clock reads less than the long-press time, the
    callback runs for no slot whose long-press time stamp is 0, however
    long the slot has been held: the stamp 0, which [reset] and every
    [RELEASED] reading write, is taken as a time. *)
Theorem no_callback_before_clock_reaches_longpress (now : Z)
    (digitalRead : Z -> Level) (callback : bool) (reg : list State) :
  0 <= now < BUTTON_LONGPRESS_TIME -> now < ULONG_MODULUS ->
  (forall b, b ∈ reg -> lastLongPressCallback b = 0) ->
  (update now digitalRead callback reg).2 = 0%nat.
Proof.
  intros Hnow HM Hz. rewrite update_count.
  apply sum_list_with_zero, Forall_forall. intros b Hb.
  unfold pollSlot. destruct (pin b =? 255); [done|]. simpl.
  specialize (Hz b Hb).
  assert ((usub now 0 >=? BUTTON_LONGPRESS_TIME) = false) as Hge.
  { unfold usub, wrap. rewrite Z.sub_0_r, Z.mod_small by lia.
    rewrite Z.geb_leb. apply Z.leb_gt. lia. }
  destruct b as [? st ? ? ? lr ? ? ? ?]; simpl in *; subst.
  unfold pollButton.
  destruct (digitalRead pin0), lr, st; simpl;
    repeat match goal with
    | |- context [if (?x >? ?y) then _ else _] => destruct (x >? y); simpl
    | |- context [if (?x <? ?y) then _ else _] => destruct (x <? y); simpl
    end;
    rewrite ?Hge, ?andb_false_r; done.
Qed.

(** X15. A single [RELEASED] reading during a hold re-arms the callback
    without debounce: the slot stays [PRESSED], its long-press time stamp
    is cleared, and the next [PRESSED] poll runs the callback again if the
    press is at least a long-press time old and the clock reads at least
    that much, however recently the callback ran before. *)
Theorem bounce_rearms_callback (now1 now2 : Z) (up down : Z -> Level)
    (reg : list State) (i : nat) (b : State) :
  0 <= BUTTON_DEBOUNCE_TIME ->
  reg !! i = Some b -> unmirrored i reg ->
  othersReleased i reg up -> othersReleased i reg down ->
  pin b <> 255 -> up (pin b) = RELEASED -> down (pin b) = PRESSED ->
  state b = PRESSED -> lastReading b = PRESSED ->
  BUTTON_LONGPRESS_TIME <= usub now2 (last_time b) ->
  BUTTON_LONGPRESS_TIME <= usub now2 0 ->
  (pollSeq true [(now1, up); (now2, down)] reg).2 = [0%nat; 1%nat]
  /\ exists b', (pollSeq true [(now1, up); (now2, down)] reg).1 !! i = Some b'
       /\ state b' = PRESSED /\ last_time b' = last_time b
       /\ lastLongPressCallback b' = now2.
Proof.
  intros HD Hi Hu Hou Hod Hp Hup Hdown Hs Hlr Hold Hclock.
  assert ((usub now2 (last_time b) >=? BUTTON_LONGPRESS_TIME) = true) as H1
    by (apply Z.geb_le; lia).
  assert ((usub now2 0 >=? BUTTON_LONGPRESS_TIME) = true) as H2
    by (apply Z.geb_le; lia).
  assert ((0 >? BUTTON_DEBOUNCE_TIME) = false) as H3
    by (rewrite Z.gtb_ltb; apply Z.ltb_ge; lia).
  assert (slotSeq true [(now1, up); (now2, down)] b
          = (set_lastLongPressCallback now2
               (set_lastReading PRESSED
                  (set_lastChangeTime now2
                     (set_lastLongPressCallback 0
                        (set_lastReading RELEASED
                           (set_lastChangeTime now1 b))))),
             [false; true])) as Hslot.
  { simpl. unfold pollSlot. destruct (Z.eqb_spec (pin b) 255); [done|].
    rewrite Hup. destruct b; simpl in *; subst.
    unfold pollButton. simpl. rewrite usub_self, H3. simpl.
    destruct (Z.eqb_spec pin0 255); [done|]. rewrite Hdown. simpl.
    rewrite usub_self, H3. simpl. rewrite H1, H2. reflexivity. }
  split.
  - rewrite (pollSeq_counts true _ reg i b); try done.
    + by rewrite Hslot.
    + by repeat apply Forall_cons_2; [..|apply Forall_nil_2].
  - rewrite (pollSeq_slot true _ reg i b), Hslot by done.
    eexists. split; [reflexivity|]. done.
Qed.

(** ** The second loop *)

Lemma propagate_nothing (i : nat) (reg : list State) :
  (forall b, b ∈ reg -> mappedState b <> None -> state b = RELEASED) ->
  propagate i reg = reg.
Proof.
  intros H. unfold propagate. destruct (reg !! i) as [b|] eqn:Hi; [|done].
  destruct (mappedState b) as [t|] eqn:Ht; [|done].
  rewrite (H b); [done| |by rewrite Ht].
  by eapply list_elem_of_lookup_2.
Qed.

Lemma propagateAll_nothing (reg : list State) :
  (forall b, b ∈ reg -> mappedState b <> None -> state b = RELEASED) ->
  propagateAll reg = reg.
Proof.
  intros H. unfold propagateAll. generalize (seq 0 (length reg)).
  intros slots. induction slots as [|i slots IH]; simpl; [done|].
  by rewrite propagate_nothing.
Qed.

(** X16. When the first loop leaves no slot with a mapping pointer
    [PRESSED], the second loop writes nothing: [update] is the first loop,
    slot by slot. *)
Theorem update_without_pressed_source (now : Z) (digitalRead : Z -> Level)
    (callback : bool) (reg : list State) :
  (forall b, b ∈ reg -> mappedState b <> None ->
     state (pollSlot now digitalRead callback b).1 = RELEASED) ->
  (update now digitalRead callback reg).1
  = (fun b => (pollSlot now digitalRead callback b).1) <$> reg.
Proof.
  intros H. unfold update.
  pose proof (pollAll_fst now digitalRead callback reg) as Hf.
  destruct (pollAll now digitalRead callback reg) as [reg1 n]. simpl in *.
  subst reg1. apply propagateAll_nothing.
  intros b1 Hb1 Hm. apply list_elem_of_fmap in Hb1 as (b & -> & Hb).
  apply H; [done|].
  pose proof (pollSlot_links now digitalRead callback b) as Hl.
  unfold links in Hl. congruence.
Qed.

(** X17. A poll of a registry with nothing to do writes nothing and runs
    no callback: with every used slot released, its raw level up and its
    long-press time stamp 0, and no unused slot a pressed mirror source,
    [update] returns the registry as it was. *)
Theorem idle_update (now : Z) (digitalRead : Z -> Level) (callback : bool)
    (reg : list State) :
  (forall b, b ∈ reg -> idleSlot digitalRead b) ->
  update now digitalRead callback reg = (reg, 0%nat).
Proof.
  intros H.
  assert (forall b, b ∈ reg ->
            pollSlot now digitalRead callback b = (b, false)) as Hp.
  { intros b Hb. destruct (H b Hb) as [[Hu _]|(Hn & Hr & Hs & Hl & Hc)].
    - unfold pollSlot. by rewrite Hu.
    - by apply idle_poll. }
  unfold update.
  pose proof (pollAll_fst now digitalRead callback reg) as Hf.
  pose proof (pollAll_snd now digitalRead callback reg) as Hn.
  destruct (pollAll now digitalRead callback reg) as [reg1 n]. simpl in *.
  assert (reg1 = reg) as ->.
  { rewrite Hf. rewrite <- (list_fmap_id reg) at 2.
    apply list_fmap_ext. intros k b Hk.
    rewrite Hp; [done|]. by eapply list_elem_of_lookup_2. }
  f_equal.
  - apply propagateAll_nothing. intros b Hb Hm.
    destruct (H b Hb) as [[_ [Hnone|Hs]]|(_ & _ & Hs & _)]; done.
  - rewrite Hn. apply sum_list_with_zero, Forall_forall. intros b Hb.
    by rewrite Hp.
Qed.

Lemma onlySource_links (i t : nat) (reg reg' : list State) :
  links <$> reg' = links <$> reg -> onlySource i t reg -> onlySource i t reg'.
Proof.
  intros Heq H j s' Hj Hm.
  destruct (links_lookup _ _ _ _ Heq Hj) as (s & Hs & Hl).
  apply (H j s Hs). unfold links in Hl. congruence.
Qed.

Lemma propagate_other_target (j t : nat) (reg : list State) :
  (forall s, reg !! j = Some s -> mappedState s <> Some t) ->
  propagate j reg !! t = reg !! t.
Proof.
  intros H. unfold propagate. destruct (reg !! j) as [s|] eqn:Hj; [|done].
  destruct (mappedState s) as [t'|] eqn:Ht; [|done].
  destruct (level_eqb (state s) PRESSED); [|done].
  apply list_lookup_alter_ne. intros ->. by apply (H s).
Qed.

Lemma propagate_fold_target (i t : nat) (src : State) (slots : list nat) :
  i <> t -> mappedState src = Some t -> NoDup slots ->
  forall (reg : list State) (dst : State),
    unmirrored i reg -> onlySource i t reg ->
    reg !! i = Some src -> reg !! t = Some dst ->
    fold_left (fun r j => propagate j r) slots reg !! t
    = Some (if decide (i ∈ slots)
            then if level_eqb (state src) PRESSED then mirror src dst else dst
            else dst).
Proof.
  intros Hne Hm. induction slots as [|j slots IH]; intros Hnd reg dst Hu Ho Hi Ht.
  - simpl. destruct (decide (i ∈ [])) as [Hin|_]; [|done].
    by apply not_elem_of_nil in Hin.
  - apply NoDup_cons in Hnd as [Hj Hnd]. simpl.
    assert (unmirrored i (propagate j reg)) as Hu'
      by (eapply unmirrored_links; [apply propagate_links|done]).
    assert (onlySource i t (propagate j reg)) as Ho'
      by (eapply onlySource_links; [apply propagate_links|done]).
    assert (propagate j reg !! i = Some src) as Hi'
      by (by rewrite propagate_unmirrored).
    destruct (decide (j = i)) as [->|Hji].
    + assert (propagate i reg !! t
              = Some (if level_eqb (state src) PRESSED
                      then mirror src dst else dst)) as Ht'.
      { unfold propagate. rewrite Hi, Hm.
        destruct (level_eqb (state src) PRESSED); [|done].
        by rewrite list_lookup_alter_eq, Ht. }
      rewrite (IH Hnd _ _ Hu' Ho' Hi' Ht').
      destruct (decide (i ∈ slots)) as [Hin|_]; [done|].
      destruct (decide (i ∈ i :: slots)) as [_|Hout]; [done|].
      exfalso. apply Hout. left.
    + assert (propagate j reg !! t = Some dst) as Ht'.
      { rewrite propagate_other_target; [done|].
        intros s Hs Hms. apply Hji. by apply (Ho j s). }
      rewrite (IH Hnd _ _ Hu' Ho' Hi' Ht').
      destruct (decide (i ∈ slots)) as [Hin|Hin];
        destruct (decide (i ∈ j :: slots)) as [Hin'|Hin']; try done.
      * exfalso. apply Hin'. by right.
      * apply elem_of_cons in Hin' as [->|?]; done.
Qed.

(** X18. Mirroring through one poll.  Slot [i] maps onto another slot
    [t], nothing maps onto [i], and nothing else maps onto [t].  If the
    first loop leaves [i] [PRESSED], slot [t] leaves the poll with
    [state], [duration], [doublePress] and [last_time] of slot [i] and the
    rest as the first loop left it, whatever its own input did; otherwise
    slot [t] is as the first loop left it. *)
Theorem mirror_through_update (now : Z) (digitalRead : Z -> Level)
    (callback : bool) (reg : list State) (i t : nat) (src dst : State) :
  reg !! i = Some src -> reg !! t = Some dst -> i <> t ->
  mappedState src = Some t -> unmirrored i reg -> onlySource i t reg ->
  let src1 := (pollSlot now digitalRead callback src).1 in
  let dst1 := (pollSlot now digitalRead callback dst).1 in
  (update now digitalRead callback reg).1 !! i = Some src1
  /\ (update now digitalRead callback reg).1 !! t
     = Some (if level_eqb (state src1) PRESSED then mirror src1 dst1 else dst1).
Proof.
  intros Hi Ht Hne Hm Hu Ho src1 dst1. split.
  { by rewrite update_lookup, Hi. }
  unfold update.
  pose proof (pollAll_links now digitalRead callback reg) as Hl.
  pose proof (pollAll_fst now digitalRead callback reg) as Hf.
  destruct (pollAll now digitalRead callback reg) as [reg1 n]. simpl in *.
  assert (reg1 !! i = Some src1) as Hi1
    by (by rewrite Hf, list_lookup_fmap, Hi).
  assert (reg1 !! t = Some dst1) as Ht1
    by (by rewrite Hf, list_lookup_fmap, Ht).
  assert (mappedState src1 = Some t) as Hm1.
  { pose proof (pollSlot_links now digitalRead callback src) as E.
    unfold links in E. subst src1. congruence. }
  unfold propagateAll.
  rewrite (propagate_fold_target i t src1 _ Hne Hm1 (NoDup_seq _ _) reg1 dst1);
    try done.
  - destruct (decide (i ∈ seq 0 (length reg1))) as [_|Hout]; [done|].
    exfalso. apply Hout, elem_of_seq. apply lookup_lt_Some in Hi1. lia.
  - by eapply unmirrored_links.
  - by eapply onlySource_links.
Qed.


(** ** The callback never feeds back *)

Lemma forgetStamp_eq (b b' : State) :
  forgetStamp b = forgetStamp b' ->
  pin b = pin b' /\ state b = state b' /\ doublePress b = doublePress b'
  /\ duration b = duration b' /\ last_time b = last_time b'
  /\ lastReading b = lastReading b' /\ lastChangeTime b = lastChangeTime b'
  /\ mappedPin b = mappedPin b' /\ mappedState b = mappedState b'.
Proof. unfold forgetStamp, set_lastLongPressCallback. intros [=]. done. Qed.

Lemma pollButton_forget (now : Z) (reading : Level) (callback callback' : bool)
    (b b' : State) :
  forgetStamp b = forgetStamp b' ->
  forgetStamp (pollButton now reading callback b).1
  = forgetStamp (pollButton now reading callback' b').1.
Proof.
  intros H. apply forgetStamp_eq in H.
  destruct b, b' as [? st ? ? ? lr ? ? ? ?]; simpl in H.
  destruct H as (-> & -> & -> & -> & -> & -> & -> & -> & ->).
  unfold pollButton.
  destruct reading, lr, st; simpl;
    repeat match goal with
    | |- context [if (?x >? ?y) then _ else _] => destruct (x >? y); simpl
    | |- context [if (?x <? ?y) then _ else _] => destruct (x <? y); simpl
    end;
    poll_cases; reflexivity.
Qed.

Lemma pollSlot_forget (now : Z) (digitalRead : Z -> Level)
    (callback callback' : bool) (b b' : State) :
  forgetStamp b = forgetStamp b' ->
  forgetStamp (pollSlot now digitalRead callback b).1
  = forgetStamp (pollSlot now digitalRead callback' b').1.
Proof.
  intros H. pose proof (forgetStamp_eq _ _ H) as (Hp & _).
  unfold pollSlot. rewrite Hp. destruct (pin b' =? 255); [done|].
  by apply pollButton_forget.
Qed.

Lemma pollAll_forget (now : Z) (digitalRead : Z -> Level)
    (callback callback' : bool) (reg reg' : list State) :
  forgetStamp <$> reg = forgetStamp <$> reg' ->
  forgetStamp <$> (pollAll now digitalRead callback reg).1
  = forgetStamp <$> (pollAll now digitalRead callback' reg').1.
Proof.
  rewrite !pollAll_fst. revert reg'.
  induction reg as [|b reg IH]; intros [|b' reg'] H; try done.
  assert (forgetStamp b = forgetStamp b') as Hb
    by (apply (f_equal head) in H; simpl in H; congruence).
  assert (forgetStamp <$> reg = forgetStamp <$> reg') as Hrest
    by (apply (f_equal tail) in H; exact H).
  rewrite !fmap_cons. f_equal; [by apply pollSlot_forget|by apply IH].
Qed.

Lemma propagate_forget (i : nat) (reg : list State) :
  forgetStamp <$> propagate i reg = propagate i (forgetStamp <$> reg).
Proof.
  unfold propagate. rewrite list_lookup_fmap.
  destruct (reg !! i) as [b|]; simpl; [|done].
  destruct (mappedState b) as [t|]; [|done].
  destruct (level_eqb (state b) PRESSED); [|done].
  apply list_fmap_alter, Forall_forall. intros x _. reflexivity.
Qed.

Lemma propagate_fold_forget (slots : list nat) (reg : list State) :
  forgetStamp <$> fold_left (fun r i => propagate i r) slots reg
  = fold_left (fun r i => propagate i r) slots (forgetStamp <$> reg).
Proof.
  revert reg. induction slots as [|i slots IH]; intros reg; simpl; [done|].
  by rewrite IH, propagate_forget.
Qed.

Lemma update_forget (now : Z) (digitalRead : Z -> Level)
    (callback callback' : bool) (reg reg' : list State) :
  forgetStamp <$> reg = forgetStamp <$> reg' ->
  forgetStamp <$> (update now digitalRead callback reg).1
  = forgetStamp <$> (update now digitalRead callback' reg').1.
Proof.
  intros H. unfold update.
  pose proof (pollAll_forget now digitalRead callback callback' reg reg' H)
    as Hp.
  destruct (pollAll now digitalRead callback reg) as [reg1 n].
  destruct (pollAll now digitalRead callback' reg') as [reg1' n'].
  simpl in *. unfold propagateAll. rewrite !propagate_fold_forget, Hp.
  f_equal. apply (f_equal length) in Hp. rewrite !length_fmap in Hp.
  by rewrite Hp.
Qed.

Lemma pollSeq_forget (callback callback' : bool)
    (samples : list (Z * (Z -> Level))) (reg reg' : list State) :
  forgetStamp <$> reg = forgetStamp <$> reg' ->
  forgetStamp <$> (pollSeq callback samples reg).1
  = forgetStamp <$> (pollSeq callback' samples reg').1.
Proof.
  revert reg reg'. induction samples as [|[now rd] rest IH]; intros reg reg' H;
    simpl; [done|].
  pose proof (update_forget now rd callback callback' reg reg' H) as Hu.
  destruct (update now rd callback reg) as [reg1 n].
  destruct (update now rd callback' reg') as [reg1' n']. simpl in *.
  specialize (IH reg1 reg1' Hu).
  destruct (pollSeq callback rest reg1), (pollSeq callback' rest reg1'). done.
Qed.

Lemma reset_forget (now : Z) (reg reg' : list State) (p : Z) :
  forgetStamp <$> reg = forgetStamp <$> reg' ->
  forgetStamp <$> reset now reg p = forgetStamp <$> reset now reg' p.
Proof.
  intros H.
  assert (pin <$> reg = pin <$> reg') as Hpins.
  { apply (f_equal (fmap pin)) in H. by rewrite <- !list_fmap_compose in H. }
  destruct (getState reg' p) as [k|] eqn:Hk.
  - apply list_eq. intros j. rewrite !list_lookup_fmap.
    rewrite (reset_lookup now reg p k j) by (by rewrite (getState_pins _ _ p Hpins)).
    rewrite (reset_lookup now reg' p k j) by done.
    assert (forgetStamp <$> reg !! j = forgetStamp <$> reg' !! j) as Hj
      by (by rewrite <- !list_lookup_fmap, H).
    destruct (reg !! j) as [b|], (reg' !! j) as [b'|]; simpl in *; try done.
    assert (forgetStamp b = forgetStamp b') as Hb by congruence.
    f_equal. pose proof (forgetStamp_eq _ _ Hb) as
      (Hp & _ & _ & _ & _ & _ & _ & Hm & Hs).
    rewrite Hm. destruct (Nat.eqb j k || (mappedPin b' =? p)); [|done].
    unfold cleared, forgetStamp, set_lastLongPressCallback. simpl.
    by rewrite Hp, Hm, Hs.
  - unfold reset. by rewrite (getState_pins _ _ p Hpins), Hk.
Qed.

(** X19. The long-press time stamp is read by the callback test of
    [update] and by nothing else.  Take two registries that differ in
    nothing but [lastLongPressCallback].  [reset] and the six predicates,
    which run no callback, answer alike on them and leave them alike but
    for that field; and with no callback registered, when the test is
    cut short before it reads the stamp, so does every run of polls. *)
Theorem stamp_read_by_callback_test_only (samples : list (Z * (Z -> Level)))
    (reg reg' : list State) :
  forgetStamp <$> reg = forgetStamp <$> reg' ->
  (forall now p,
     forgetStamp <$> reset now reg p = forgetStamp <$> reset now reg' p)
  /\ (forall q now p rst,
        (query q now reg p rst).1 = (query q now reg' p rst).1
        /\ forgetStamp <$> (query q now reg p rst).2
           = forgetStamp <$> (query q now reg' p rst).2)
  /\ forgetStamp <$> (pollSeq false samples reg).1
     = forgetStamp <$> (pollSeq false samples reg').1.
Proof.
  intros H. split; [|split].
  - intros now p. by apply reset_forget.
  - intros q now p rst.
    assert (pin <$> reg = pin <$> reg') as Hpins.
    { apply (f_equal (fmap pin)) in H. by rewrite <- !list_fmap_compose in H. }
    rewrite !query_checkPress, (getState_pins reg reg' p Hpins).
    destruct (getState reg' p) as [k|]; [|done].
    assert (forgetStamp <$> reg !! k = forgetStamp <$> reg' !! k) as Hk
      by (by rewrite <- !list_lookup_fmap, H).
    unfold checkPress. simpl.
    destruct (reg !! k) as [b|], (reg' !! k) as [b'|]; simpl in *; try done.
    assert (forgetStamp b = forgetStamp b') as Hb by congruence.
    apply forgetStamp_eq in Hb. destruct Hb as (-> & -> & -> & -> & -> & _).
    match goal with |- context [if ?c then _ else _] => destruct c end;
      simpl; [|done].
    split; [done|]. destruct rst; [by apply reset_forget|done].
  - by apply pollSeq_forget.
Qed.


(** ** A whole click *)

Lemma slotSeq_fixed (callback : bool) (digitalRead : Z -> Level) (n : nat)
    (T0 : Z) (b : State) :
  (forall k, 1 <= k <= Z.of_nat n ->
     pollSlot (wrap (T0 + k)) digitalRead callback b = (b, false)) ->
  slotSeq callback (everyMs T0 digitalRead n) b = (b, replicate n false).
Proof.
  revert T0. induction n as [|n IH]; intros T0 Hq; [done|].
  rewrite everyMs_S. simpl. rewrite (Hq 1) by lia. rewrite IH; [done|].
  intros k Hk. replace (T0 + 1 + k) with (T0 + (k + 1)) by lia.
  apply Hq. lia.
Qed.

Lemma quiet_edge_down (now : Z) (digitalRead : Z -> Level) (b : State) :
  0 <= BUTTON_DEBOUNCE_TIME ->
  pin b <> 255 -> digitalRead (pin b) = PRESSED ->
  lastReading b = RELEASED ->
  pollSlot now digitalRead false b
  = (set_lastReading PRESSED (set_lastChangeTime now b), false).
Proof.
  intros HD Hp Hrd Hlr. unfold pollSlot.
  destruct (Z.eqb_spec (pin b) 255); [done|].
  rewrite Hrd. destruct b; simpl in *; subst.
  unfold pollButton. simpl. rewrite usub_self.
  destruct (Z.gtb_spec 0 BUTTON_DEBOUNCE_TIME); [lia|].
  simpl. by rewrite andb_false_r.
Qed.

Lemma quiet_wait_down (now : Z) (digitalRead : Z -> Level) (b : State) :
  pin b <> 255 -> digitalRead (pin b) = PRESSED ->
  lastReading b = PRESSED ->
  usub now (lastChangeTime b) <= BUTTON_DEBOUNCE_TIME ->
  pollSlot now digitalRead false b = (b, false).
Proof.
  intros Hp Hrd Hlr Hle. unfold pollSlot.
  destruct (Z.eqb_spec (pin b) 255); [done|].
  rewrite Hrd. destruct b; simpl in *; subst.
  unfold pollButton. simpl.
  destruct (Z.gtb_spec (usub now lastChangeTime0) BUTTON_DEBOUNCE_TIME); [lia|].
  simpl. by rewrite andb_false_r.
Qed.

Lemma quiet_held (now : Z) (digitalRead : Z -> Level) (b : State) :
  pin b <> 255 -> digitalRead (pin b) = PRESSED ->
  lastReading b = PRESSED -> state b = PRESSED ->
  pollSlot now digitalRead false b = (b, false).
Proof.
  intros Hp Hrd Hlr Hs. unfold pollSlot.
  destruct (Z.eqb_spec (pin b) 255); [done|].
  rewrite Hrd. destruct b; simpl in *; subst.
  unfold pollButton. simpl.
  by destruct (usub now lastChangeTime0 >? BUTTON_DEBOUNCE_TIME).
Qed.

Lemma quiet_register_down (now : Z) (digitalRead : Z -> Level) (b : State) :
  pin b <> 255 -> digitalRead (pin b) = PRESSED ->
  state b = RELEASED -> lastReading b = PRESSED ->
  BUTTON_DEBOUNCE_TIME < usub now (lastChangeTime b) ->
  pollSlot now digitalRead false b = (registered now b, false).
Proof.
  intros Hp Hrd Hs Hlr Hlt. unfold pollSlot.
  destruct (Z.eqb_spec (pin b) 255); [done|].
  rewrite Hrd. destruct b; simpl in *; subst.
  unfold pollButton, registered. simpl.
  destruct (Z.gtb_spec (usub now lastChangeTime0) BUTTON_DEBOUNCE_TIME); [|lia].
  simpl.
  destruct (usub now last_time0 <? BUTTON_DOUBLECLICK_TIME); reflexivity.
Qed.

Lemma quiet_edge_up (now : Z) (digitalRead : Z -> Level) (b : State) :
  0 <= BUTTON_DEBOUNCE_TIME ->
  pin b <> 255 -> digitalRead (pin b) = RELEASED ->
  lastReading b = PRESSED ->
  pollSlot now digitalRead false b
  = (set_lastLongPressCallback 0
       (set_lastReading RELEASED (set_lastChangeTime now b)), false).
Proof.
  intros HD Hp Hrd Hlr. unfold pollSlot.
  destruct (Z.eqb_spec (pin b) 255); [done|].
  rewrite Hrd. destruct b; simpl in *; subst.
  unfold pollButton. simpl. rewrite usub_self.
  destruct (Z.gtb_spec 0 BUTTON_DEBOUNCE_TIME); [lia|]. reflexivity.
Qed.

Lemma quiet_wait_up (now : Z) (digitalRead : Z -> Level) (b : State) :
  pin b <> 255 -> digitalRead (pin b) = RELEASED ->
  lastReading b = RELEASED -> lastLongPressCallback b = 0 ->
  usub now (lastChangeTime b) <= BUTTON_DEBOUNCE_TIME ->
  pollSlot now digitalRead false b = (b, false).
Proof.
  intros Hp Hrd Hlr Hlc Hle. unfold pollSlot.
  destruct (Z.eqb_spec (pin b) 255); [done|].
  rewrite Hrd. destruct b; simpl in *; subst.
  unfold pollButton. simpl.
  destruct (Z.gtb_spec (usub now lastChangeTime0) BUTTON_DEBOUNCE_TIME); [lia|].
  reflexivity.
Qed.

Lemma quiet_register_up (now : Z) (digitalRead : Z -> Level) (b : State) :
  pin b <> 255 -> digitalRead (pin b) = RELEASED ->
  state b = PRESSED -> lastReading b = RELEASED ->
  BUTTON_DEBOUNCE_TIME < usub now (lastChangeTime b) ->
  pollSlot now digitalRead false b
  = (set_lastLongPressCallback 0
       (set_lastReading RELEASED
          (set_state RELEASED
             (set_duration (usub now (last_time b)) b))), false).
Proof.
  intros Hp Hrd Hs Hlr Hlt. unfold pollSlot.
  destruct (Z.eqb_spec (pin b) 255); [done|].
  rewrite Hrd. destruct b; simpl in *; subst.
  unfold pollButton. simpl.
  destruct (Z.gtb_spec (usub now lastChangeTime0) BUTTON_DEBOUNCE_TIME); [|lia].
  reflexivity.
Qed.

Lemma slotSeq_fst_app (callback : bool) (s1 s2 : list (Z * (Z -> Level)))
    (b : State) :
  (slotSeq callback (s1 ++ s2) b).1
  = (slotSeq callback s2 (slotSeq callback s1 b).1).1.
Proof. by rewrite slotSeq_app. Qed.

Lemma slotSeq_fst_cons (callback : bool) (now : Z) (digitalRead : Z -> Level)
    (rest : list (Z * (Z -> Level))) (b : State) :
  (slotSeq callback ((now, digitalRead) :: rest) b).1
  = (slotSeq callback rest (pollSlot now digitalRead callback b).1).1.
Proof.
  simpl. destruct (pollSlot now digitalRead callback b) as [b1 f]. simpl.
  by destruct (slotSeq callback rest b1).
Qed.

(** An edge, the debounce time, and the poll after it. *)
Lemma everyMs_edge_wait (T : Z) (digitalRead : Z -> Level) (n : nat) :
  everyMs (T - 1) digitalRead (S (n + 1))
  = (wrap T, digitalRead)
    :: everyMs T digitalRead n ++ [(wrap (T + Z.of_nat n + 1), digitalRead)].
Proof.
  rewrite everyMs_S. replace (T - 1 + 1) with T by lia.
  rewrite everyMs_app. rewrite (everyMs_S (T + Z.of_nat n)). reflexivity.
Qed.

(** The click with no callback registered, phase by phase. *)
Lemma click_quiet (t0 : Z) (down up : Z -> Level) (h : nat) (b : State) :
  0 <= BUTTON_DEBOUNCE_TIME ->
  (Z.to_nat BUTTON_DEBOUNCE_TIME + 2 <= h)%nat ->
  Z.of_nat h + BUTTON_DEBOUNCE_TIME + 1 < ULONG_MODULUS ->
  pin b <> 255 -> down (pin b) = PRESSED -> up (pin b) = RELEASED ->
  state b = RELEASED -> lastReading b = RELEASED ->
  (slotSeq false (clickSamples t0 down up h) b).1 = clicked t0 h b.
Proof.
  intros HD Hh HM Hp Hdown Hup Hs Hlr. unfold clickSamples.
  set (Dn := Z.to_nat BUTTON_DEBOUNCE_TIME) in *.
  replace h with (S (Dn + 1) + (h - (Dn + 2)))%nat at 1 by lia.
  rewrite everyMs_app, !everyMs_edge_wait.
  rewrite !slotSeq_fst_app, !slotSeq_fst_cons, !slotSeq_fst_app,
    !slotSeq_fst_cons.
  cbn [slotSeq fst].
  replace (t0 + Z.of_nat Dn + 1) with (t0 + BUTTON_DEBOUNCE_TIME + 1) by lia.
  replace (t0 + Z.of_nat h + Z.of_nat Dn + 1)
    with (t0 + Z.of_nat h + (BUTTON_DEBOUNCE_TIME + 1)) by lia.
  (* the press *)
  rewrite (quiet_edge_down (wrap t0) down b) by done. cbn [fst].
  set (b1 := set_lastReading PRESSED (set_lastChangeTime (wrap t0) b)).
  assert (forall k, 0 <= k < ULONG_MODULUS ->
            usub (wrap (t0 + k)) (lastChangeTime b1) = k) as Hel.
  { intros k Hk. simpl. rewrite usub_elapsed; lia. }
  rewrite (slotSeq_fixed false down Dn t0 b1).
  2:{ intros k Hk. apply quiet_wait_down; try done. rewrite Hel; lia. }
  cbn [fst].
  rewrite (quiet_register_down (wrap (t0 + BUTTON_DEBOUNCE_TIME + 1)) down b1);
    try done.
  2:{ rewrite <- Z.add_assoc, Hel; lia. }
  cbn [fst].
  set (b2 := registered (wrap (t0 + BUTTON_DEBOUNCE_TIME + 1)) b1).
  (* the hold *)
  rewrite (slotSeq_fixed false down _ _ b2).
  2:{ intros k Hk. by apply quiet_held. }
  cbn [fst].
  (* the release *)
  rewrite (quiet_edge_up (wrap (t0 + Z.of_nat h)) up b2) by done. cbn [fst].
  set (b3 := set_lastLongPressCallback 0
               (set_lastReading RELEASED
                  (set_lastChangeTime (wrap (t0 + Z.of_nat h)) b2))).
  assert (forall k, 0 <= k < ULONG_MODULUS ->
            usub (wrap (t0 + Z.of_nat h + k)) (lastChangeTime b3) = k) as Hel3.
  { intros k Hk. simpl. rewrite usub_elapsed; lia. }
  rewrite (slotSeq_fixed false up Dn (t0 + Z.of_nat h) b3).
  2:{ intros k Hk. apply quiet_wait_up; try done. rewrite Hel3; lia. }
  cbn [fst].
  rewrite (quiet_register_up
             (wrap (t0 + Z.of_nat h + (BUTTON_DEBOUNCE_TIME + 1))) up b3);
    try done.
  2:{ rewrite Hel3; lia. }
  cbn [fst]. unfold clicked. subst b3 b2 b1.
  destruct b; simpl in *.
  cbv [registered set_lastLongPressCallback set_lastReading set_state
       set_duration set_last_time set_doublePress set_lastChangeTime
       pin state doublePress duration last_time lastReading lastChangeTime
       lastLongPressCallback mappedPin mappedState].
  f_equal.
  replace (t0 + Z.of_nat h + (BUTTON_DEBOUNCE_TIME + 1))
    with (t0 + BUTTON_DEBOUNCE_TIME + 1 + Z.of_nat h) by lia.
  rewrite usub_elapsed; lia.
Qed.

Lemma slotSeq_forget (callback callback' : bool)
    (samples : list (Z * (Z -> Level))) (b b' : State) :
  forgetStamp b = forgetStamp b' ->
  forgetStamp (slotSeq callback samples b).1
  = forgetStamp (slotSeq callback' samples b').1.
Proof.
  revert b b'. induction samples as [|[now rd] rest IH]; intros b b' H; simpl;
    [done|].
  pose proof (pollSlot_forget now rd callback callback' b b' H) as Hp.
  destruct (pollSlot now rd callback b) as [b1 f].
  destruct (pollSlot now rd callback' b') as [b1' f']. simpl in *.
  specialize (IH b1 b1' Hp).
  destruct (slotSeq callback rest b1), (slotSeq callback' rest b1'). done.
Qed.

Lemma slotSeq_ends_released (callback : bool)
    (samples : list (Z * (Z -> Level))) (now : Z) (up : Z -> Level)
    (b : State) :
  pin b <> 255 -> up (pin b) = RELEASED ->
  lastLongPressCallback (slotSeq callback (samples ++ [(now, up)]) b).1 = 0.
Proof.
  intros Hp Hup. rewrite slotSeq_app. cbn [fst].
  assert (pin (slotSeq callback samples b).1 = pin b) as Hpin.
  { clear Hup. revert b Hp.
    induction samples as [|[t rd] rest IH]; intros b Hp; simpl; [done|].
    pose proof (pollSlot_links t rd callback b) as Hl.
    destruct (pollSlot t rd callback b) as [b1 f]. simpl in *.
    assert (pin b1 = pin b) as E by (unfold links in Hl; congruence).
    specialize (IH b1). rewrite E in IH. specialize (IH Hp).
    by destruct (slotSeq callback rest b1). }
  set (b1 := (slotSeq callback samples b).1) in *.
  simpl. unfold pollSlot. rewrite Hpin.
  destruct (Z.eqb_spec (pin b) 255); [done|]. rewrite Hup. reflexivity.
Qed.

Lemma click_slot (callback : bool) (t0 : Z) (down up : Z -> Level) (h : nat)
    (b : State) :
  0 <= BUTTON_DEBOUNCE_TIME ->
  (Z.to_nat BUTTON_DEBOUNCE_TIME + 2 <= h)%nat ->
  Z.of_nat h + BUTTON_DEBOUNCE_TIME + 1 < ULONG_MODULUS ->
  pin b <> 255 -> down (pin b) = PRESSED -> up (pin b) = RELEASED ->
  state b = RELEASED -> lastReading b = RELEASED ->
  (slotSeq callback (clickSamples t0 down up h) b).1 = clicked t0 h b.
Proof.
  intros HD Hh HM Hp Hdown Hup Hs Hlr.
  pose proof (slotSeq_forget callback false (clickSamples t0 down up h) b b
                eq_refl) as Hf.
  rewrite click_quiet in Hf by done.
  assert (lastLongPressCallback
            (slotSeq callback (clickSamples t0 down up h) b).1 = 0) as Hz.
  { unfold clickSamples.
    replace (S (Z.to_nat BUTTON_DEBOUNCE_TIME + 1))
      with (S (Z.to_nat BUTTON_DEBOUNCE_TIME) + 1)%nat by lia.
    rewrite everyMs_app, app_assoc. cbn [everyMs seq fmap list_fmap].
    by apply slotSeq_ends_released. }
  destruct (slotSeq callback (clickSamples t0 down up h) b).1; simpl in *.
  subst. exact Hf.
Qed.

(** X20. A click, polled every millisecond.  On a released slot that
    nothing mirrors onto, a raw press of [h] ms, longer than the debounce
    time by 2 ms or more, followed by the debounce time and one
    millisecond of release, is latched with [duration] exactly [h] and
    [last_time] the debounce time and one millisecond after the raw edge:
    both edges are registered equally late.  The slot ends [RELEASED]
    with its long-press time stamp 0, whether or not a callback ran in
    between. *)
Theorem click_latches_hold_time (callback : bool) (t0 : Z)
    (down up : Z -> Level) (h : nat) (reg : list State) (i : nat)
    (b : State) :
  0 <= BUTTON_DEBOUNCE_TIME ->
  (Z.to_nat BUTTON_DEBOUNCE_TIME + 2 <= h)%nat ->
  Z.of_nat h + BUTTON_DEBOUNCE_TIME + 1 < ULONG_MODULUS ->
  reg !! i = Some b -> unmirrored i reg ->
  pin b <> 255 -> down (pin b) = PRESSED -> up (pin b) = RELEASED ->
  state b = RELEASED -> lastReading b = RELEASED ->
  exists b',
    (pollSeq callback (clickSamples t0 down up h) reg).1 !! i = Some b'
    /\ state b' = RELEASED /\ duration b' = Z.of_nat h
    /\ last_time b' = wrap (t0 + BUTTON_DEBOUNCE_TIME + 1)
    /\ (doublePress b' = true
        <-> usub (wrap (t0 + BUTTON_DEBOUNCE_TIME + 1)) (last_time b)
            < BUTTON_DOUBLECLICK_TIME)
    /\ lastReading b' = RELEASED
    /\ lastChangeTime b' = wrap (t0 + Z.of_nat h)
    /\ lastLongPressCallback b' = 0.
Proof.
  intros HD Hh HM Hi Hu Hp Hdown Hup Hs Hlr.
  exists (clicked t0 h b). split.
  - rewrite (pollSeq_slot callback _ reg i b) by done.
    by rewrite click_slot.
  - simpl. repeat split; try done; by apply Z.ltb_lt.
Qed.

(** X21. How the click is reported.  With a long-press time above 0 and
    the slot found by its pin, after the click [isPressed] returns true
    exactly once more than [BUTTON_DOUBLECLICK_TIME] ms have passed since
    the press was registered; [isShortPressed] then exactly when the hold
    was at most the long-press time, [isLongPressed] exactly when it was
    longer. *)
Theorem click_reported_by_hold_time (callback : bool) (t0 now : Z)
    (down up : Z -> Level) (h : nat) (reg : list State) (i : nat)
    (b : State) (rst : bool) :
  0 <= BUTTON_DEBOUNCE_TIME ->
  (Z.to_nat BUTTON_DEBOUNCE_TIME + 2 <= h)%nat ->
  Z.of_nat h + BUTTON_DEBOUNCE_TIME + 1 < ULONG_MODULUS ->
  0 < BUTTON_LONGPRESS_TIME ->
  reg !! i = Some b -> unmirrored i reg -> getState reg (pin b) = Some i ->
  down (pin b) = PRESSED -> up (pin b) = RELEASED ->
  state b = RELEASED -> lastReading b = RELEASED ->
  let reg' := (pollSeq callback (clickSamples t0 down up h) reg).1 in
  let settled :=
    BUTTON_DOUBLECLICK_TIME
    < usub now (wrap (t0 + BUTTON_DEBOUNCE_TIME + 1)) in
  ((isPressed now reg' (pin b) rst).1 = true <-> settled)
  /\ ((isShortPressed now reg' (pin b) rst).1 = true
      <-> settled /\ Z.of_nat h <= BUTTON_LONGPRESS_TIME)
  /\ ((isLongPressed now reg' (pin b) rst).1 = true
      <-> settled /\ BUTTON_LONGPRESS_TIME < Z.of_nat h).
Proof.
  intros HD Hh HM HL Hi Hu Hg Hdown Hup Hs Hlr reg' settled.
  destruct (getState_Some _ _ _ Hg) as (Hp & _).
  assert (reg' !! i = Some (clicked t0 h b)) as Hi'.
  { subst reg'. rewrite (pollSeq_slot callback _ reg i b) by done.
    by rewrite click_slot. }
  assert (getState reg' (pin b) = Some i) as Hg'.
  { rewrite <- Hg. apply getState_pins, links_pins. subst reg'.
    clear. generalize (clickSamples t0 down up h). intros samples.
    revert reg. induction samples as [|[t rd] rest IH]; intros reg; simpl;
      [done|].
    pose proof (update_links t rd callback reg) as Hl.
    destruct (update t rd callback reg) as [reg1 n]. simpl in *.
    specialize (IH reg1). destruct (pollSeq callback rest reg1). simpl in *.
    congruence. }
  unfold isPressed, isShortPressed, isLongPressed. rewrite Hg'.
  rewrite !(checkPress_true_iff _ _ i (clicked t0 h b)) by done.
  unfold gates, settled. simpl. repeat split; try tauto; try lia;
    intuition (try lia; try done).
Qed.


(** ** Runs that end released *)

Lemma forgetStamp_id (b : State) :
  lastLongPressCallback b = 0 -> forgetStamp b = b.
Proof. destruct b. simpl. by intros ->. Qed.

(** A run whose last poll reads [RELEASED] ends as it would with no
    callback registered. *)
Lemma via_quiet (callback : bool) (samples : list (Z * (Z -> Level)))
    (now : Z) (up : Z -> Level) (b : State) :
  pin b <> 255 -> up (pin b) = RELEASED ->
  (slotSeq callback (samples ++ [(now, up)]) b).1
  = (slotSeq false (samples ++ [(now, up)]) b).1.
Proof.
  intros Hp Hup.
  rewrite <- (forgetStamp_id (slotSeq callback _ b).1)
    by (by apply slotSeq_ends_released).
  rewrite <- (forgetStamp_id (slotSeq false _ b).1)
    by (by apply slotSeq_ends_released).
  by apply slotSeq_forget.
Qed.

Lemma everyMs_snoc (T : Z) (digitalRead : Z -> Level) (n : nat) :
  everyMs T digitalRead (S n)
  = everyMs T digitalRead n ++ [(wrap (T + Z.of_nat n + 1), digitalRead)].
Proof.
  replace (S n) with (n + 1)%nat by lia. rewrite everyMs_app.
  by rewrite (everyMs_S (T + Z.of_nat n)).
Qed.

Lemma pulse_quiet (t0 : Z) (down up : Z -> Level) (h m : nat) (b : State) :
  0 <= BUTTON_DEBOUNCE_TIME -> BUTTON_DEBOUNCE_TIME + 1 < ULONG_MODULUS ->
  (h <= Z.to_nat BUTTON_DEBOUNCE_TIME)%nat ->
  pin b <> 255 -> down (pin b) = PRESSED -> up (pin b) = RELEASED ->
  state b = RELEASED -> lastReading b = RELEASED ->
  (slotSeq false (pulseSamples t0 down up (S h) (S m)) b).1
  = set_lastLongPressCallback 0
      (set_lastReading RELEASED
         (set_lastChangeTime (wrap (t0 + Z.of_nat (S h))) b)).
Proof.
  intros HD HM Hh Hp Hdown Hup Hs Hlr. unfold pulseSamples.
  rewrite (everyMs_S (t0 - 1)), (everyMs_S (t0 + Z.of_nat (S h) - 1)).
  replace (t0 - 1 + 1) with t0 by lia.
  replace (t0 + Z.of_nat (S h) - 1 + 1) with (t0 + Z.of_nat (S h)) by lia.
  change ((wrap t0, down) :: everyMs t0 down h
          ++ (wrap (t0 + Z.of_nat (S h)), up)
             :: everyMs (t0 + Z.of_nat (S h)) up m)
    with (((wrap t0, down) :: everyMs t0 down h)
          ++ (wrap (t0 + Z.of_nat (S h)), up)
             :: everyMs (t0 + Z.of_nat (S h)) up m).
  rewrite slotSeq_fst_app, !slotSeq_fst_cons.
  rewrite (quiet_edge_down (wrap t0) down b) by done. cbn [fst].
  set (b1 := set_lastReading PRESSED (set_lastChangeTime (wrap t0) b)).
  rewrite (slotSeq_fixed false down h t0 b1).
  2:{ intros k Hk. apply quiet_wait_down; try done. simpl.
      rewrite usub_elapsed; lia. }
  cbn [fst].
  rewrite (quiet_edge_up (wrap (t0 + Z.of_nat (S h))) up b1) by done.
  cbn [fst].
  rewrite slotSeq_fixed; [by destruct b|].
  intros k Hk. by apply idle_poll.
Qed.

(** X22. A raw press no longer than the debounce time is never seen: on
    a released slot that nothing mirrors onto, a pulse of at most
    [BUTTON_DEBOUNCE_TIME] + 1 polls a millisecond apart leaves [state],
    [duration], [doublePress] and [last_time] as they were, however long
    the polling goes on afterwards, with or without a callback. *)
Theorem short_pulse_ignored (callback : bool) (t0 : Z)
    (down up : Z -> Level) (h m : nat) (reg : list State) (i : nat)
    (b : State) :
  0 <= BUTTON_DEBOUNCE_TIME -> BUTTON_DEBOUNCE_TIME + 1 < ULONG_MODULUS ->
  (h <= Z.to_nat BUTTON_DEBOUNCE_TIME)%nat ->
  reg !! i = Some b -> unmirrored i reg ->
  pin b <> 255 -> down (pin b) = PRESSED -> up (pin b) = RELEASED ->
  state b = RELEASED -> lastReading b = RELEASED ->
  exists b',
    (pollSeq callback (pulseSamples t0 down up (S h) (S m)) reg).1 !! i
    = Some b'
    /\ state b' = RELEASED /\ duration b' = duration b
    /\ doublePress b' = doublePress b /\ last_time b' = last_time b
    /\ lastLongPressCallback b' = 0.
Proof.
  intros HD HM Hh Hi Hu Hp Hdown Hup Hs Hlr.
  rewrite (pollSeq_slot callback _ reg i b) by done.
  eexists. split; [reflexivity|].
  assert ((slotSeq callback (pulseSamples t0 down up (S h) (S m)) b).1
          = (slotSeq false (pulseSamples t0 down up (S h) (S m)) b).1) as ->.
  { unfold pulseSamples. rewrite (everyMs_snoc _ up m), app_assoc.
    by apply via_quiet. }
  rewrite pulse_quiet by done. simpl. done.
Qed.

Lemma press_quiet (t0 : Z) (down : Z -> Level) (b : State) :
  0 <= BUTTON_DEBOUNCE_TIME -> BUTTON_DEBOUNCE_TIME + 1 < ULONG_MODULUS ->
  pin b <> 255 -> down (pin b) = PRESSED ->
  state b = RELEASED -> lastReading b = RELEASED ->
  (slotSeq false
     (everyMs (t0 - 1) down (S (Z.to_nat BUTTON_DEBOUNCE_TIME + 1))) b).1
  = registered (wrap (t0 + BUTTON_DEBOUNCE_TIME + 1))
      (set_lastReading PRESSED (set_lastChangeTime (wrap t0) b)).
Proof.
  intros HD HM Hp Hdown Hs Hlr.
  rewrite everyMs_edge_wait, slotSeq_fst_cons, slotSeq_fst_app,
    slotSeq_fst_cons.
  cbn [slotSeq fst].
  rewrite (quiet_edge_down (wrap t0) down b) by done. cbn [fst].
  set (b1 := set_lastReading PRESSED (set_lastChangeTime (wrap t0) b)).
  assert (forall k, 0 <= k < ULONG_MODULUS ->
            usub (wrap (t0 + k)) (lastChangeTime b1) = k) as Hel.
  { intros k Hk. simpl. rewrite usub_elapsed; lia. }
  rewrite (slotSeq_fixed false down _ t0 b1).
  2:{ intros k Hk. apply quiet_wait_down; try done. rewrite Hel; lia. }
  cbn [fst].
  replace (t0 + Z.of_nat (Z.to_nat BUTTON_DEBOUNCE_TIME) + 1)
    with (t0 + (BUTTON_DEBOUNCE_TIME + 1)) by lia.
  rewrite (quiet_register_down _ down b1); try done.
  - cbn [fst]. by rewrite Z.add_assoc.
  - rewrite Hel; lia.
Qed.

(** X23. [reset] does not lock out a button that is held down.  After
    [reset] of a pin whose raw level stays [PRESSED], polling every
    millisecond registers a press again, the debounce time and one
    millisecond after the first poll: the slot is [PRESSED] with
    [duration] 0 and [last_time] that clock value, and, [reset] having
    set [last_time] to 0, with [doublePress] set exactly when that clock
    value is below [BUTTON_DOUBLECLICK_TIME]. *)
Theorem reset_then_held_registers_again (callback : bool) (now0 t0 : Z)
    (down : Z -> Level) (reg : list State) (i : nat) (b : State) :
  0 <= BUTTON_DEBOUNCE_TIME -> BUTTON_DEBOUNCE_TIME + 1 < ULONG_MODULUS ->
  reg !! i = Some b -> getState reg (pin b) = Some i -> unmirrored i reg ->
  down (pin b) = PRESSED ->
  exists b',
    (pollSeq callback
       (everyMs (t0 - 1) down (S (Z.to_nat BUTTON_DEBOUNCE_TIME + 1)))
       (reset now0 reg (pin b))).1 !! i = Some b'
    /\ state b' = PRESSED /\ duration b' = 0
    /\ last_time b' = wrap (t0 + BUTTON_DEBOUNCE_TIME + 1)
    /\ (doublePress b' = true
        <-> wrap (t0 + BUTTON_DEBOUNCE_TIME + 1) < BUTTON_DOUBLECLICK_TIME).
Proof.
  intros HD HM Hi Hg Hu Hdown.
  destruct (getState_Some _ _ _ Hg) as (Hp & _).
  assert (reset now0 reg (pin b) !! i = Some (cleared now0 b)) as Hi'.
  { rewrite (reset_lookup now0 reg (pin b) i i Hg), Hi. simpl.
    by rewrite Nat.eqb_refl. }
  assert (unmirrored i (reset now0 reg (pin b))) as Hu'
    by (eapply unmirrored_links; [apply reset_links|done]).
  rewrite (pollSeq_slot callback _ _ i (cleared now0 b)) by done.
  eexists. split; [reflexivity|].
  pose proof (slotSeq_forget callback false
                (everyMs (t0 - 1) down (S (Z.to_nat BUTTON_DEBOUNCE_TIME + 1)))
                (cleared now0 b) (cleared now0 b) eq_refl) as Hf.
  rewrite press_quiet in Hf by done.
  apply forgetStamp_eq in Hf. destruct Hf as (_ & -> & -> & -> & -> & _).
  simpl. rewrite usub_zero. repeat split; try done; by apply Z.ltb_lt.
Qed.

(** ** Chains of mirrors *)

Lemma propagate_fold_keep (t : nat) (slots : list nat) (reg : list State) :
  (forall j s, j ∈ slots -> reg !! j = Some s -> mappedState s <> Some t) ->
  fold_left (fun r j => propagate j r) slots reg !! t = reg !! t.
Proof.
  revert reg. induction slots as [|j slots IH]; intros reg H; simpl; [done|].
  rewrite IH.
  - apply propagate_other_target. intros s Hs. apply (H j); [left|done].
  - intros j' s' Hin Hj'.
    destruct (links_lookup _ _ _ _ (propagate_links j reg) Hj')
      as (s & Hs & Hl).
    unfold links in Hl.
    assert (mappedState s = mappedState s') as <- by congruence.
    apply (H j'); [by right|done].
Qed.

Lemma propagate_fold_source (i t : nat) (src : State) (slots : list nat) :
  i <> t -> mappedState src = Some t -> NoDup slots ->
  forall (reg : list State) (dst : State),
    (forall j s, j ∈ slots -> reg !! j = Some s -> mappedState s <> Some i) ->
    (forall j s, j ∈ slots -> reg !! j = Some s -> mappedState s = Some t ->
       j = i) ->
    reg !! i = Some src -> reg !! t = Some dst ->
    fold_left (fun r j => propagate j r) slots reg !! t
    = Some (if decide (i ∈ slots) then mirrored src dst else dst).
Proof.
  intros Hne Hm. induction slots as [|j slots IH];
    intros Hnd reg dst Hw Ho Hi Ht.
  - simpl. destruct (decide (i ∈ [])) as [Hin|_]; [|done].
    by apply not_elem_of_nil in Hin.
  - apply NoDup_cons in Hnd as [Hj Hnd]. simpl.
    assert (forall j' s', j' ∈ slots -> propagate j reg !! j' = Some s' ->
              exists s, reg !! j' = Some s /\ mappedState s = mappedState s')
      as Hback.
    { intros j' s' _ Hj'.
      destruct (links_lookup _ _ _ _ (propagate_links j reg) Hj')
        as (s & Hs & Hl).
      exists s. split; [done|]. unfold links in Hl. congruence. }
    assert (forall j' s', j' ∈ slots -> propagate j reg !! j' = Some s' ->
              mappedState s' <> Some i) as Hw'.
    { intros j' s' Hin Hj'. destruct (Hback j' s' Hin Hj') as (s & Hs & <-).
      apply (Hw j'); [by right|done]. }
    assert (forall j' s', j' ∈ slots -> propagate j reg !! j' = Some s' ->
              mappedState s' = Some t -> j' = i) as Ho'.
    { intros j' s' Hin Hj' Hms.
      destruct (Hback j' s' Hin Hj') as (s & Hs & E).
      apply (Ho j' s); [by right|done|congruence]. }
    assert (propagate j reg !! i = Some src) as Hi'.
    { rewrite propagate_other_target; [done|].
      intros s Hs. apply (Hw j); [left|done]. }
    destruct (decide (j = i)) as [->|Hji].
    + assert (propagate i reg !! t = Some (mirrored src dst)) as Ht'.
      { unfold propagate, mirrored. rewrite Hi, Hm.
        destruct (level_eqb (state src) PRESSED); [|done].
        by rewrite list_lookup_alter_eq, Ht. }
      rewrite (IH Hnd _ _ Hw' Ho' Hi' Ht').
      destruct (decide (i ∈ slots)) as [Hin|_]; [done|].
      destruct (decide (i ∈ i :: slots)) as [_|Hout]; [done|].
      exfalso. apply Hout. left.
    + assert (propagate j reg !! t = Some dst) as Ht'.
      { rewrite propagate_other_target; [done|].
        intros s Hs Hms. apply Hji. apply (Ho j s); [left|done|done]. }
      rewrite (IH Hnd _ _ Hw' Ho' Hi' Ht').
      destruct (decide (i ∈ slots)) as [Hin|Hin];
        destruct (decide (i ∈ j :: slots)) as [Hin'|Hin']; try done.
      * exfalso. apply Hin'. by right.
      * apply elem_of_cons in Hin' as [->|?]; done.
Qed.

Lemma seq_split (n k : nat) :
  (k <= n)%nat -> seq 0 n = seq 0 k ++ seq k (n - k).
Proof.
  intros H. replace n with (k + (n - k))%nat at 1 by lia. apply seq_app.
Qed.

(** X24. The second loop runs in slot order, each slot seeing what the
    earlier ones wrote.  Take a chain: slot [i] maps onto [j], [j] onto
    [k], nothing else maps onto any of them.  If [i] comes before [j], a
    press of [i] reaches [k] within the same poll (two hops); if [i]
    comes after [j], slot [k] gets what the first loop left in [j], and
    the press of [i] reaches [j] only. *)
Theorem mirror_chain_order (now : Z) (digitalRead : Z -> Level)
    (callback : bool) (reg : list State) (i j k : nat) (si sj sk : State) :
  reg !! i = Some si -> reg !! j = Some sj -> reg !! k = Some sk ->
  i <> j -> j <> k -> i <> k ->
  mappedState si = Some j -> mappedState sj = Some k ->
  unmirrored i reg -> onlySource i j reg -> onlySource j k reg ->
  let si1 := (pollSlot now digitalRead callback si).1 in
  let sj1 := (pollSlot now digitalRead callback sj).1 in
  let sk1 := (pollSlot now digitalRead callback sk).1 in
  let reg' := (update now digitalRead callback reg).1 in
  reg' !! j = Some (mirrored si1 sj1)
  /\ ((i < j)%nat -> reg' !! k = Some (mirrored (mirrored si1 sj1) sk1))
  /\ ((j < i)%nat -> reg' !! k = Some (mirrored sj1 sk1)).
Proof.
  intros Hi Hj Hk Hij Hjk Hik Hmi Hmj Hu Hoj Hok si1 sj1 sk1 reg'.
  subst reg'. unfold update.
  pose proof (pollAll_links now digitalRead callback reg) as Hl.
  pose proof (pollAll_fst now digitalRead callback reg) as Hf.
  destruct (pollAll now digitalRead callback reg) as [reg1 n]. simpl in *.
  assert (reg1 !! i = Some si1) as Hi1 by (by rewrite Hf, list_lookup_fmap, Hi).
  assert (reg1 !! j = Some sj1) as Hj1 by (by rewrite Hf, list_lookup_fmap, Hj).
  assert (reg1 !! k = Some sk1) as Hk1 by (by rewrite Hf, list_lookup_fmap, Hk).
  assert (forall s, links (pollSlot now digitalRead callback s).1 = links s)
    as Hpl by (intros; apply pollSlot_links).
  assert (mappedState si1 = Some j) as Hmi1
    by (pose proof (Hpl si) as E; unfold links in E; subst si1; congruence).
  assert (mappedState sj1 = Some k) as Hmj1
    by (pose proof (Hpl sj) as E; unfold links in E; subst sj1; congruence).
  assert (unmirrored i reg1) as Hu1 by (by eapply unmirrored_links).
  assert (onlySource i j reg1) as Hoj1 by (by eapply onlySource_links).
  assert (onlySource j k reg1) as Hok1 by (by eapply onlySource_links).
  clear Hf Hl Hu Hoj Hok Hi Hj Hk Hmi Hmj.
  assert (i < length reg1 /\ j < length reg1)%nat as [Hli Hlj]
    by (split; eapply lookup_lt_Some; eassumption).
  assert (forall reg2, links <$> reg2 = links <$> reg1 ->
            unmirrored i reg2 /\ onlySource i j reg2 /\ onlySource j k reg2)
    as Hinv.
  { intros reg2 E. repeat split;
      [by eapply unmirrored_links|by eapply onlySource_links
      |by eapply onlySource_links]. }
  assert (mappedState (mirrored si1 sj1) = Some k) as Hmm
    by (unfold mirrored; by destruct (level_eqb (state si1) PRESSED)).
  unfold propagateAll.
  assert (forall (slots : list nat) (reg2 : list State),
            unmirrored i reg2 -> forall j' s, j' ∈ slots ->
            reg2 !! j' = Some s -> mappedState s <> Some i) as Hnow.
  { intros slots reg2 Hu2 j' s _ Hs. unfold unmirrored in Hu2.
    rewrite Forall_lookup in Hu2. by apply (Hu2 j' s). }
  repeat split.
  - (* slot j: written by i only *)
    rewrite (propagate_fold_source i j si1 _ Hij Hmi1 (NoDup_seq _ _) reg1 sj1);
      try done.
    + destruct (decide (i ∈ seq 0 (length reg1))) as [_|Hout]; [done|].
      exfalso. apply Hout, elem_of_seq. lia.
    + by apply Hnow.
    + intros j' s _ Hs Hms. by apply (Hoj1 j' s).
  - (* i before j *)
    intros Hlt. rewrite (seq_split (length reg1) j) by lia.
    rewrite fold_left_app.
    set (mid := fold_left (fun r j0 => propagate j0 r) (seq 0 j) reg1).
    destruct (Hinv mid (propagate_fold_links _ _)) as (Hu2 & Hoj2 & Hok2).
    assert (mid !! j = Some (mirrored si1 sj1)) as Hj2.
    { subst mid.
      rewrite (propagate_fold_source i j si1 _ Hij Hmi1 (NoDup_seq _ _)
                 reg1 sj1); try done.
      - destruct (decide (i ∈ seq 0 j)) as [_|Hout]; [done|].
        exfalso. apply Hout, elem_of_seq. lia.
      - by apply Hnow.
      - intros j' s _ Hs Hms. by apply (Hoj1 j' s). }
    assert (mid !! k = Some sk1) as Hk2.
    { subst mid. rewrite propagate_fold_keep; [done|].
      intros j' s Hin Hs Hms. apply elem_of_seq in Hin.
      pose proof (Hok1 j' s Hs Hms). lia. }
    rewrite (propagate_fold_source j k (mirrored si1 sj1) _ Hjk Hmm
               (NoDup_seq _ _) mid sk1); try done.
    + destruct (decide (j ∈ seq j (length reg1 - j))) as [_|Hout]; [done|].
      exfalso. apply Hout, elem_of_seq. lia.
    + intros j' s Hin Hs Hms. apply elem_of_seq in Hin.
      pose proof (Hoj2 j' s Hs Hms). lia.
    + intros j' s _ Hs Hms. by apply (Hok2 j' s).
  - (* j before i *)
    intros Hlt. rewrite (seq_split (length reg1) i) by lia.
    rewrite fold_left_app.
    set (mid := fold_left (fun r j0 => propagate j0 r) (seq 0 i) reg1).
    destruct (Hinv mid (propagate_fold_links _ _)) as (Hu2 & Hoj2 & Hok2).
    assert (mid !! k = Some (mirrored sj1 sk1)) as Hk2.
    { subst mid.
      rewrite (propagate_fold_source j k sj1 _ Hjk Hmj1 (NoDup_seq _ _)
                 reg1 sk1); try done.
      - destruct (decide (j ∈ seq 0 i)) as [_|Hout]; [done|].
        exfalso. apply Hout, elem_of_seq. lia.
      - intros j' s Hin Hs Hms. apply elem_of_seq in Hin.
        pose proof (Hoj1 j' s Hs Hms). lia.
      - intros j' s _ Hs Hms. by apply (Hok1 j' s). }
    rewrite propagate_fold_keep; [done|].
    intros j' s Hin Hs Hms. apply elem_of_seq in Hin.
    pose proof (Hok2 j' s Hs Hms). lia.
Qed.

(** ** Unused slots *)

(** X25. Unused slots that hold no mapping pointer stay that way under
    [setup], [update], [reset] and the six predicates, and on such a
    registry the second loop of [update] is the loop that skips unused
    slots. *)
Theorem unused_slots_never_mirror (reg : list State) :
  unusedUnbound reg ->
  propagateAll reg = propagateAllSkipping reg
  /\ unusedUnbound (setup reg)
  /\ forall q now digitalRead callback rst p,
       unusedUnbound (update now digitalRead callback reg).1
       /\ unusedUnbound (reset now reg p)
       /\ unusedUnbound (query q now reg p rst).2.
Proof.
  intros H. split; [by apply propagateAll_skipping|].
  split; [by apply setup_unusedUnbound|].
  intros q now digitalRead callback rst p. repeat split.
  - eapply unusedUnbound_links; [apply update_links|done].
  - eapply unusedUnbound_links; [apply reset_links|done].
  - eapply unusedUnbound_links; [apply query_links|done].
Qed.


End Engine.

(** ** Instances at the header defaults *)

(** C1, counterexample.  With exactly [BUTTON_DOUBLECLICK_TIME] = 400 ms
    between [last_time] = 50 and the clock = 450, every gate passes when
    the settle gate is read as "at least", and [checkPress] returns
    false. *)
Lemma checkPress_settle_boundary :
  gatesAtLeast DEFAULT_DOUBLECLICK_TIME 450 shortPress 0 0 false
  /\ (checkPress DEFAULT_DOUBLECLICK_TIME 450 [shortPress] (Some 0%nat)
        0 0 false false).1 = false.
Proof.
  split; [|reflexivity].
  unfold gatesAtLeast, shortPress, DEFAULT_DOUBLECLICK_TIME. simpl.
  repeat split; try done. by left.
Qed.

Lemma checkPress_true_iff_gates_witness :
  [shortPress] !! 0%nat = Some shortPress
  /\ ((checkPress DEFAULT_DOUBLECLICK_TIME 451 [shortPress] (Some 0%nat)
         0 DEFAULT_LONGPRESS_TIME false true).1 = true
      <-> (state shortPress = RELEASED /\ 0 < duration shortPress
           /\ DEFAULT_DOUBLECLICK_TIME < usub 451 (last_time shortPress))
          /\ (0 < duration shortPress
              /\ (DEFAULT_LONGPRESS_TIME = 0
                  \/ duration shortPress <= DEFAULT_LONGPRESS_TIME))
          /\ (false = true -> doublePress shortPress = true)).
Proof.
  split; [reflexivity|].
  apply (checkPress_true_iff_gates DEFAULT_DOUBLECLICK_TIME 451 [shortPress]
           0%nat shortPress 0 DEFAULT_LONGPRESS_TIME false true).
  reflexivity.
Defined.

(** C2, counterexample.  In the built-in registry the confirm slot mirrors
    onto the OK slot.  Over three polls 30 ms apart OK's raw level toggles
    at every poll while confirm is held down; the third poll registers
    confirm's press and the second loop writes [PRESSED] onto OK. *)
Lemma mirrored_bounce_changes_state :
  boundButtons !! 0%nat = Some (initial 2 255)
  /\ togglesFast DEFAULT_DEBOUNCE_TIME (lastReading (initial 2 255))
       (lastChangeTime (initial 2 255)) (pin (initial 2 255))
       bounceWhileMirrored = true
  /\ exists b',
       (pollSeq DEFAULT_DEBOUNCE_TIME DEFAULT_DOUBLECLICK_TIME
          DEFAULT_LONGPRESS_TIME false bounceWhileMirrored boundButtons).1
         !! 0%nat = Some b'
       /\ state b' = PRESSED /\ state (initial 2 255) = RELEASED.
Proof.
  split; [reflexivity|]. split; [reflexivity|].
  eexists. split; [vm_compute; reflexivity|]. split; reflexivity.
Qed.

Lemma debounce_stability_witness :
  boundButtons !! 1%nat = Some (set_mappedState (Some 0%nat) (initial 3 2))
  /\ exists b',
       (pollSeq DEFAULT_DEBOUNCE_TIME DEFAULT_DOUBLECLICK_TIME
          DEFAULT_LONGPRESS_TIME false (take 3 bounceConfirm) boundButtons).1
         !! 1%nat = Some b'
       /\ state b' = state (set_mappedState (Some 0%nat) (initial 3 2)).
Proof.
  split; [reflexivity|].
  apply (debounce_stability DEFAULT_DEBOUNCE_TIME DEFAULT_DOUBLECLICK_TIME
           DEFAULT_LONGPRESS_TIME false bounceConfirm boundButtons 1%nat
           (set_mappedState (Some 0%nat) (initial 3 2))).
  - reflexivity.
  - repeat (constructor; [discriminate|]). constructor.
  - reflexivity.
Defined.

Lemma long_press_cadence_witness :
  let reg := [justPressed 2 5000; initial 4 255] in
  let counts :=
    (pollSeq DEFAULT_DEBOUNCE_TIME DEFAULT_DOUBLECLICK_TIME
       DEFAULT_LONGPRESS_TIME true
       (everyMs 5000 (port LOW HIGH) (Z.to_nat (3 * DEFAULT_LONGPRESS_TIME)))
       reg).2 in
  counts = window DEFAULT_LONGPRESS_TIME ++ window DEFAULT_LONGPRESS_TIME
           ++ window DEFAULT_LONGPRESS_TIME
  /\ sum_list counts = 3%nat.
Proof.
  intros reg.
  apply (long_press_cadence DEFAULT_DEBOUNCE_TIME DEFAULT_DOUBLECLICK_TIME
           DEFAULT_LONGPRESS_TIME (port LOW HIGH) reg 0%nat
           (justPressed 2 5000) 5000); try reflexivity.
  - split; [discriminate | reflexivity].
  - discriminate.
  - repeat (constructor; [discriminate|]). constructor.
  - intros [|[|j]] b' Hne Hj; [done| |done].
    injection Hj as <-. right. reflexivity.
  - discriminate.
Defined.

(** The condition on the first window is needed.  A press registered at
    clock 2^32 - 700: the first window ends at clock 300, where
    [now - lastLongPressCallback] with [lastLongPressCallback] = 0 is 300;
    the callback first runs at clock 1000, 1700 ms after the press, and
    only twice in the 3000 polls. *)
Lemma long_press_late_when_first_window_wraps :
  let counts :=
    (pollSeq DEFAULT_DEBOUNCE_TIME DEFAULT_DOUBLECLICK_TIME
       DEFAULT_LONGPRESS_TIME true
       (everyMs 4294966596 (port LOW HIGH) 3000)
       [justPressed 2 4294966596]).2 in
  counts = replicate 1699 0%nat ++ [1%nat] ++ replicate 999 0%nat ++ [1%nat]
           ++ replicate 300 0%nat.
Proof. vm_compute. reflexivity. Qed.

(** C3, counterexample.  On the built-in registry with only pin 2 used,
    the raw input of pin 2 goes down at clock 5000 and stays down for
    3 * [BUTTON_LONGPRESS_TIME] = 3000 polls a millisecond apart.  The
    press is registered at clock 5051, the callback runs at 6051 and at
    7051, and the hold ends at 7999: two callbacks, not three. *)
Lemma raw_hold_of_three_windows_fires_twice :
  let counts :=
    (pollSeq DEFAULT_DEBOUNCE_TIME DEFAULT_DOUBLECLICK_TIME
       DEFAULT_LONGPRESS_TIME true
       (everyMs 4999 (port LOW HIGH) (Z.to_nat (3 * DEFAULT_LONGPRESS_TIME)))
       [initial 2 255]).2 in
  sum_list counts = 2%nat
  /\ counts = replicate 1051 0%nat ++ [1%nat] ++ replicate 999 0%nat
              ++ [1%nat] ++ replicate 948 0%nat.
Proof. vm_compute. split; reflexivity. Qed.

(** C9, the code at the failing input.  A never-pressed slot on pin 2,
    a callback registered, the raw input down from clock 2^32 - 751 on,
    one poll per millisecond.  After 52 polls the press is registered,
    at clock 2^32 - 700.  At clock 300, past the wrap, the press is one
    long-press time old by the wrapping subtraction, and the callback
    does not run: the long-press time stamp is 0 and the test subtracts
    it from the clock.  The callback first runs at clock 1000, 1700 ms
    after the press was registered. *)
Theorem first_callback_late_across_wrap :
  let down := port LOW HIGH in
  let held := justPressed 2 4294966596 in
  (pollSeq DEFAULT_DEBOUNCE_TIME DEFAULT_DOUBLECLICK_TIME
     DEFAULT_LONGPRESS_TIME true (everyMs 4294966544 down 52)
     [initial 2 255]).1 = [held]
  /\ usub 300 (last_time held) = DEFAULT_LONGPRESS_TIME
  /\ pollSlot DEFAULT_DEBOUNCE_TIME DEFAULT_DOUBLECLICK_TIME
       DEFAULT_LONGPRESS_TIME 300 down true held = (held, false)
  /\ (pollSeq DEFAULT_DEBOUNCE_TIME DEFAULT_DOUBLECLICK_TIME
        DEFAULT_LONGPRESS_TIME true (everyMs 4294966544 down (52 + 1700))
        [initial 2 255]).2 = replicate (51 + 1700) 0%nat ++ [1%nat]
  /\ wrap (4294966544 + 52 + 1700) = DEFAULT_LONGPRESS_TIME.
Proof. vm_compute. repeat split; reflexivity. Qed.

(** C4, the code at the failing input.  Slot 0 is unused (pin 255) but
    [PRESSED] with its mapping pointer bound to slot 1; the first loop
    skips it, the second does not: after one poll with every pin reading
    [HIGH], slot 1 is [PRESSED] with the fields of slot 0. *)
Theorem unused_slot_still_mirrors :
  (update DEFAULT_DEBOUNCE_TIME DEFAULT_DOUBLECLICK_TIME
     DEFAULT_LONGPRESS_TIME 100 (fun _ => HIGH) false staleMirror).1
  = [mkState 255 PRESSED true 7 9 RELEASED 0 0 5 (Some 1%nat);
     mkState 5 PRESSED true 7 9 RELEASED 0 0 255 None].
Proof. reflexivity. Qed.

Lemma consume_reports_once_witness :
  pendingPress DEFAULT_DOUBLECLICK_TIME DEFAULT_LONGPRESS_TIME
    IsShortPressed 451 shortPress
  /\ (query DEFAULT_DOUBLECLICK_TIME DEFAULT_LONGPRESS_TIME IsShortPressed
        451 [shortPress] 2 true).1 = true
  /\ (query DEFAULT_DOUBLECLICK_TIME DEFAULT_LONGPRESS_TIME IsShortPressed 451
        (query DEFAULT_DOUBLECLICK_TIME DEFAULT_LONGPRESS_TIME IsShortPressed
           451 [shortPress] 2 true).2 2 true).1 = false.
Proof.
  assert (pendingPress DEFAULT_DOUBLECLICK_TIME DEFAULT_LONGPRESS_TIME
            IsShortPressed 451 shortPress) as Hpend.
  { repeat split; try reflexivity; try discriminate. right. discriminate. }
  split; [exact Hpend|].
  apply (consume_reports_once DEFAULT_DOUBLECLICK_TIME DEFAULT_LONGPRESS_TIME
           IsShortPressed 451 451 [shortPress] 2 0%nat shortPress);
    [reflexivity | reflexivity | exact Hpend].
Defined.

Lemma peek_keeps_registry_witness :
  (query DEFAULT_DOUBLECLICK_TIME DEFAULT_LONGPRESS_TIME IsPressed
     451 [shortPress] 2 false).1 = true
  /\ (query DEFAULT_DOUBLECLICK_TIME DEFAULT_LONGPRESS_TIME IsPressed
        (wrap (451 + 100000))
        (query DEFAULT_DOUBLECLICK_TIME DEFAULT_LONGPRESS_TIME IsPressed
           451 [shortPress] 2 false).2 2 false).1 = true.
Proof.
  split; [reflexivity|].
  apply (proj2 (peek_keeps_registry DEFAULT_DOUBLECLICK_TIME
                  DEFAULT_LONGPRESS_TIME IsPressed 451 [shortPress] 2)
           0%nat shortPress 100000);
    try reflexivity.
  discriminate.
Defined.

Lemma reset_named_and_dependents_witness :
  exists k bk,
    getState boundButtons 2 = Some k /\ boundButtons !! k = Some bk
    /\ pin bk = 2
    /\ (forall j' b', (j' < k)%nat -> boundButtons !! j' = Some b' -> pin b' <> 2)
    /\ length (reset 777 boundButtons 2) = length boundButtons
    /\ forall j b, boundButtons !! j = Some b ->
         exists b', reset 777 boundButtons 2 !! j = Some b'
           /\ pin b' = pin b /\ mappedPin b' = mappedPin b
           /\ mappedState b' = mappedState b
           /\ (j = k \/ mappedPin b = 2 ->
                 state b' = RELEASED /\ doublePress b' = false
                 /\ duration b' = 0 /\ last_time b' = 0
                 /\ lastReading b' = RELEASED /\ lastChangeTime b' = 777
                 /\ lastLongPressCallback b' = 0)
           /\ (j <> k -> mappedPin b <> 2 -> b' = b).
Proof.
  apply (reset_named_and_dependents 777 boundButtons 2 (initial 2 255)).
  - discriminate.
  - apply list_elem_of_here.
  - reflexivity.
Defined.

(** One hop only: resetting pin 2 clears its slot and the slot mapped to
    it, not the slot mapped to that one. *)
Lemma reset_one_hop :
  reset 777 chain 2
  = [mkState 2 RELEASED false 0 0 RELEASED 777 0 255 None;
     mkState 3 RELEASED false 0 0 RELEASED 777 0 2 (Some 0%nat);
     mkState 4 PRESSED true 0 900 PRESSED 800 0 3 (Some 1%nat)].
Proof. reflexivity. Qed.

Lemma unknown_pin_noop_witness :
  query DEFAULT_DOUBLECLICK_TIME DEFAULT_LONGPRESS_TIME IsLongPressed
    5000 boundButtons 9 true = (false, boundButtons)
  /\ reset 5000 boundButtons 9 = boundButtons.
Proof.
  apply (unknown_pin_noop DEFAULT_DOUBLECLICK_TIME DEFAULT_LONGPRESS_TIME
           IsLongPressed 5000 boundButtons 9 true).
  right. intros b Hb. apply list_elem_of_In in Hb.
  destruct Hb as [<-|[<-|[<-|[]]]]; discriminate.
Defined.

Lemma wraparound_safe_witness :
  4294967196 <= 4294967316 < 4294967196 + ULONG_MODULUS
  /\ wrap 4294967316 = 20
  /\ duration
       (pollButton DEFAULT_DEBOUNCE_TIME DEFAULT_DOUBLECLICK_TIME
          DEFAULT_LONGPRESS_TIME 20 RELEASED true pressedBeforeWrap).1
     = 4294967316 - 4294967196.
Proof.
  assert (4294967196 <= 4294967316 < 4294967196 + ULONG_MODULUS) as Ht
    by (split; [discriminate | reflexivity]).
  split; [exact Ht|]. split; [reflexivity|].
  apply (proj1 (wraparound_safe DEFAULT_DEBOUNCE_TIME DEFAULT_DOUBLECLICK_TIME
                  DEFAULT_LONGPRESS_TIME 4294967196 4294967316 Ht)
           RELEASED true pressedBeforeWrap);
    reflexivity.
Defined.

Lemma first_press_near_zero_double_witness :
  exists b',
    (update DEFAULT_DEBOUNCE_TIME DEFAULT_DOUBLECLICK_TIME
       DEFAULT_LONGPRESS_TIME 100 (port LOW HIGH) false [pendingFirstPress]).1
      !! 0%nat = Some b'
    /\ state b' = PRESSED /\ last_time b' = 100 /\ doublePress b' = true.
Proof.
  apply (first_press_near_zero_double DEFAULT_DEBOUNCE_TIME
           DEFAULT_DOUBLECLICK_TIME DEFAULT_LONGPRESS_TIME 100 (port LOW HIGH)
           false [pendingFirstPress] 0%nat pendingFirstPress);
    try reflexivity.
  - repeat (constructor; [discriminate|]). constructor.
  - discriminate.
  - split; [discriminate | reflexivity].
Defined.

(** ** Further instances at the header defaults *)

Lemma setup_binds_witness :
  Buttons 2 3 4 !! 1%nat = Some (initial 3 2)
  /\ setup (Buttons 2 3 4) !! 1%nat
     = Some (set_mappedState (Some 0%nat) (initial 3 2)).
Proof.
  split; [reflexivity|].
  pose proof (setup_binds (Buttons 2 3 4) 1%nat (initial 3 2) eq_refl) as [H _].
  apply H; [discriminate|discriminate|].
  split; [exists (initial 2 255); split; reflexivity|].
  intros j d' Hj. inversion Hj.
Defined.

Lemma reset_silences_witness :
  query DEFAULT_DOUBLECLICK_TIME DEFAULT_LONGPRESS_TIME IsPressed 9999
    (reset 777 boundButtons 2) 3 true
  = (false, reset 777 boundButtons 2).
Proof.
  apply (reset_silences DEFAULT_DOUBLECLICK_TIME DEFAULT_LONGPRESS_TIME
           IsPressed 777 9999 boundButtons 2 3 true 0%nat 1%nat
           (set_mappedState (Some 0%nat) (initial 3 2)));
    try reflexivity.
  right. reflexivity.
Defined.

Lemma consume_silences_witness :
  (query DEFAULT_DOUBLECLICK_TIME DEFAULT_LONGPRESS_TIME IsShortPressed 451
     [shortPress] 2 true).1 = true
  /\ query DEFAULT_DOUBLECLICK_TIME DEFAULT_LONGPRESS_TIME IsPressed 5000
       (query DEFAULT_DOUBLECLICK_TIME DEFAULT_LONGPRESS_TIME IsShortPressed
          451 [shortPress] 2 true).2 2 false
     = (false,
        (query DEFAULT_DOUBLECLICK_TIME DEFAULT_LONGPRESS_TIME IsShortPressed
           451 [shortPress] 2 true).2).
Proof.
  split; [reflexivity|].
  apply (consume_silences DEFAULT_DOUBLECLICK_TIME DEFAULT_LONGPRESS_TIME
           IsShortPressed IsPressed 451 5000 [shortPress] 2 2 false 0%nat
           shortPress); try reflexivity.
  left. reflexivity.
Defined.

Lemma short_or_long_witness :
  DEFAULT_LONGPRESS_TIME <> 0
  /\ (isPressed DEFAULT_DOUBLECLICK_TIME 451 [shortPress] 2 false).1
     = (isShortPressed DEFAULT_DOUBLECLICK_TIME DEFAULT_LONGPRESS_TIME 451
          [shortPress] 2 false).1
       || (isLongPressed DEFAULT_DOUBLECLICK_TIME DEFAULT_LONGPRESS_TIME 451
             [shortPress] 2 false).1.
Proof.
  split; [discriminate|].
  apply (short_or_long DEFAULT_DOUBLECLICK_TIME DEFAULT_LONGPRESS_TIME 451
           [shortPress] 2 false).
  discriminate.
Defined.

Lemma press_registration_witness :
  exists b',
    (update DEFAULT_DEBOUNCE_TIME DEFAULT_DOUBLECLICK_TIME
       DEFAULT_LONGPRESS_TIME (wrap 100) (port LOW HIGH) true
       [pendingFirstPress]).1 !! 0%nat = Some b'
    /\ state b' = PRESSED /\ last_time b' = wrap 100 /\ duration b' = 0
    /\ lastReading b' = PRESSED
    /\ lastChangeTime b' = lastChangeTime pendingFirstPress
    /\ (doublePress b' = true <-> 100 - 0 < DEFAULT_DOUBLECLICK_TIME).
Proof.
  apply (press_registration DEFAULT_DEBOUNCE_TIME DEFAULT_DOUBLECLICK_TIME
           DEFAULT_LONGPRESS_TIME 0 100 (port LOW HIGH) true
           [pendingFirstPress] 0%nat pendingFirstPress);
    try reflexivity.
  - split; [discriminate|reflexivity].
  - repeat (constructor; [discriminate|]). constructor.
  - discriminate.
Defined.

Lemma release_registration_witness :
  exists b',
    (update DEFAULT_DEBOUNCE_TIME DEFAULT_DOUBLECLICK_TIME
       DEFAULT_LONGPRESS_TIME (wrap 4294967316) (port HIGH HIGH) true
       [pressedBeforeWrap]).1 !! 0%nat = Some b'
    /\ state b' = RELEASED /\ duration b' = 4294967316 - 4294967196
    /\ last_time b' = wrap 4294967196
    /\ doublePress b' = doublePress pressedBeforeWrap
    /\ lastLongPressCallback b' = 0
    /\ (pollSlot DEFAULT_DEBOUNCE_TIME DEFAULT_DOUBLECLICK_TIME
          DEFAULT_LONGPRESS_TIME (wrap 4294967316) (port HIGH HIGH) true
          pressedBeforeWrap).2 = false.
Proof.
  apply (release_registration DEFAULT_DEBOUNCE_TIME DEFAULT_DOUBLECLICK_TIME
           DEFAULT_LONGPRESS_TIME 4294967196 4294967316 (port HIGH HIGH) true
           [pressedBeforeWrap] 0%nat pressedBeforeWrap);
    try reflexivity.
  - split; [discriminate|reflexivity].
  - repeat (constructor; [discriminate|]). constructor.
  - discriminate.
Defined.

Lemma no_callback_before_clock_reaches_longpress_witness :
  (update DEFAULT_DEBOUNCE_TIME DEFAULT_DOUBLECLICK_TIME
     DEFAULT_LONGPRESS_TIME 300 (port LOW HIGH) true
     [justPressed 2 4294966596]).2 = 0%nat.
Proof.
  apply (no_callback_before_clock_reaches_longpress DEFAULT_DEBOUNCE_TIME
           DEFAULT_DOUBLECLICK_TIME DEFAULT_LONGPRESS_TIME 300 (port LOW HIGH)
           true [justPressed 2 4294966596]).
  - split; [discriminate|reflexivity].
  - reflexivity.
  - intros b Hb. apply list_elem_of_singleton in Hb. rewrite Hb. reflexivity.
Defined.

Lemma bounce_rearms_callback_witness :
  (pollSeq DEFAULT_DEBOUNCE_TIME DEFAULT_DOUBLECLICK_TIME
     DEFAULT_LONGPRESS_TIME true
     [(5010, port HIGH HIGH); (5011, port LOW HIGH)] [heldJustFired]).2
  = [0%nat; 1%nat].
Proof.
  apply (bounce_rearms_callback DEFAULT_DEBOUNCE_TIME DEFAULT_DOUBLECLICK_TIME
           DEFAULT_LONGPRESS_TIME 5010 5011 (port HIGH HIGH) (port LOW HIGH)
           [heldJustFired] 0%nat heldJustFired);
    try reflexivity; try discriminate.
  - repeat (constructor; [discriminate|]). constructor.
  - intros [|j] b' Hne Hj; [done|discriminate].
  - intros [|j] b' Hne Hj; [done|discriminate].
Defined.

Lemma update_without_pressed_source_witness :
  (update DEFAULT_DEBOUNCE_TIME DEFAULT_DOUBLECLICK_TIME
     DEFAULT_LONGPRESS_TIME 100 (port LOW HIGH) true boundButtons).1
  = (fun b =>
       (pollSlot DEFAULT_DEBOUNCE_TIME DEFAULT_DOUBLECLICK_TIME
          DEFAULT_LONGPRESS_TIME 100 (port LOW HIGH) true b).1)
    <$> boundButtons.
Proof.
  apply (update_without_pressed_source DEFAULT_DEBOUNCE_TIME
           DEFAULT_DOUBLECLICK_TIME DEFAULT_LONGPRESS_TIME 100 (port LOW HIGH)
           true boundButtons).
  intros b Hb Hm. apply list_elem_of_In in Hb.
  destruct Hb as [<-|[<-|[<-|[]]]]; try reflexivity; exfalso; by apply Hm.
Defined.

Lemma idle_update_witness :
  update DEFAULT_DEBOUNCE_TIME DEFAULT_DOUBLECLICK_TIME DEFAULT_LONGPRESS_TIME
    100 (port HIGH HIGH) true boundButtons
  = (boundButtons, 0%nat).
Proof.
  apply (idle_update DEFAULT_DEBOUNCE_TIME DEFAULT_DOUBLECLICK_TIME
           DEFAULT_LONGPRESS_TIME 100 (port HIGH HIGH) true boundButtons).
  intros b Hb. apply list_elem_of_In in Hb.
  destruct Hb as [<-|[<-|[<-|[]]]]; right;
    (split; [discriminate|repeat split; reflexivity]).
Defined.

Lemma mirror_through_update_witness :
  let src1 :=
    (pollSlot DEFAULT_DEBOUNCE_TIME DEFAULT_DOUBLECLICK_TIME
       DEFAULT_LONGPRESS_TIME 1000 (port HIGH LOW) true
       (mkState 3 RELEASED false 0 0 PRESSED 10 0 2 (Some 0%nat))).1 in
  let dst1 :=
    (pollSlot DEFAULT_DEBOUNCE_TIME DEFAULT_DOUBLECLICK_TIME
       DEFAULT_LONGPRESS_TIME 1000 (port HIGH LOW) true (initial 2 255)).1 in
  (update DEFAULT_DEBOUNCE_TIME DEFAULT_DOUBLECLICK_TIME
     DEFAULT_LONGPRESS_TIME 1000 (port HIGH LOW) true mirrorPair).1 !! 1%nat
  = Some src1
  /\ (update DEFAULT_DEBOUNCE_TIME DEFAULT_DOUBLECLICK_TIME
        DEFAULT_LONGPRESS_TIME 1000 (port HIGH LOW) true mirrorPair).1 !! 0%nat
     = Some (if level_eqb (state src1) PRESSED then mirror src1 dst1
             else dst1).
Proof.
  apply (mirror_through_update DEFAULT_DEBOUNCE_TIME DEFAULT_DOUBLECLICK_TIME
           DEFAULT_LONGPRESS_TIME 1000 (port HIGH LOW) true mirrorPair
           1%nat 0%nat); try reflexivity.
  - discriminate.
  - repeat (constructor; [discriminate|]). constructor.
  - intros [|[|j]] s Hj Hm; [|reflexivity|discriminate].
    injection Hj as <-. discriminate.
Defined.

Lemma stamp_read_by_callback_test_only_witness :
  forgetStamp
  <$> (pollSeq DEFAULT_DEBOUNCE_TIME DEFAULT_DOUBLECLICK_TIME
         DEFAULT_LONGPRESS_TIME false bounceConfirm [heldJustFired]).1
  = forgetStamp
    <$> (pollSeq DEFAULT_DEBOUNCE_TIME DEFAULT_DOUBLECLICK_TIME
           DEFAULT_LONGPRESS_TIME false bounceConfirm [justPressed 2 4000]).1.
Proof.
  apply (stamp_read_by_callback_test_only DEFAULT_DEBOUNCE_TIME
           DEFAULT_DOUBLECLICK_TIME DEFAULT_LONGPRESS_TIME bounceConfirm
           [heldJustFired] [justPressed 2 4000]).
  reflexivity.
Defined.

Lemma click_latches_hold_time_witness :
  exists b',
    (pollSeq DEFAULT_DEBOUNCE_TIME DEFAULT_DOUBLECLICK_TIME
       DEFAULT_LONGPRESS_TIME true
       (clickSamples DEFAULT_DEBOUNCE_TIME 1000 (port LOW HIGH)
          (port HIGH HIGH) 120)
       [initial 2 255]).1 !! 0%nat = Some b'
    /\ state b' = RELEASED /\ duration b' = Z.of_nat 120
    /\ last_time b' = wrap (1000 + DEFAULT_DEBOUNCE_TIME + 1)
    /\ (doublePress b' = true
        <-> usub (wrap (1000 + DEFAULT_DEBOUNCE_TIME + 1))
              (last_time (initial 2 255))
            < DEFAULT_DOUBLECLICK_TIME)
    /\ lastReading b' = RELEASED
    /\ lastChangeTime b' = wrap (1000 + Z.of_nat 120)
    /\ lastLongPressCallback b' = 0.
Proof.
  apply (click_latches_hold_time DEFAULT_DEBOUNCE_TIME
           DEFAULT_DOUBLECLICK_TIME DEFAULT_LONGPRESS_TIME true 1000
           (port LOW HIGH) (port HIGH HIGH) 120 [initial 2 255] 0%nat
           (initial 2 255)); try reflexivity; try discriminate.
  - apply Nat.leb_le. reflexivity.
  - repeat (constructor; [discriminate|]). constructor.
Defined.

Lemma click_reported_by_hold_time_witness :
  let reg' :=
    (pollSeq DEFAULT_DEBOUNCE_TIME DEFAULT_DOUBLECLICK_TIME
       DEFAULT_LONGPRESS_TIME true
       (clickSamples DEFAULT_DEBOUNCE_TIME 1000 (port LOW HIGH)
          (port HIGH HIGH) 120)
       [initial 2 255]).1 in
  let settled :=
    DEFAULT_DOUBLECLICK_TIME
    < usub 2000 (wrap (1000 + DEFAULT_DEBOUNCE_TIME + 1)) in
  ((isPressed DEFAULT_DOUBLECLICK_TIME 2000 reg' 2 true).1 = true <-> settled)
  /\ ((isShortPressed DEFAULT_DOUBLECLICK_TIME DEFAULT_LONGPRESS_TIME 2000
         reg' 2 true).1 = true
      <-> settled /\ Z.of_nat 120 <= DEFAULT_LONGPRESS_TIME)
  /\ ((isLongPressed DEFAULT_DOUBLECLICK_TIME DEFAULT_LONGPRESS_TIME 2000
         reg' 2 true).1 = true
      <-> settled /\ DEFAULT_LONGPRESS_TIME < Z.of_nat 120).
Proof.
  apply (click_reported_by_hold_time DEFAULT_DEBOUNCE_TIME
           DEFAULT_DOUBLECLICK_TIME DEFAULT_LONGPRESS_TIME true 1000 2000
           (port LOW HIGH) (port HIGH HIGH) 120 [initial 2 255] 0%nat
           (initial 2 255) true); try reflexivity; try discriminate.
  - apply Nat.leb_le. reflexivity.
  - repeat (constructor; [discriminate|]). constructor.
Defined.

Lemma short_pulse_ignored_witness :
  exists b',
    (pollSeq DEFAULT_DEBOUNCE_TIME DEFAULT_DOUBLECLICK_TIME
       DEFAULT_LONGPRESS_TIME true
       (pulseSamples 1000 (port LOW HIGH) (port HIGH HIGH) 31 100)
       [shortPress]).1 !! 0%nat = Some b'
    /\ state b' = RELEASED /\ duration b' = duration shortPress
    /\ doublePress b' = doublePress shortPress
    /\ last_time b' = last_time shortPress
    /\ lastLongPressCallback b' = 0.
Proof.
  apply (short_pulse_ignored DEFAULT_DEBOUNCE_TIME DEFAULT_DOUBLECLICK_TIME
           DEFAULT_LONGPRESS_TIME true 1000 (port LOW HIGH) (port HIGH HIGH)
           30 99 [shortPress] 0%nat shortPress);
    try reflexivity; try discriminate.
  - apply Nat.leb_le. reflexivity.
  - repeat (constructor; [discriminate|]). constructor.
Defined.

Lemma reset_then_held_registers_again_witness :
  exists b',
    (pollSeq DEFAULT_DEBOUNCE_TIME DEFAULT_DOUBLECLICK_TIME
       DEFAULT_LONGPRESS_TIME true
       (everyMs (1000 - 1) (port LOW HIGH)
          (S (Z.to_nat DEFAULT_DEBOUNCE_TIME + 1)))
       (reset 999 [heldJustFired] 2)).1 !! 0%nat = Some b'
    /\ state b' = PRESSED /\ duration b' = 0
    /\ last_time b' = wrap (1000 + DEFAULT_DEBOUNCE_TIME + 1)
    /\ (doublePress b' = true
        <-> wrap (1000 + DEFAULT_DEBOUNCE_TIME + 1)
            < DEFAULT_DOUBLECLICK_TIME).
Proof.
  apply (reset_then_held_registers_again DEFAULT_DEBOUNCE_TIME
           DEFAULT_DOUBLECLICK_TIME DEFAULT_LONGPRESS_TIME true 999 1000
           (port LOW HIGH) [heldJustFired] 0%nat heldJustFired);
    try reflexivity; try discriminate.
  repeat (constructor; [discriminate|]). constructor.
Defined.

Lemma mirror_chain_order_witness :
  let poll :=
    pollSlot DEFAULT_DEBOUNCE_TIME DEFAULT_DOUBLECLICK_TIME
      DEFAULT_LONGPRESS_TIME 1000 (port LOW LOW) true in
  (update DEFAULT_DEBOUNCE_TIME DEFAULT_DOUBLECLICK_TIME
     DEFAULT_LONGPRESS_TIME 1000 (port LOW LOW) true chain).1 !! 0%nat
  = Some (mirrored
            (poll (mkState 3 PRESSED true 0 900 PRESSED 800 0 2
                     (Some 0%nat))).1
            (poll (mkState 2 PRESSED true 0 900 PRESSED 800 0 255 None)).1).
Proof.
  intros poll.
  assert (unmirrored 2 chain) as Hu
    by (repeat (constructor; [discriminate|]); constructor).
  assert (onlySource 2 1 chain) as Ho1.
  { intros [|[|[|j]]] s Hj Hm; simpl in Hj; try discriminate;
      try reflexivity; injection Hj as <-; discriminate. }
  assert (onlySource 1 0 chain) as Ho2.
  { intros [|[|[|j]]] s Hj Hm; simpl in Hj; try discriminate;
      try reflexivity; injection Hj as <-; discriminate. }
  assert (1 < 2)%nat as Hlt by (apply Nat.ltb_lt; reflexivity).
  apply (proj2 (proj2
           (mirror_chain_order DEFAULT_DEBOUNCE_TIME
              DEFAULT_DOUBLECLICK_TIME DEFAULT_LONGPRESS_TIME 1000
              (port LOW LOW) true chain 2%nat 1%nat 0%nat
              (mkState 4 PRESSED true 0 900 PRESSED 800 0 3 (Some 1%nat))
              (mkState 3 PRESSED true 0 900 PRESSED 800 0 2 (Some 0%nat))
              (mkState 2 PRESSED true 0 900 PRESSED 800 0 255 None)
              eq_refl eq_refl eq_refl
              ltac:(discriminate) ltac:(discriminate) ltac:(discriminate)
              eq_refl eq_refl Hu Ho1 Ho2)) Hlt).
Defined.

Lemma unused_slots_never_mirror_witness :
  propagateAll (Buttons 255 255 4) = propagateAllSkipping (Buttons 255 255 4)
  /\ unusedUnbound (setup (Buttons 255 255 4)).
Proof.
  pose proof (unused_slots_never_mirror DEFAULT_DEBOUNCE_TIME
                DEFAULT_DOUBLECLICK_TIME DEFAULT_LONGPRESS_TIME
                (Buttons 255 255 4)) as H.
  destruct H as (H1 & H2 & _); [|by split].
  repeat (constructor; [reflexivity|]). constructor.
Defined.

Lemma press_and_hold_cadence_witness :
  (pollSeq DEFAULT_DEBOUNCE_TIME DEFAULT_DOUBLECLICK_TIME
     DEFAULT_LONGPRESS_TIME true
     (everyMs (1000 - 1) (port LOW HIGH)
        (S (Z.to_nat DEFAULT_DEBOUNCE_TIME + 1)
         + Z.to_nat (3 * DEFAULT_LONGPRESS_TIME)))
     [initial 2 255]).2
  = replicate (S (Z.to_nat DEFAULT_DEBOUNCE_TIME + 1)) 0%nat
    ++ window DEFAULT_LONGPRESS_TIME ++ window DEFAULT_LONGPRESS_TIME
    ++ window DEFAULT_LONGPRESS_TIME.
Proof.
  apply (press_and_hold_cadence DEFAULT_DEBOUNCE_TIME DEFAULT_DOUBLECLICK_TIME
           DEFAULT_LONGPRESS_TIME (port LOW HIGH) [initial 2 255] 0%nat
           (initial 2 255) 1000); try reflexivity; try discriminate.
  - repeat (constructor; [discriminate|]). constructor.
  - intros [|j] b' Hne Hj; [done|discriminate].
Defined.


End AsyncButton.
